(** * CampusNotes: the note store and the HTTP handlers built on it

    A shallow embedding of [api/store.js], of its plain sibling store
    and of the upload and delete handlers of the two servers, with the
    properties the specification states about them.

    - JSON data is an inductive type; [undefined] is [None]; a note
      object, before it is written, may also hold a native [Date].
    - The backing file, the clock and the Cloudinary account form the
      [world]; the code runs in a state-and-exception monad over it.
    - Strings are kept as their UTF-8 bytes.
    - [Date] is the engine's: its two entry points are the methods of
      the class [Engine], and every theorem holds for every engine.
      What ECMAScript fixes of [new Date(x)], the conversion of [x] to
      a primitive and the [TypeError] it can throw, is modelled here. *)

From Stdlib Require Import ZArith List String Ascii Bool Lia.
From Stdlib Require Import Permutation Sorted DecimalString.
From Stdlib Require DecimalPos DecimalZ.
Import ListNotations.

Open Scope string_scope.
Open Scope Z_scope.

Set Implicit Arguments.
Set Warnings "-register-all".

(** ** JavaScript data *)

(** What [JSON.parse] can return.  Numbers are kept as integers: the
    numbers of this program are byte counts and millisecond clocks. *)
Inductive json : Type :=
| JNull
| JBool (b : bool)
| JNum (n : Z)
| JStr (s : string)
| JArr (items : list json)
| JObj (props : list (string * json)).

(** A JavaScript value as the code meets it: [None] is [undefined]. *)
Definition value : Type := option json.

Inductive exn : Type :=
| TypeError (message : string)
| SyntaxError (message : string)
| SystemError (message : string)
| CloudError (message : string).

Definition exn_message (e : exn) : string :=
  match e with
  | TypeError m | SyntaxError m | SystemError m | CloudError m => m
  end.

Inductive result (A : Type) : Type :=
| Ok (a : A)
| Throw (e : exn).
Arguments Ok {A} a.
Arguments Throw {A} e.

Definition bindR {A B} (r : result A) (k : A -> result B) : result B :=
  match r with
  | Ok a => k a
  | Throw e => Throw e
  end.

Notation "x <~ r ;; k" := (bindR r (fun x => k))
  (at level 61, r at next level, right associativity).

(** [ToBoolean]. *)
Definition truthy (v : value) : bool :=
  match v with
  | None | Some JNull => false
  | Some (JBool b) => b
  | Some (JNum n) => negb (n =? 0)
  | Some (JStr s) => negb (s =? "")%string
  | Some (JArr _) | Some (JObj _) => true
  end.

(** [a === b].  Arrays and objects are compared by reference; the two
    sides of every [===] of this program come from different places (a
    freshly parsed file and the caller), so they are never the same
    object. *)
Definition strict_eq (a b : value) : bool :=
  match a, b with
  | None, None => true
  | Some JNull, Some JNull => true
  | Some (JBool x), Some (JBool y) => Bool.eqb x y
  | Some (JNum x), Some (JNum y) => x =? y
  | Some (JStr x), Some (JStr y) => (x =? y)%string
  | _, _ => false
  end.

Fixpoint lookup (key : string) (props : list (string * json)) : value :=
  match props with
  | [] => None
  | (k, v) :: rest => if (k =? key)%string then Some v else lookup key rest
  end.

(** [v.key], for the keys this program reads ([id], [createdAt],
    [title], [publicId], [type]): own properties of objects, nothing on
    primitives and arrays, a [TypeError] on [null] and [undefined]. *)
Definition prop (v : value) (key : string) : result value :=
  match v with
  | None =>
      Throw (TypeError ("Cannot read properties of undefined (reading '" ++ key ++ "')"))
  | Some JNull =>
      Throw (TypeError ("Cannot read properties of null (reading '" ++ key ++ "')"))
  | Some (JObj props) => Ok (lookup key props)
  | Some _ => Ok None
  end.

(** The callbacks [n => n.id === id] and [n => n.id !== id]. *)
Definition id_is (id : value) (n : json) : result bool :=
  i <~ prop (Some n) "id" ;; Ok (strict_eq i id).

Definition id_is_not (id : value) (n : json) : result bool :=
  i <~ prop (Some n) "id" ;; Ok (negb (strict_eq i id)).

(** *** Array methods

    [recv.name(...)] on a parsed value: only arrays have the methods
    used here. *)
Definition array_method (recv : string) (name : string) (v : json)
  : result (list json) :=
  match v with
  | JArr items => Ok items
  | JNull =>
      Throw (TypeError ("Cannot read properties of null (reading '" ++ name ++ "')"))
  | _ => Throw (TypeError (recv ++ "." ++ name ++ " is not a function"))
  end.

Fixpoint find_first (p : json -> result bool) (l : list json) : result value :=
  match l with
  | [] => Ok None
  | x :: rest =>
      b <~ p x ;;
      if b then Ok (Some x) else find_first p rest
  end.

Fixpoint filter_all (p : json -> result bool) (l : list json)
  : result (list json) :=
  match l with
  | [] => Ok []
  | x :: rest =>
      b <~ p x ;;
      kept <~ filter_all p rest ;;
      Ok (if b then x :: kept else kept)
  end.

(** [Array.prototype.sort(comparefn)].  A [NaN] from the comparator
    counts as [+0].  For a consistent comparator ECMAScript fixes the
    result: the stable sorted permutation, which this insertion sort
    computes; for any other comparator the order is left to the engine. *)
Definition sort_order (c : option Z) : Z :=
  match c with
  | Some z => z
  | None => 0
  end.

Fixpoint sort_insert (cmp : json -> json -> result (option Z))
  (x : json) (sorted : list json) : result (list json) :=
  match sorted with
  | [] => Ok [x]
  | y :: rest =>
      c <~ cmp x y ;;
      if sort_order c <=? 0 then Ok (x :: y :: rest)
      else (r <~ sort_insert cmp x rest ;; Ok (y :: r))
  end.

Fixpoint sort_list (cmp : json -> json -> result (option Z))
  (l : list json) : result (list json) :=
  match l with
  | [] => Ok []
  | x :: rest =>
      s <~ sort_list cmp rest ;;
      sort_insert cmp x s
  end.

Definition Array_find (recv : string) (p : json -> result bool) (v : json)
  : result value :=
  l <~ array_method recv "find" v ;; find_first p l.

Definition Array_filter (recv : string) (p : json -> result bool) (v : json)
  : result json :=
  l <~ array_method recv "filter" v ;;
  kept <~ filter_all p l ;;
  Ok (JArr kept).

Definition Array_push (recv : string) (v : json) (x : json) : result json :=
  l <~ array_method recv "push" v ;; Ok (JArr (l ++ [x])).

Definition Array_sort (recv : string)
  (cmp : json -> json -> result (option Z)) (v : json) : result json :=
  l <~ array_method recv "sort" v ;;
  s <~ sort_list cmp l ;;
  Ok (JArr s).

(** *** Strings *)

(** The code points [String.prototype.trim] strips, WhiteSpace and
    LineTerminator of ECMAScript, by their UTF-8 bytes:
    U+0009 to U+000D and U+0020 (one byte); U+00A0 (two bytes); U+1680,
    U+2000 to U+200A, U+2028, U+2029, U+202F, U+205F, U+3000 and U+FEFF
    (three bytes). *)
Definition is_space (c : ascii) : bool :=
  let n := nat_of_ascii c in
  ((n =? 32) || ((9 <=? n) && (n <=? 13)))%nat.

Definition is_space2 (a b : ascii) : bool :=
  ((nat_of_ascii a =? 194) && (nat_of_ascii b =? 160))%nat.

Definition is_space3 (a b c : ascii) : bool :=
  let x := nat_of_ascii a in
  let y := nat_of_ascii b in
  let z := nat_of_ascii c in
  (((x =? 225) && (y =? 154) && (z =? 128))
   || ((x =? 226) && (y =? 128)
       && (((128 <=? z) && (z <=? 138)) || (z =? 168) || (z =? 169) || (z =? 175)))
   || ((x =? 226) && (y =? 129) && (z =? 159))
   || ((x =? 227) && (y =? 128) && (z =? 128))
   || ((x =? 239) && (y =? 187) && (z =? 191)))%nat.

Fixpoint trim_start (s : string) : string :=
  match s with
  | EmptyString => s
  | String a r1 =>
      if is_space a then trim_start r1
      else
        match r1 with
        | EmptyString => s
        | String b r2 =>
            if is_space2 a b then trim_start r2
            else
              match r2 with
              | EmptyString => s
              | String c r3 => if is_space3 a b c then trim_start r3 else s
              end
        end
  end.

(** The text is white space from end to end. *)
Definition all_space (s : string) : bool :=
  match trim_start s with
  | EmptyString => true
  | String _ _ => false
  end.

(** The text up to the white space it ends with.  No white space
    begins with a continuation byte, so the cut falls between two code
    points. *)
Fixpoint trim_end (s : string) : string :=
  match s with
  | EmptyString => EmptyString
  | String c rest => if all_space s then EmptyString else String c (trim_end rest)
  end.

Definition trim (s : string) : string := trim_end (trim_start s).

(** [s.split('.')[0]]: the text before the first dot. *)
Fixpoint before_dot (s : string) : string :=
  match s with
  | EmptyString => EmptyString
  | String c rest =>
      if Ascii.eqb c "."%char then EmptyString else String c (before_dot rest)
  end.

(** [n.toString()] of an integer. *)
Definition Number_toString (n : Z) : string :=
  NilZero.string_of_int (Z.to_int n).

(** *** Conversion to a primitive

    [ToPrimitive] and [ToString] of a value that [JSON.parse] returned.
    An object takes [valueOf] and [toString] from [Object.prototype]
    unless it has an own property of that name, and an own property
    read from JSON is never a function: an object with an own
    [toString] has no conversion, under either hint, and every other
    object converts to ["[object Object]"].  An array converts through
    [join], which converts each entry other than [null]. *)
Fixpoint converts (v : json) : bool :=
  match v with
  | JObj props =>
      match lookup "toString" props with
      | Some _ => false
      | None => true
      end
  | JArr items => forallb converts items
  | _ => true
  end.

(** The conversion as a step of the code: it returns, or throws.  The
    primitive it returns is read by the engine's [Date] only, or logged. *)
Definition to_primitive (v : value) : result unit :=
  match v with
  | Some j =>
      if converts j then Ok tt
      else Throw (TypeError "Cannot convert object to primitive value")
  | None => Ok tt
  end.

(** ** The engine's [Date] *)

Class Engine : Type := {
  (** the time value of [new Date(x)], for an [x] that converts to a
      primitive; [None] is an Invalid Date *)
  Date_time : value -> option Z;
  (** [new Date(t).toISOString()] *)
  Date_toISOString : Z -> string
}.

(** [new Date(x)]: [x] is converted to a primitive, which may throw,
    and the engine reads the time off that primitive. *)
Definition new_Date {engine : Engine} (x : value) : result (option Z) :=
  _ <~ to_primitive x ;; Ok (Date_time x).

(** ** Objects as the handlers build them

    A note object before it is written: each property is JSON data or
    a native [Date] (given by its time value). *)
Inductive property : Type :=
| Data (v : json)
| NativeDate (t : Z).

Definition object : Type := list (string * property).

Fixpoint get (key : string) (o : object) : option property :=
  match o with
  | [] => None
  | (k, p) :: rest => if (k =? key)%string then Some p else get key rest
  end.

(** [`${p}`], a property in a template literal: [ToString] of it.  A
    [Date] and [undefined] always have a text. *)
Definition template_text (p : option property) : result unit :=
  match p with
  | Some (Data v) => to_primitive (Some v)
  | Some (NativeDate _) | None => Ok tt
  end.

Section Serialising.
Context {engine : Engine}.

(** What [JSON.stringify] writes for a property: a [Date] writes
    itself, through its [toJSON], as its ISO string. *)
Definition property_toJSON (p : property) : json :=
  match p with
  | Data v => v
  | NativeDate t => JStr (Date_toISOString t)
  end.

Fixpoint serialise (o : object) : list (string * json) :=
  match o with
  | [] => []
  | (k, p) :: rest => (k, property_toJSON p) :: serialise rest
  end.

(** The object as [JSON.parse (JSON.stringify o)] gives it back. *)
Definition toJSON (o : object) : json := JObj (serialise o).

End Serialising.

(** ** The world: backing file, clock, Cloudinary *)

(** The text of a file, up to what [JSON.parse] makes of it. *)
Inductive text : Type :=
| EmptyText
| Malformed
| Document (v : json).

Inductive file_state : Type :=
| Missing
| Unreadable
| Holding (t : text).

Record upload_options : Type := {
  resource_type : string;
  folder : string;
  public_id : option string
}.

Record upload_result : Type := {
  secure_url : string;
  result_public_id : string
}.

Inductive cloud_call : Type :=
| UploadCall (options : upload_options) (buffer : list Byte.byte)
| DestroyCall (publicId : value) (resourceType : string).

Record world : Type := {
  disk : file_state;                 (* notes-data.json *)
  disk_writable : bool;              (* does writeFileSync go through *)
  clock : nat -> Z;                  (* successive readings of the clock *)
  clock_reads : nat;
  (* what the Cloudinary account answers, and the calls made so far *)
  upload_reply : upload_options -> result upload_result;
  destroy_reply : value -> string -> result unit;
  cloud_log : list cloud_call
}.

Definition set_disk (d : file_state) (w : world) : world :=
  {| disk := d; disk_writable := disk_writable w;
     clock := clock w; clock_reads := clock_reads w;
     upload_reply := upload_reply w; destroy_reply := destroy_reply w;
     cloud_log := cloud_log w |}.

Definition tick (w : world) : world :=
  {| disk := disk w; disk_writable := disk_writable w;
     clock := clock w; clock_reads := S (clock_reads w);
     upload_reply := upload_reply w; destroy_reply := destroy_reply w;
     cloud_log := cloud_log w |}.

Definition record_call (c : cloud_call) (w : world) : world :=
  {| disk := disk w; disk_writable := disk_writable w;
     clock := clock w; clock_reads := clock_reads w;
     upload_reply := upload_reply w; destroy_reply := destroy_reply w;
     cloud_log := cloud_log w ++ [c] |}.

(** ** The monad of the code *)

Definition M (A : Type) : Type := world -> result A * world.

Definition ret {A} (a : A) : M A := fun w => (Ok a, w).
Definition lift {A} (r : result A) : M A := fun w => (r, w).

Definition bind {A B} (m : M A) (k : A -> M B) : M B :=
  fun w =>
    match m w with
    | (Ok a, w') => k a w'
    | (Throw e, w') => (Throw e, w')
    end.

Notation "x <- m ;; k" := (bind m (fun x => k))
  (at level 61, m at next level, right associativity).
Notation "m ;;; k" := (bind m (fun _ => k))
  (at level 61, right associativity).

(** [try { body } catch (err) { handler }] *)
Definition try_catch {A} (body : M A) (handler : exn -> M A) : M A :=
  fun w =>
    match body w with
    | (Ok a, w') => (Ok a, w')
    | (Throw e, w') => handler e w'
    end.

(** *** [fs], [JSON], [Date.now], [cloudinary.uploader] *)

Definition fs_existsSync : M bool :=
  fun w =>
    (Ok (match disk w with Missing => false | _ => true end), w).

Definition fs_readFileSync : M text :=
  fun w =>
    match disk w with
    | Missing => (Throw (SystemError "ENOENT: no such file or directory"), w)
    | Unreadable => (Throw (SystemError "EACCES: permission denied"), w)
    | Holding t => (Ok t, w)
    end.

Definition fs_writeFileSync (t : text) : M unit :=
  fun w =>
    if disk_writable w then (Ok tt, set_disk (Holding t) w)
    else (Throw (SystemError "EACCES: permission denied"), w).

Definition JSON_parse (t : text) : result json :=
  match t with
  | Document v => Ok v
  | EmptyText => Throw (SyntaxError "Unexpected end of JSON input")
  | Malformed => Throw (SyntaxError "Unexpected token in JSON")
  end.

Definition JSON_stringify (v : json) : text := Document v.

Definition Date_now : M Z :=
  fun w => (Ok (clock w (clock_reads w)), tick w).

Definition cloudinary_upload (options : upload_options)
  (buffer : list Byte.byte) : M upload_result :=
  fun w => (upload_reply w options, record_call (UploadCall options buffer) w).

Definition cloudinary_destroy (publicId : value) (resourceType : string)
  : M unit :=
  fun w =>
    (destroy_reply w publicId resourceType,
     record_call (DestroyCall publicId resourceType) w).

(** ** [api/store.js], the primary store *)

Module Store.

(** Module initialisation: "Ensure file exists". *)
Definition bootstrap : M unit :=
  present <- fs_existsSync ;;
  if negb present then fs_writeFileSync (JSON_stringify (JArr []))
  else ret tt.

Definition readFile : M json :=
  try_catch
    (data <- fs_readFileSync ;; lift (JSON_parse data))
    (fun err => ret (JArr [])).

Definition writeFile (notes : json) : M unit :=
  try_catch
    (fs_writeFileSync (JSON_stringify notes))
    (fun err => ret tt).

Section WithEngine.
Context {engine : Engine}.

(** [(a, b) => new Date(b.createdAt) - new Date(a.createdAt)] *)
Definition newest_first (a b : json) : result (option Z) :=
  cb <~ prop (Some b) "createdAt" ;;
  db <~ new_Date cb ;;
  ca <~ prop (Some a) "createdAt" ;;
  da <~ new_Date ca ;;
  Ok (match db, da with
      | Some tb, Some ta => Some (tb - ta)
      | _, _ => None
      end).

Definition getNotes : M json :=
  notes <- readFile ;;
  lift (Array_sort "notes" newest_first notes).

(** After the push the array is only serialised (and its length
    logged), so the note enters it as [JSON.stringify] will write it.
    The log line that follows the write is a template literal holding
    [note.title]. *)
Definition addNote (note : object) : M object :=
  notes <- readFile ;;
  notes' <- lift (Array_push "notes" notes (toJSON note)) ;;
  writeFile notes' ;;;
  lift (template_text (get "title" note)) ;;;
  ret note.

End WithEngine.

(** The log line that follows the write is a template literal holding
    [id]. *)
Definition deleteNote (id : value) : M unit :=
  notes <- readFile ;;
  newNotes <- lift (Array_filter "notes" (id_is_not id) notes) ;;
  writeFile newNotes ;;;
  lift (to_primitive id) ;;;
  ret tt.

Definition findNote (id : value) : M value :=
  notes <- readFile ;;
  lift (Array_find "notes" (id_is id) notes).

End Store.

(** ** The plain store

    The sibling store module (the one whose path constant is
    [dataFilePath]): the same four operations, reads and writes inline,
    no ordering, write errors not caught. *)

Module PlainStore.

Definition bootstrap : M unit :=
  present <- fs_existsSync ;;
  if negb present then fs_writeFileSync (JSON_stringify (JArr []))
  else ret tt.

Definition getNotes : M json :=
  try_catch
    (data <- fs_readFileSync ;; lift (JSON_parse data))
    (fun err => ret (JArr [])).

Section Adding.
Context {engine : Engine}.

Definition addNote (note : object) : M unit :=
  notes <- getNotes ;;
  notes' <- lift (Array_push "notes" notes (toJSON note)) ;;
  fs_writeFileSync (JSON_stringify notes').

End Adding.

Definition deleteNote (id : value) : M unit :=
  all <- getNotes ;;
  notes <- lift (Array_filter "getNotes(...)" (id_is_not id) all) ;;
  fs_writeFileSync (JSON_stringify notes).

Definition findNote (id : value) : M value :=
  notes <- getNotes ;;
  lift (Array_find "notes" (id_is id) notes).

End PlainStore.

(** ** HTTP requests and responses *)

(** [req.file], as multer's memory storage leaves it. *)
Record multer_file : Type := {
  originalname : string;
  mimetype : string;
  size : Z;
  buffer : list Byte.byte
}.

(** The text fields of the multipart form; a field not sent is [None]. *)
Record form_body : Type := {
  title : option string;
  subject : option string;
  desc : option string;
  type : option string
}.

Record upload_request : Type := {
  file : option multer_file;
  body : form_body
}.

Record response : Type := {
  status : Z;
  payload : json
}.

Definition respond (code : Z) (j : json) : M response :=
  ret {| status := code; payload := j |}.

(** A form field that is truthy: sent, and not the empty string. *)
Definition given (s : option string) : option string :=
  match s with
  | Some t => if truthy (Some (JStr t)) then Some t else None
  | None => None
  end.

(** [s || fallback] on a form field. *)
Definition or_else (s : option string) (fallback : string) : string :=
  match given s with
  | Some t => t
  | None => fallback
  end.

(** [s?.trim() || ''] *)
Definition trimmed_or_empty (s : option string) : string :=
  or_else (option_map trim s) "".

(** [type === 'image' ? 'image' : 'raw'], on the form field (upload)
    and on the stored record (delete). *)
Definition upload_resourceType (type : option string) : string :=
  if strict_eq (option_map JStr type) (Some (JStr "image")) then "image" else "raw".

Definition destroy_resourceType (noteType : value) : string :=
  if strict_eq noteType (Some (JStr "image")) then "image" else "raw".

(** ** The development server

    The server that keeps its own [getNotes] and [saveNotes] over
    [DATA_FILE] (its banner reads "CampusNotes Development Server"):
    a failed blob deletion is logged and the record is deleted all the
    same. *)

Module DevServer.

Definition getNotes : M json :=
  try_catch
    (present <- fs_existsSync ;;
     if negb present then ret (JArr [])
     else
       data <- fs_readFileSync ;;
       (* data || '[]' *)
       lift (JSON_parse (match data with
                         | EmptyText => Document (JArr [])
                         | _ => data
                         end)))
    (fun err => ret (JArr [])).

Definition saveNotes (notes : json) : M unit :=
  try_catch
    (fs_writeFileSync (JSON_stringify notes))
    (fun err => ret tt).

(** [GET /api/notes] and its alias [GET /api/data] *)
Definition list_notes : M response :=
  notes <- getNotes ;; respond 200 notes.

Section Handlers.
Context {engine : Engine}.

(** [POST /api/upload].  The note carries a native date; the array it
    is pushed on and the response body are only serialised. *)
Definition upload (req : upload_request) : M response :=
  try_catch
    (match file req, given (title (body req)) with
     | Some f, Some title =>
         let resourceType := upload_resourceType (type (body req)) in
         stamp <- Date_now ;;
         uploadResult <-
           cloudinary_upload
             {| resource_type := resourceType;
                folder := "campusnotes/" ++ or_else (type (body req)) "notes";
                public_id := Some (Number_toString stamp ++ "_"
                                   ++ before_dot (originalname f)) |}
             (buffer f) ;;
         now <- Date_now ;;
         created <- Date_now ;;
         let note : object :=
           [ ("id", Data (JStr (Number_toString now)));
             ("title", Data (JStr (trim title)));
             ("subject", Data (JStr (trimmed_or_empty (subject (body req)))));
             ("desc", Data (JStr (trimmed_or_empty (desc (body req)))));
             ("type", Data (JStr (or_else (type (body req)) "note")));
             ("fileName", Data (JStr (originalname f)));
             ("fileUrl", Data (JStr (secure_url uploadResult)));
             ("publicId", Data (JStr (result_public_id uploadResult)));
             ("fileType", Data (JStr (mimetype f)));
             ("fileSize", Data (JNum (size f)));
             ("createdAt", NativeDate created) ] in
         notes <- getNotes ;;
         notes' <- lift (Array_push "notes" notes (toJSON note)) ;;
         saveNotes notes' ;;;
         respond 201
           (JObj [ ("message", JStr "✅ File uploaded successfully!");
                   ("file", toJSON note) ])
     | _, _ =>
         respond 400 (JObj [ ("error", JStr "File and title are required") ])
     end)
    (fun error =>
       respond 500
         (JObj [ ("error", JStr ("Upload failed: " ++ exn_message error)) ])).

End Handlers.

(** [DELETE /api/data/:id] *)
Definition delete (id : string) : M response :=
  try_catch
    (notes <- getNotes ;;
     note <- lift (Array_find "notes" (id_is (Some (JStr id))) notes) ;;
     if negb (truthy note) then
       respond 404 (JObj [ ("error", JStr "File not found") ])
     else
       publicId <- lift (prop note "publicId") ;;
       (if truthy publicId then
          try_catch
            (noteType <- lift (prop note "type") ;;
             cloudinary_destroy publicId (destroy_resourceType noteType))
            (fun err => ret tt)
        else ret tt) ;;;
       updatedNotes <-
         lift (Array_filter "notes" (id_is_not (Some (JStr id))) notes) ;;
       saveNotes updatedNotes ;;;
       respond 200 (JObj [ ("message", JStr "✅ File deleted successfully!") ]))
    (fun error =>
       respond 500
         (JObj [ ("error", JStr ("Delete failed: " ++ exn_message error)) ])).

End DevServer.

(** ** The server on [api/store.js]

    The server that imports [getNotes], [addNote], [deleteNote] and
    [findNote] from [./api/store.js]: a failed blob deletion aborts the
    request. *)

Module Server.

Section Handlers.
Context {engine : Engine}.

(** [GET /api/notes] *)
Definition list_notes : M response :=
  try_catch
    (notes <- Store.getNotes ;; respond 200 notes)
    (fun err => respond 500 (JObj [ ("error", JStr "Failed to load notes") ])).

(** [POST /api/upload] *)
Definition upload (req : upload_request) : M response :=
  try_catch
    (match file req, given (title (body req)) with
     | Some f, Some title =>
         let resourceType := upload_resourceType (type (body req)) in
         uploadResult <-
           cloudinary_upload
             {| resource_type := resourceType;
                folder := "campusnotes/" ++ or_else (type (body req)) "files";
                public_id := None |}
             (buffer f) ;;
         now <- Date_now ;;
         created <- Date_now ;;
         let note : object :=
           [ ("id", Data (JStr (Number_toString now)));
             ("title", Data (JStr (trim title)));
             ("subject", Data (JStr (trimmed_or_empty (subject (body req)))));
             ("desc", Data (JStr (trimmed_or_empty (desc (body req)))));
             ("type", Data (JStr (or_else (type (body req)) "note")));
             ("fileUrl", Data (JStr (secure_url uploadResult)));
             ("publicId", Data (JStr (result_public_id uploadResult)));
             ("fileName", Data (JStr (originalname f)));
             ("fileType", Data (JStr (mimetype f)));
             ("fileSize", Data (JNum (size f)));
             ("createdAt", Data (JStr (Date_toISOString created))) ] in
         Store.addNote note ;;;
         respond 201
           (JObj [ ("message", JStr "âœ… File uploaded successfully!");
                   ("note", toJSON note) ])
     | _, _ =>
         respond 400 (JObj [ ("error", JStr "File and title are required") ])
     end)
    (fun err =>
       respond 500
         (JObj [ ("error", JStr ("Upload failed: " ++ exn_message err)) ])).

End Handlers.

(** [DELETE /api/data/:id] *)
Definition delete (id : string) : M response :=
  try_catch
    (note <- Store.findNote (Some (JStr id)) ;;
     if negb (truthy note) then
       respond 404 (JObj [ ("error", JStr "Note not found") ])
     else
       publicId <- lift (prop note "publicId") ;;
       noteType <- lift (prop note "type") ;;
       cloudinary_destroy publicId (destroy_resourceType noteType) ;;;
       Store.deleteNote (Some (JStr id)) ;;;
       respond 200 (JObj [ ("message", JStr "Deleted successfully") ]))
    (fun err => respond 500 (JObj [ ("error", JStr "Delete failed") ])).

End Server.

(** ** An engine to run the definitions with

    Dates in the one format every engine reads the same way, the one
    [toISOString] writes; numbers as time values.  Strings in other
    formats, arrays and objects are not read as dates by this
    instance. *)

Module IsoDate.

(** Days since 1970-01-01 of a civil date, and back. *)
Definition days_from_civil (y m d : Z) : Z :=
  let y' := if m <=? 2 then y - 1 else y in
  let era := y' / 400 in
  let yoe := y' - era * 400 in
  let doy := (153 * (if m <=? 2 then m + 9 else m - 3) + 2) / 5 + d - 1 in
  let doe := yoe * 365 + yoe / 4 - yoe / 100 + doy in
  era * 146097 + doe - 719468.

Definition civil_from_days (z : Z) : Z * Z * Z :=
  let z' := z + 719468 in
  let era := z' / 146097 in
  let doe := z' - era * 146097 in
  let yoe := (doe - doe / 1460 + doe / 36524 - doe / 146096) / 365 in
  let doy := doe - (365 * yoe + yoe / 4 - yoe / 100) in
  let mp := (5 * doy + 2) / 153 in
  let d := doy - (153 * mp + 2) / 5 + 1 in
  let m := if mp <? 10 then mp + 3 else mp - 9 in
  let y := yoe + era * 400 in
  (if m <=? 2 then y + 1 else y, m, d).

Definition digit (n : Z) : ascii := ascii_of_nat (48 + Z.to_nat (n mod 10)).

Fixpoint digits (width : nat) (n : Z) (acc : string) : string :=
  match width with
  | O => acc
  | S w => digits w (n / 10) (String (digit n) acc)
  end.

Definition pad (width : nat) (n : Z) : string := digits width n "".

Definition toISOString (t : Z) : string :=
  let '(y, m, d) := civil_from_days (t / 86400000) in
  let ms := t mod 86400000 in
  let year :=
    if (0 <=? y) && (y <=? 9999) then pad 4 y
    else (if y <? 0 then "-" else "+") ++ pad 6 (Z.abs y) in
  year ++ "-" ++ pad 2 m ++ "-" ++ pad 2 d
  ++ "T" ++ pad 2 (ms / 3600000) ++ ":" ++ pad 2 ((ms / 60000) mod 60)
  ++ ":" ++ pad 2 ((ms / 1000) mod 60) ++ "." ++ pad 3 (ms mod 1000) ++ "Z".

Fixpoint number (s : string) (acc : Z) : Z :=
  match s with
  | EmptyString => acc
  | String c rest => number rest (acc * 10 + (Z.of_nat (nat_of_ascii c) - 48))
  end.

Definition digits_at (s : string) (from len : nat) : Z :=
  number (substring from len s) 0.

(** [YYYY-MM-DDTHH:mm:ss.sssZ], accepted when it is exactly what
    [toISOString] writes for the time read. *)
Definition parse (s : string) : option Z :=
  let t :=
    days_from_civil (digits_at s 0 4) (digits_at s 5 2) (digits_at s 8 2)
    * 86400000
    + digits_at s 11 2 * 3600000 + digits_at s 14 2 * 60000
    + digits_at s 17 2 * 1000 + digits_at s 20 3 in
  if (toISOString t =? s)%string then Some t else None.

Definition time_of (v : value) : option Z :=
  match v with
  | Some (JStr s) => parse s
  | Some (JNum n) => if Z.abs n <=? 8640000000000000 then Some n else None
  | Some JNull => Some 0
  | Some (JBool b) => Some (if b then 1 else 0)
  | _ => None
  end.

End IsoDate.

#[export] Instance iso_engine : Engine :=
  {| Date_time := IsoDate.time_of;
     Date_toISOString := IsoDate.toISOString |}.

(** ** The vocabulary of the properties *)

(** The stored collection: what the backing file holds, as every reader
    of this repository sees it (a file that cannot be read or parsed
    reads as the empty array). *)
Definition view (d : file_state) : json :=
  match d with
  | Holding (Document v) => v
  | _ => JArr []
  end.

Definition stored (w : world) : json := view (disk w).

(** [n.id === id], false when [n] has no properties to read. *)
Definition has_id (id : value) (n : json) : bool :=
  match prop (Some n) "id" with
  | Ok i => strict_eq i id
  | Throw _ => false
  end.

(** The entries of an array can all be asked for a property. *)
Definition no_null (l : list json) : Prop := Forall (fun n => n <> JNull) l.

(** No entry carries the id. *)
Definition absent (id : value) (l : list json) : Prop :=
  Forall (fun n => has_id id n = false) l.

(** The time value of an entry's [createdAt]. *)
Definition created (engine : Engine) (n : json) : option Z :=
  match prop (Some n) "createdAt" with
  | Ok c =>
      match new_Date c with
      | Ok t => t
      | Throw _ => None
      end
  | Throw _ => None
  end.

(** Every entry carries a [createdAt] that is a valid time. *)
Definition timed (engine : Engine) (l : list json) : Prop :=
  Forall (fun n => created engine n <> None) l.

(** [a] may stand before [b] in a newest-first listing: it is not older. *)
Definition not_older (engine : Engine) (a b : json) : Prop :=
  forall ta tb,
    created engine a = Some ta -> created engine b = Some tb -> tb <= ta.

(** A property of an entry, [undefined] when it cannot be read. *)
Definition field (key : string) (n : json) : value :=
  match prop (Some n) key with
  | Ok v => v
  | Throw _ => None
  end.

(** [new Date] can be made of the [createdAt] of every entry: no entry
    is [null], and no [createdAt] is an object without a conversion. *)
Definition dated (l : list json) : Prop :=
  Forall (fun n => n <> JNull /\ to_primitive (field "createdAt" n) = Ok tt) l.

Definition is_text (p : option property) : bool :=
  match p with
  | Some (Data (JStr _)) => true
  | _ => false
  end.

(** A Note Record of the data model, as an object handed to the store:
    the eleven fields, [title] not empty, [fileSize] a byte count,
    [createdAt] a timestamp, in ISO-8601 text or a native date. *)
Definition valid_note (engine : Engine) (r : object) : bool :=
  is_text (get "id" r)
  && match get "title" r with
     | Some (Data (JStr s)) => negb (s =? "")%string
     | _ => false
     end
  && is_text (get "subject" r)
  && is_text (get "desc" r)
  && is_text (get "type" r)
  && is_text (get "fileName" r)
  && is_text (get "fileUrl" r)
  && is_text (get "publicId" r)
  && is_text (get "fileType" r)
  && match get "fileSize" r with
     | Some (Data (JNum n)) => 0 <=? n
     | _ => false
     end
  && match get "createdAt" r with
     | Some (Data (JStr s)) =>
         match Date_time (Some (JStr s)) with
         | Some _ => true
         | None => false
         end
     | Some (NativeDate _) => true
     | _ => false
     end.

(** [r.id], for a record whose id is JSON data. *)
Definition note_id (r : object) : value :=
  match get "id" r with
  | Some (Data v) => Some v
  | _ => None
  end.

(** Every property of the object is JSON data. *)
Definition is_data (r : object) : bool :=
  forallb
    (fun kp => match snd kp with Data _ => true | NativeDate _ => false end)
    r.

(** The value [v] read from a parsed record is equal to the property
    [p] of an object: the same JSON data.  What [JSON.parse] returns is
    never a [Date]. *)
Definition same_value (p : option property) (v : value) : Prop :=
  match p with
  | Some (Data d) => v = Some d
  | Some (NativeDate _) => False
  | None => v = None
  end.

(** The parsed record [j] is equal to the object [r] in all fields. *)
Definition equal_fields (r : object) (j : json) : Prop :=
  forall key, same_value (get key r) (field key j).

(** The status of a response, [None] when the handler threw. *)
Definition status_of (r : result response) : option Z :=
  match r with
  | Ok resp => Some (status resp)
  | Throw _ => None
  end.

(** ** Sample data *)

Module Sample.

Definition note (id title type created : string) : json :=
  JObj [ ("id", JStr id);
         ("title", JStr title);
         ("subject", JStr "Algebra");
         ("desc", JStr "");
         ("type", JStr type);
         ("fileUrl", JStr ("https://res.cloudinary.com/dwm9m3dwk/" ++ id));
         ("publicId", JStr ("campusnotes/" ++ type ++ "/" ++ id));
         ("fileName", JStr "syllabus.pdf");
         ("fileType", JStr "application/pdf");
         ("fileSize", JNum 2048);
         ("createdAt", JStr created) ].

Definition older : json :=
  note "1704164645678" "Syllabus" "note" "2024-01-02T03:04:05.678Z".
Definition newer : json :=
  note "1704251045678" "Timetable" "image" "2024-01-03T03:04:05.678Z".

(** A note object as the server on the store builds it, and the same
    with a native date. *)
Definition record (created : property) : object :=
  [ ("id", Data (JStr "1704337445678"));
    ("title", Data (JStr "Reading list"));
    ("subject", Data (JStr "Algebra"));
    ("desc", Data (JStr ""));
    ("type", Data (JStr "note"));
    ("fileUrl", Data (JStr "https://res.cloudinary.com/dwm9m3dwk/reading.pdf"));
    ("publicId", Data (JStr "campusnotes/note/reading"));
    ("fileName", Data (JStr "reading.pdf"));
    ("fileType", Data (JStr "application/pdf"));
    ("fileSize", Data (JNum 2048));
    ("createdAt", created) ].

Definition fresh : object := record (Data (JStr "2024-01-04T03:04:05.678Z")).
Definition fresh_dated : object := record (NativeDate 1704337445678).

(** A Cloudinary account that takes every upload; [destroys] says
    whether it also carries out deletions. *)
Definition account (destroys : bool) (d : file_state) (writable : bool) : world :=
  {| disk := d;
     disk_writable := writable;
     clock := fun n =>
       List.nth n [1704337445678; 1704337445912; 1704337445913] 1704337450000;
     clock_reads := 0;
     upload_reply := fun o =>
       Ok {| secure_url := "https://res.cloudinary.com/dwm9m3dwk/" ++ folder o;
             result_public_id := folder o ++ "/" ++ or_else (public_id o) "x1" |};
     destroy_reply := fun _ _ =>
       if destroys then Ok tt else Throw (CloudError "Request Timeout");
     cloud_log := [] |}.

Definition two_notes : file_state :=
  Holding (Document (JArr [older; newer])).

Definition pdf : multer_file :=
  {| originalname := "syllabus.pdf";
     mimetype := "application/pdf";
     size := 4;
     buffer := [Byte.x25; Byte.x50; Byte.x44; Byte.x46] |}.

Definition form (title type : option string) : form_body :=
  {| title := title; subject := Some " Algebra "; desc := None; type := type |}.

(** An upload whose title is two blanks. *)
Definition blank_title : upload_request :=
  {| file := Some pdf; body := form (Some "  ") None |}.

(** An upload of a picture. *)
Definition picture : upload_request :=
  {| file := Some pdf; body := form (Some "Campus map") (Some "image") |}.

Definition empty_store : file_state := Holding (Document (JArr [])).

(** A file that holds JSON, but an object rather than an array. *)
Definition object_file : file_state := Holding (Document (JObj [])).

(** A file that holds an array, of two [null]s. *)
Definition null_entries : file_state :=
  Holding (Document (JArr [JNull; JNull])).

(** A second record under the id of [older]. *)
Definition older_again : json :=
  note "1704164645678" "Syllabus, revised" "note" "2024-01-05T03:04:05.678Z".

Definition same_id_twice : file_state :=
  Holding (Document (JArr [older; newer; older_again])).

(** The listing of [two_notes], newest first. *)
Definition two_notes_listed : file_state :=
  Holding (Document (JArr [newer; older])).

(** An upload with every field filled in. *)
Definition syllabus : upload_request :=
  {| file := Some pdf; body := form (Some " Syllabus ") (Some "pdf") |}.

(** What [account] answers to an upload. *)
Definition reply (o : upload_options) : upload_result :=
  {| secure_url := "https://res.cloudinary.com/dwm9m3dwk/" ++ folder o;
     result_public_id := folder o ++ "/" ++ or_else (public_id o) "x1" |}.

(** An account that refuses every upload. *)
Definition closed_account (d : file_state) : world :=
  {| disk := d;
     disk_writable := true;
     clock := fun n =>
       List.nth n [1704337445678; 1704337445912; 1704337445913] 1704337450000;
     clock_reads := 0;
     upload_reply := fun _ => Throw (CloudError "Invalid Signature");
     destroy_reply := fun _ _ => Throw (CloudError "Invalid Signature");
     cloud_log := [] |}.

(** A note object under the id of [older], with another title. *)
Definition second_edition : object :=
  [ ("id", Data (JStr "1704164645678"));
    ("title", Data (JStr "Syllabus, second edition"));
    ("subject", Data (JStr "Algebra"));
    ("desc", Data (JStr ""));
    ("type", Data (JStr "note"));
    ("fileUrl", Data (JStr "https://res.cloudinary.com/dwm9m3dwk/syllabus2.pdf"));
    ("publicId", Data (JStr "campusnotes/note/syllabus2"));
    ("fileName", Data (JStr "syllabus2.pdf"));
    ("fileType", Data (JStr "application/pdf"));
    ("fileSize", Data (JNum 4096));
    ("createdAt", Data (JStr "2024-01-06T03:04:05.678Z")) ].

(** A note object whose title is an object with a [toString] of its
    own, and an id of that kind: neither has a text. *)
Definition untitled : object :=
  [ ("id", Data (JStr "1704337445679"));
    ("title", Data (JObj [ ("toString", JNum 1) ]));
    ("createdAt", Data (JStr "2024-01-04T03:04:05.678Z")) ].

Definition odd_id : value := Some (JObj [ ("toString", JNum 1) ]).

(** A file of two records, the first with a [createdAt] of that kind. *)
Definition undatable : file_state :=
  Holding (Document
    (JArr [ JObj [ ("createdAt", JObj [ ("toString", JNum 1) ]) ]; JObj [] ])).

(** [account] later on, when successive clock readings fall into the
    same millisecond. *)
Definition same_millisecond : world :=
  tick (tick (tick (account true two_notes true))).

End Sample.

(** ** More vocabulary *)

Definition is_array (v : json) : bool :=
  match v with
  | JArr _ => true
  | _ => false
  end.

(** The backing file holds no JSON document: it is missing, cannot be
    read, is empty or does not parse. *)
Definition no_document (w : world) : Prop :=
  forall v, disk w <> Holding (Document v).

(** The outcome threw a [TypeError]. *)
Definition type_error {A} (r : result A) : Prop :=
  exists message, r = Throw (TypeError message).

(** The call threw a [TypeError] and left the world as it was. *)
Definition fails_untouched {A} (m : M A) (w : world) : Prop :=
  type_error (fst (m w)) /\ snd (m w) = w.


(** The record a successful upload stores, by its properties. *)
Definition stored_fields (req : upload_request) (f : multer_file)
  (res : upload_result) (id : Z) (note : json) : Prop :=
  field "id" note = Some (JStr (Number_toString id))
  /\ field "title" note = Some (JStr (trim (or_else (title (body req)) "")))
  /\ field "subject" note = Some (JStr (trimmed_or_empty (subject (body req))))
  /\ field "desc" note = Some (JStr (trimmed_or_empty (desc (body req))))
  /\ field "type" note = Some (JStr (or_else (type (body req)) "note"))
  /\ field "fileName" note = Some (JStr (originalname f))
  /\ field "fileUrl" note = Some (JStr (secure_url res))
  /\ field "publicId" note = Some (JStr (result_public_id res))
  /\ field "fileType" note = Some (JStr (mimetype f))
  /\ field "fileSize" note = Some (JNum (size f)).

(** * Properties *)

(** ** Reading the file *)

Lemma readFile_view (w : world) :
  Store.readFile w = (Ok (stored w), w).
Proof.
  unfold Store.readFile, try_catch, bind, fs_readFileSync, lift, stored, view.
  destruct (disk w) as [ | | [ | | v]]; reflexivity.
Qed.

Lemma plain_getNotes_view (w : world) :
  PlainStore.getNotes w = (Ok (stored w), w).
Proof.
  unfold PlainStore.getNotes, try_catch, bind, fs_readFileSync, lift, stored, view.
  destruct (disk w) as [ | | [ | | v]]; reflexivity.
Qed.

Lemma dev_getNotes_view (w : world) :
  DevServer.getNotes w = (Ok (stored w), w).
Proof.
  unfold DevServer.getNotes, try_catch, bind, fs_existsSync, fs_readFileSync,
    lift, ret, stored, view.
  destruct (disk w) as [ | | [ | | v]] eqn:E; cbn; rewrite ?E; reflexivity.
Qed.

(** Binding a computation whose outcome is known. *)
Lemma bind_ok {A B} {m : M A} (k : A -> M B) {w w' : world} {a : A} :
  m w = (Ok a, w') -> bind m k w = k a w'.
Proof. intros E. unfold bind. now rewrite E. Qed.

(** ** C9: reads leave the file alone *)

(** C9. [list()] and [find(id)] perform no write: in every world, and
    whatever they return or throw, the world after the call (backing
    file included) is the world before it.  Both stores. *)
Theorem reads_leave_world (engine : Engine) (w : world) (id : value) :
  snd (Store.getNotes w) = w
  /\ snd (Store.findNote id w) = w
  /\ snd (PlainStore.getNotes w) = w
  /\ snd (PlainStore.findNote id w) = w.
Proof.
  repeat split.
  - unfold Store.getNotes.
    rewrite (bind_ok _ (readFile_view w)). reflexivity.
  - unfold Store.findNote.
    rewrite (bind_ok _ (readFile_view w)). reflexivity.
  - now rewrite plain_getNotes_view.
  - unfold PlainStore.findNote.
    rewrite (bind_ok _ (plain_getNotes_view w)). reflexivity.
Qed.

(** ** Lists behind [find], [filter] and [sort] *)

Lemma id_test (id : value) (n : json) :
  n <> JNull ->
  id_is id n = Ok (has_id id n).
Proof. unfold id_is, has_id. destruct n; simpl; congruence. Qed.

Lemma id_test_neg (id : value) (n : json) :
  n <> JNull ->
  id_is_not id n = Ok (negb (has_id id n)).
Proof. unfold id_is_not, has_id. destruct n; simpl; congruence. Qed.

Lemma find_first_find (id : value) (l : list json) :
  no_null l ->
  find_first (id_is id) l
  = Ok (List.find (has_id id) l).
Proof.
  induction 1 as [ | n l Hn _ IH]; [reflexivity | ].
  cbn [find_first List.find]. rewrite (id_test id Hn).
  cbn [bindR]. destruct (has_id id n); [reflexivity | exact IH].
Qed.

Lemma filter_all_filter (id : value) (l : list json) :
  no_null l ->
  filter_all (id_is_not id) l
  = Ok (List.filter (fun n => negb (has_id id n)) l).
Proof.
  induction 1 as [ | n l Hn _ IH]; [reflexivity | ].
  cbn [filter_all List.filter]. rewrite (id_test_neg id Hn), IH.
  cbn [bindR]. destruct (has_id id n); reflexivity.
Qed.

Lemma find_absent (id : value) (l : list json) :
  absent id l -> List.find (has_id id) l = None.
Proof.
  induction 1 as [ | n l Hn _ IH]; simpl; [reflexivity | ].
  now rewrite Hn.
Qed.

Lemma filter_absent (id : value) (l : list json) :
  absent id l -> List.filter (fun n => negb (has_id id n)) l = l.
Proof.
  induction 1 as [ | n l Hn _ IH]; simpl; [reflexivity | ].
  rewrite Hn. simpl. now rewrite IH.
Qed.

Lemma find_app_absent (id : value) (l rest : list json) :
  absent id l ->
  List.find (has_id id) (l ++ rest) = List.find (has_id id) rest.
Proof.
  induction 1 as [ | n l Hn _ IH]; simpl; [reflexivity | ].
  now rewrite Hn.
Qed.

Lemma find_some_object (id : string) (l : list json) (n : json) :
  List.find (has_id (Some (JStr id))) l = Some n ->
  exists props, n = JObj props /\ lookup "id" props = Some (JStr id).
Proof.
  intros F. apply List.find_some in F. destruct F as [_ F].
  unfold has_id in F.
  destruct n as [ | b | z | s | items | props]; simpl in F; try discriminate.
  exists props. split; [reflexivity | ].
  destruct (lookup "id" props) as [[ | b | z | s | items | props'] | ];
    simpl in F; try discriminate.
  apply String.eqb_eq in F. now subst.
Qed.

Section Sorting.
Context {engine : Engine}.

Lemma new_Date_field (n : json) :
  n <> JNull -> to_primitive (field "createdAt" n) = Ok tt ->
  exists c,
    prop (Some n) "createdAt" = Ok c /\ new_Date c = Ok (Date_time c).
Proof.
  intros Hn. unfold field, new_Date.
  destruct n; try congruence; simpl; intros H;
    (eexists; split; [reflexivity | ]); now rewrite ?H.
Qed.

Lemma newest_first_steps (a b : json) (ca cb : value) (da db : option Z) :
  prop (Some a) "createdAt" = Ok ca -> new_Date ca = Ok da ->
  prop (Some b) "createdAt" = Ok cb -> new_Date cb = Ok db ->
  Store.newest_first a b
  = Ok (match db, da with
        | Some tb, Some ta => Some (tb - ta)
        | _, _ => None
        end).
Proof.
  intros Pa Da Pb Db. unfold Store.newest_first.
  rewrite Pb. cbn [bindR]. rewrite Db. cbn [bindR].
  rewrite Pa. cbn [bindR]. now rewrite Da.
Qed.

Lemma newest_first_ok (a b : json) :
  a <> JNull /\ to_primitive (field "createdAt" a) = Ok tt ->
  b <> JNull /\ to_primitive (field "createdAt" b) = Ok tt ->
  exists c, Store.newest_first a b = Ok c.
Proof.
  intros [Ha Ta] [Hb Tb].
  destruct (new_Date_field Ha Ta) as [ca [Pa Da]].
  destruct (new_Date_field Hb Tb) as [cb [Pb Db]].
  rewrite (newest_first_steps _ _ Pa Da Pb Db). eauto.
Qed.

Lemma created_new_Date (n : json) (t : Z) :
  created engine n = Some t ->
  exists c, prop (Some n) "createdAt" = Ok c /\ new_Date c = Ok (Some t).
Proof.
  unfold created. intros H.
  destruct (prop (Some n) "createdAt") as [c | ]; [ | discriminate].
  destruct (new_Date c) as [d | ] eqn:D; [ | discriminate].
  subst d. exists c. now split.
Qed.

Lemma newest_first_timed (a b : json) (ta tb : Z) :
  created engine a = Some ta -> created engine b = Some tb ->
  Store.newest_first a b = Ok (Some (tb - ta)).
Proof.
  intros Ha Hb.
  destruct (created_new_Date _ Ha) as [ca [Pa Da]].
  destruct (created_new_Date _ Hb) as [cb [Pb Db]].
  now rewrite (newest_first_steps _ _ Pa Da Pb Db).
Qed.

Lemma sort_insert_perm (x : json) (s : list json) :
  dated [x] -> dated s ->
  exists r, sort_insert Store.newest_first x s = Ok r /\ Permutation (x :: s) r.
Proof.
  intros Hx Hs. apply Forall_inv in Hx.
  induction Hs as [ | y s Hy Hs IH]; simpl.
  - eauto.
  - destruct (newest_first_ok Hx Hy) as [c Hc]. rewrite Hc. simpl.
    destruct (sort_order c <=? 0).
    + eauto.
    + destruct IH as [r [Hr Pr]]. rewrite Hr. simpl.
      exists (y :: r). split; [reflexivity | ].
      eapply perm_trans; [apply perm_swap | now apply perm_skip].
Qed.

Lemma dated_perm (l s : list json) :
  Permutation l s -> dated l -> dated s.
Proof. intros P H. unfold dated in *. now rewrite <- P. Qed.

Lemma dated_no_null (l : list json) : dated l -> no_null l.
Proof. apply Forall_impl. now intros n [Hn _]. Qed.

Lemma sort_list_perm (l : list json) :
  dated l ->
  exists s, sort_list Store.newest_first l = Ok s /\ Permutation l s.
Proof.
  induction 1 as [ | x l Hx Hl IH]; simpl.
  - eauto.
  - destruct IH as [s [Hs Ps]]. rewrite Hs. simpl.
    destruct (@sort_insert_perm x s) as [r [Hr Pr]].
    + now constructor.
    + exact (dated_perm Ps Hl).
    + exists r. split; [exact Hr | ].
      eapply perm_trans; [apply perm_skip; exact Ps | exact Pr].
Qed.

Lemma timed_dated (l : list json) : timed engine l -> dated l.
Proof.
  apply Forall_impl. intros n Hn.
  destruct (created engine n) as [t | ] eqn:E; [ | congruence].
  destruct (created_new_Date _ E) as [c [P D]].
  unfold field. rewrite P.
  destruct n; try discriminate; (split; [discriminate | ]);
    unfold new_Date in D; destruct (to_primitive c) as [[] | ];
    try reflexivity; discriminate.
Qed.

Lemma timed_no_null (l : list json) : timed engine l -> no_null l.
Proof. intros H. apply dated_no_null, timed_dated, H. Qed.

Lemma sort_insert_sorted (x : json) (s r : list json) :
  created engine x <> None -> timed engine s ->
  StronglySorted (not_older engine) s ->
  sort_insert Store.newest_first x s = Ok r ->
  StronglySorted (not_older engine) r.
Proof.
  intros Hx Hs Ss. revert r.
  induction Ss as [ | y s Ss IH Hy]; simpl; intros r Hr.
  - injection Hr as <-. repeat constructor.
  - inversion Hs as [ | ? ? Ty Ts]; subst.
    destruct (created engine x) as [tx | ] eqn:Ex; [ | congruence].
    destruct (created engine y) as [ty | ] eqn:Ey; [ | congruence].
    rewrite (newest_first_timed _ _ Ex Ey) in Hr. simpl in Hr.
    destruct (ty - tx <=? 0) eqn:C.
    + injection Hr as <-. apply Z.leb_le in C.
      constructor; [now constructor | ].
      constructor.
      * intros ta tb Ea Eb. rewrite Ex in Ea. rewrite Ey in Eb.
        injection Ea as <-. injection Eb as <-. lia.
      * eapply Forall_impl; [ | exact Hy].
        intros z Hz ta tb Ea Eb. rewrite Ex in Ea. injection Ea as <-.
        specialize (Hz ty tb Ey Eb). lia.
    + apply Z.leb_gt in C.
      destruct (sort_insert Store.newest_first x s) as [r' | ] eqn:Er;
        [ | discriminate].
      simpl in Hr. injection Hr as <-.
      constructor; [now apply IH | ].
      assert (P : Permutation (x :: s) r').
      { destruct (@sort_insert_perm x s) as [r'' [Hr'' Pr'']].
        - apply timed_dated. constructor; [now rewrite Ex | constructor].
        - now apply timed_dated.
        - rewrite Er in Hr''. now injection Hr'' as <-. }
      rewrite <- P. constructor; [ | exact Hy].
      intros ta tb Ea Eb. rewrite Ey in Ea. rewrite Ex in Eb.
      injection Ea as <-. injection Eb as <-. lia.
Qed.

Lemma sort_list_sorted (l s : list json) :
  timed engine l -> sort_list Store.newest_first l = Ok s ->
  StronglySorted (not_older engine) s.
Proof.
  intros Hl. revert s. induction Hl as [ | x l Hx Hl IH]; simpl; intros s Hs.
  - injection Hs as <-. constructor.
  - destruct (sort_list_perm (timed_dated Hl)) as [s' [Hs' Ps']].
    rewrite Hs' in Hs. simpl in Hs.
    apply (@sort_insert_sorted x s' s); [exact Hx | | now apply IH | exact Hs].
    unfold timed in *. now rewrite <- Ps'.
Qed.

Lemma sorted_nth (s : list json) :
  StronglySorted (not_older engine) s ->
  forall i j a b, (i < j)%nat ->
    nth_error s i = Some a -> nth_error s j = Some b -> not_older engine a b.
Proof.
  induction 1 as [ | x s Ss IH Hx]; intros i j a b Hij Ha Hb.
  - destruct i; discriminate.
  - destruct j as [ | j]; [lia | ]. simpl in Hb.
    destruct i as [ | i]; simpl in Ha.
    + injection Ha as <-. rewrite Forall_forall in Hx.
      apply Hx. eapply nth_error_In; eauto.
    + eapply IH; [ | exact Ha | exact Hb]. lia.
Qed.

End Sorting.

(** ** C2: the listing is newest first *)

(** C2. When the backing file holds records whose [createdAt] are valid
    times, [getNotes] of the primary store returns exactly these
    records (a permutation of the file's array), and of any two of
    them with times [T1 < T2] the one with [T2] stands first. *)
Theorem getNotes_newest_first (engine : Engine) (w : world) (l : list json) :
  stored w = JArr l -> timed engine l ->
  exists s,
    Store.getNotes w = (Ok (JArr s), w)
    /\ Permutation l s
    /\ forall i j a b T1 T2,
         nth_error s i = Some a -> nth_error s j = Some b ->
         created engine a = Some T1 -> created engine b = Some T2 ->
         T1 < T2 -> (j < i)%nat.
Proof.
  intros Hw Hl.
  destruct (sort_list_perm (timed_dated Hl)) as [s [Hs Ps]].
  exists s. split; [ | split; [exact Ps | ]].
  - unfold Store.getNotes.
    rewrite (bind_ok _ (readFile_view w)), Hw.
    unfold lift, Array_sort. simpl. now rewrite Hs.
  - intros i j a b T1 T2 Ha Hb Ta Tb Lt.
    pose proof (sort_list_sorted Hl Hs) as Ss.
    destruct (Nat.lt_trichotomy i j) as [Hij | [Hij | Hij]]; [ | | exact Hij].
    + pose proof (sorted_nth Ss Hij Ha Hb Ta Tb). lia.
    + subst j. rewrite Ha in Hb. injection Hb as <-.
      rewrite Ta in Tb. injection Tb as <-. lia.
Qed.

Lemma getNotes_newest_first_witness :
  exists s,
    Store.getNotes (Sample.account true Sample.two_notes true)
    = (Ok (JArr s), Sample.account true Sample.two_notes true)
    /\ Permutation [Sample.older; Sample.newer] s
    /\ forall i j a b T1 T2,
         nth_error s i = Some a -> nth_error s j = Some b ->
         created iso_engine a = Some T1 -> created iso_engine b = Some T2 ->
         T1 < T2 -> (j < i)%nat.
Proof.
  apply (@getNotes_newest_first iso_engine
           (Sample.account true Sample.two_notes true)
           [Sample.older; Sample.newer]).
  - reflexivity.
  - repeat constructor; vm_compute; discriminate.
Defined.

(** ** C7: when the listing returns *)

(** C7, as the code has it.  When the backing file is missing,
    unreadable, unparseable, or holds an array, the plain [getNotes]
    returns the array of the file and throws nothing; the primary
    [getNotes] returns a permutation of it and throws nothing when no
    entry is [null] and the [createdAt] of every entry is one that
    [new Date] accepts (anything but an object that cannot be converted
    to a primitive); and both return the empty array when the file is
    not a JSON document. *)
Theorem getNotes_returns_array (engine : Engine) (w : world) (l : list json) :
  stored w = JArr l ->
  (dated l ->
   exists s, Store.getNotes w = (Ok (JArr s), w) /\ Permutation l s)
  /\ PlainStore.getNotes w = (Ok (JArr l), w)
  /\ ((forall v, disk w <> Holding (Document v)) ->
      Store.getNotes w = (Ok (JArr []), w)
      /\ PlainStore.getNotes w = (Ok (JArr []), w)).
Proof.
  intros Hw. split; [ | split; [ | split]].
  - intros Hl. destruct (sort_list_perm Hl) as [s [Hs Ps]].
    exists s. split; [ | exact Ps].
    unfold Store.getNotes.
    rewrite (bind_ok _ (readFile_view w)), Hw.
    unfold lift, Array_sort. simpl. now rewrite Hs.
  - now rewrite plain_getNotes_view, Hw.
  - unfold Store.getNotes. rewrite (bind_ok _ (readFile_view w)).
    unfold stored, view.
    destruct (disk w) as [ | | [ | | v]]; try reflexivity.
    now destruct (H v).
  - rewrite plain_getNotes_view. unfold stored, view.
    destruct (disk w) as [ | | [ | | v]]; try reflexivity.
    now destruct (H v).
Qed.

Lemma getNotes_returns_array_witness :
  ((exists s,
       Store.getNotes (Sample.account true Sample.two_notes true)
       = (Ok (JArr s), Sample.account true Sample.two_notes true)
       /\ Permutation [Sample.older; Sample.newer] s)
   /\ PlainStore.getNotes (Sample.account true Sample.two_notes true)
      = (Ok (JArr [Sample.older; Sample.newer]),
         Sample.account true Sample.two_notes true))
  /\ Store.getNotes (Sample.account true Unreadable false)
     = (Ok (JArr []), Sample.account true Unreadable false)
  /\ PlainStore.getNotes (Sample.account true Unreadable false)
     = (Ok (JArr []), Sample.account true Unreadable false).
Proof.
  split.
  - destruct (@getNotes_returns_array iso_engine
                (Sample.account true Sample.two_notes true)
                [Sample.older; Sample.newer] eq_refl)
      as [Primary [Plain _]].
    split; [ | exact Plain].
    apply Primary. repeat constructor; discriminate.
  - destruct (@getNotes_returns_array iso_engine
                (Sample.account true Unreadable false) [] eq_refl)
      as [_ [_ Failed]].
    apply Failed. intros v. discriminate.
Defined.

(** C7, as stated, fails on a file that holds JSON other than an
    array of records: on the document [{}] the primary [getNotes]
    throws a [TypeError] out of [notes.sort], and the plain [getNotes]
    returns the object, which is no sequence; on [[null, null]] the
    comparator of the primary [getNotes] throws. *)
Lemma getNotes_object_file :
  fst (Store.getNotes (Sample.account true Sample.object_file true))
  = Throw (TypeError "notes.sort is not a function")
  /\ fst (PlainStore.getNotes (Sample.account true Sample.object_file true))
     = Ok (JObj [])
  /\ fst (Store.getNotes (Sample.account true Sample.null_entries true))
     = Throw (TypeError "Cannot read properties of null (reading 'createdAt')").
Proof. repeat split; reflexivity. Qed.

(** ** C8: bootstrap *)

(** C8. Started on a missing backing file that can be written, the
    store creates it holding the empty array; [getNotes] then returns
    the empty array; and starting again changes nothing.  Both stores. *)
Theorem bootstrap_from_missing_file (engine : Engine) (w : world) :
  disk w = Missing -> disk_writable w = true ->
  exists w1,
    disk w1 = Holding (Document (JArr []))
    /\ Store.bootstrap w = (Ok tt, w1)
    /\ Store.getNotes w1 = (Ok (JArr []), w1)
    /\ Store.bootstrap w1 = (Ok tt, w1)
    /\ PlainStore.bootstrap w = (Ok tt, w1)
    /\ PlainStore.getNotes w1 = (Ok (JArr []), w1)
    /\ PlainStore.bootstrap w1 = (Ok tt, w1).
Proof.
  intros Hd Hw.
  exists (set_disk (Holding (Document (JArr []))) w).
  assert (B : Store.bootstrap w
              = (Ok tt, set_disk (Holding (Document (JArr []))) w)).
  { unfold Store.bootstrap, bind, fs_existsSync, fs_writeFileSync,
      JSON_stringify.
    rewrite Hd. cbn. now rewrite Hw. }
  repeat split; try exact B; reflexivity.
Qed.

Lemma bootstrap_from_missing_file_witness :
  exists w1,
    disk w1 = Holding (Document (JArr []))
    /\ Store.bootstrap (Sample.account true Missing true) = (Ok tt, w1)
    /\ Store.getNotes w1 = (Ok (JArr []), w1)
    /\ Store.bootstrap w1 = (Ok tt, w1)
    /\ PlainStore.bootstrap (Sample.account true Missing true) = (Ok tt, w1)
    /\ PlainStore.getNotes w1 = (Ok (JArr []), w1)
    /\ PlainStore.bootstrap w1 = (Ok tt, w1).
Proof.
  apply (@bootstrap_from_missing_file iso_engine
           (Sample.account true Missing true)); reflexivity.
Defined.

(** ** Writing the file *)

Lemma writeFile_writable (w : world) (notes : json) :
  disk_writable w = true ->
  Store.writeFile notes w = (Ok tt, set_disk (Holding (Document notes)) w).
Proof.
  intros Hw. unfold Store.writeFile, try_catch, fs_writeFileSync, JSON_stringify.
  now rewrite Hw.
Qed.

Lemma writeFile_never_throws (w : world) (notes : json) :
  Store.writeFile notes w
  = (Ok tt, if disk_writable w then set_disk (Holding (Document notes)) w else w).
Proof.
  unfold Store.writeFile, try_catch, fs_writeFileSync, JSON_stringify, ret.
  now destruct (disk_writable w).
Qed.

(** ** What comes back of an object written to the file *)

Section RoundTrip.
Context {engine : Engine}.

Lemma lookup_serialise (key : string) (o : object) :
  lookup key (serialise o) = option_map property_toJSON (get key o).
Proof.
  induction o as [ | [k p] o IH]; simpl; [reflexivity | ].
  destruct (k =? key)%string; [reflexivity | exact IH].
Qed.

Lemma field_toJSON (key : string) (o : object) :
  field key (toJSON o) = option_map property_toJSON (get key o).
Proof. unfold field, toJSON. cbn [prop]. apply lookup_serialise. Qed.

Lemma get_is_data (key : string) (o : object) (t : Z) :
  is_data o = true -> get key o <> Some (NativeDate t).
Proof.
  induction o as [ | [k p] o IH]; simpl; [discriminate | ].
  intros D. apply andb_prop in D. destruct D as [Dp Do].
  destruct (k =? key)%string; [ | now apply IH].
  destruct p; [discriminate | discriminate Dp].
Qed.

Lemma equal_fields_data (o : object) :
  is_data o = true -> equal_fields o (toJSON o).
Proof.
  intros D key. rewrite field_toJSON.
  destruct (get key o) as [[d | t] | ] eqn:G; simpl; try reflexivity.
  exact (get_is_data key o D G).
Qed.

Lemma valid_note_id (r : object) :
  valid_note engine r = true -> has_id (note_id r) (toJSON r) = true.
Proof.
  unfold valid_note. intros V.
  repeat (apply andb_prop in V; destruct V as [V ?]).
  unfold has_id, note_id, toJSON. cbn [prop]. rewrite lookup_serialise.
  destruct (get "id" r) as [[[ | b | z | s | items | props] | t] | ];
    simpl in *; try discriminate.
  apply String.eqb_refl.
Qed.

Lemma valid_note_title (r : object) :
  valid_note engine r = true -> template_text (get "title" r) = Ok tt.
Proof.
  unfold valid_note. intros V.
  repeat (apply andb_prop in V; destruct V as [V ?]).
  destruct (get "title" r) as [[[ | b | z | s | items | props] | t] | ];
    try discriminate.
  reflexivity.
Qed.

End RoundTrip.

(** ** C1: a record added is found again *)

(** C1, as the code has it.  Let the stored collection be an array of
    records none of which carries the id of the valid Note Record [r],
    and let the file be writable.  Then [addNote r] succeeds (the
    primary store returns [r]), and in every later world whose backing
    file is the one [addNote] left, [findNote] of [r]'s id returns [r]
    as [JSON.stringify] wrote it: every property of [r] that is JSON
    data comes back equal, a native date comes back as its ISO-8601
    string.  So the record found is equal to [r] in all fields when
    [r] is made of JSON data.  Both stores. *)
Theorem add_then_find (engine : Engine) (w : world) (l : list json) (r : object) :
  valid_note engine r = true ->
  stored w = JArr l -> no_null l -> absent (note_id r) l ->
  disk_writable w = true ->
  (exists w1,
      Store.addNote r w = (Ok r, w1)
      /\ forall w2, disk w2 = disk w1 ->
           Store.findNote (note_id r) w2 = (Ok (Some (toJSON r)), w2))
  /\ (exists w1,
         PlainStore.addNote r w = (Ok tt, w1)
         /\ forall w2, disk w2 = disk w1 ->
              PlainStore.findNote (note_id r) w2 = (Ok (Some (toJSON r)), w2))
  /\ (forall key d,
         get key r = Some (Data d) -> field key (toJSON r) = Some d)
  /\ (forall key t,
         get key r = Some (NativeDate t) ->
         field key (toJSON r) = Some (JStr (Date_toISOString t)))
  /\ (forall key, get key r = None -> field key (toJSON r) = None)
  /\ (is_data r = true -> equal_fields r (toJSON r)).
Proof.
  intros V Hs Hn Ha Hw.
  pose proof (valid_note_id r V) as Rid.
  assert (Hn' : no_null (l ++ [toJSON r])).
  { apply Forall_app. split; [exact Hn | ]. constructor; [discriminate | constructor]. }
  assert (F : find_first (id_is (note_id r)) (l ++ [toJSON r])
              = Ok (Some (toJSON r))).
  { rewrite (find_first_find _ Hn'), (find_app_absent _ Ha).
    cbn [List.find]. now rewrite Rid. }
  split; [ | split; [ | repeat split]].
  - exists (set_disk (Holding (Document (JArr (l ++ [toJSON r])))) w). split.
    + unfold Store.addNote.
      rewrite (bind_ok _ (readFile_view w)), Hs.
      unfold lift at 1. unfold bind at 1. cbn [Array_push array_method bindR].
      rewrite (bind_ok _ (@writeFile_writable w _ Hw)).
      unfold lift, bind. now rewrite (valid_note_title r V).
    + intros w2 Hd. unfold Store.findNote.
      rewrite (bind_ok _ (readFile_view w2)).
      unfold stored. rewrite Hd. cbn [set_disk disk view].
      unfold lift, Array_find. cbn [array_method bindR]. now rewrite F.
  - exists (set_disk (Holding (Document (JArr (l ++ [toJSON r])))) w). split.
    + unfold PlainStore.addNote.
      rewrite (bind_ok _ (plain_getNotes_view w)), Hs.
      unfold lift at 1. unfold bind at 1. cbn [Array_push array_method bindR].
      unfold fs_writeFileSync, JSON_stringify. now rewrite Hw.
    + intros w2 Hd. unfold PlainStore.findNote.
      rewrite (bind_ok _ (plain_getNotes_view w2)).
      unfold stored. rewrite Hd. cbn [set_disk disk view].
      unfold lift, Array_find. cbn [array_method bindR]. now rewrite F.
  - intros key d G. now rewrite field_toJSON, G.
  - intros key t G. now rewrite field_toJSON, G.
  - intros key G. now rewrite field_toJSON, G.
  - apply equal_fields_data.
Qed.

Lemma add_then_find_witness :
  (exists w1,
      Store.addNote Sample.fresh (Sample.account true Sample.two_notes true)
      = (Ok Sample.fresh, w1)
      /\ forall w2, disk w2 = disk w1 ->
           Store.findNote (note_id Sample.fresh) w2
           = (Ok (Some (toJSON Sample.fresh)), w2))
  /\ (exists w1,
         PlainStore.addNote Sample.fresh (Sample.account true Sample.two_notes true)
         = (Ok tt, w1)
         /\ forall w2, disk w2 = disk w1 ->
              PlainStore.findNote (note_id Sample.fresh) w2
              = (Ok (Some (toJSON Sample.fresh)), w2))
  /\ equal_fields Sample.fresh (toJSON Sample.fresh).
Proof.
  destruct (@add_then_find iso_engine (Sample.account true Sample.two_notes true)
              [Sample.older; Sample.newer] Sample.fresh)
    as [Primary [Plain [_ [_ [_ Equal]]]]].
  - vm_compute. reflexivity.
  - reflexivity.
  - repeat constructor; discriminate.
  - repeat constructor.
  - reflexivity.
  - split; [exact Primary | split; [exact Plain | ]].
    apply Equal. reflexivity.
Defined.

(** C1, as stated, fails on a valid Note Record whose [createdAt] is a
    native date: the record found carries the ISO-8601 string of that
    date, which is no [Date], so it is not equal to the record added
    in all fields. *)
Lemma add_then_find_native_date :
  valid_note iso_engine Sample.fresh_dated = true
  /\ absent (note_id Sample.fresh_dated) [Sample.older; Sample.newer]
  /\ Store.addNote Sample.fresh_dated (Sample.account true Sample.two_notes true)
     = (Ok Sample.fresh_dated,
        snd (Store.addNote Sample.fresh_dated
               (Sample.account true Sample.two_notes true)))
  /\ Store.findNote (note_id Sample.fresh_dated)
       (snd (Store.addNote Sample.fresh_dated
               (Sample.account true Sample.two_notes true)))
     = (Ok (Some (toJSON Sample.fresh_dated)),
        snd (Store.addNote Sample.fresh_dated
               (Sample.account true Sample.two_notes true)))
  /\ get "createdAt" Sample.fresh_dated = Some (NativeDate 1704337445678)
  /\ field "createdAt" (toJSON Sample.fresh_dated)
     = Some (JStr "2024-01-04T03:04:05.678Z")
  /\ ~ equal_fields Sample.fresh_dated (toJSON Sample.fresh_dated).
Proof.
  split; [vm_compute; reflexivity | ].
  split; [repeat constructor | ].
  split; [vm_compute; reflexivity | ].
  split; [vm_compute; reflexivity | ].
  split; [reflexivity | ].
  split; [vm_compute; reflexivity | ].
  intros E. exact (E "createdAt").
Qed.

(** ** C6: removing an id that is not there *)




(** ** The delete handlers *)

Lemma findNote_find (w : world) (l : list json) (id : value) :
  stored w = JArr l -> no_null l ->
  Store.findNote id w = (Ok (List.find (has_id id) l), w).
Proof.
  intros Hs Hn. unfold Store.findNote.
  rewrite (bind_ok _ (readFile_view w)), Hs.
  unfold lift, Array_find. cbn [array_method bindR].
  now rewrite (find_first_find _ Hn).
Qed.

Lemma deleteNote_filter (w : world) (l : list json) (id : value) :
  stored w = JArr l -> no_null l ->
  Store.deleteNote id w
  = (to_primitive id,
     if disk_writable w
     then set_disk
            (Holding (Document (JArr (List.filter (fun n => negb (has_id id n)) l))))
            w
     else w).
Proof.
  intros Hs Hn. unfold Store.deleteNote.
  rewrite (bind_ok _ (readFile_view w)), Hs.
  unfold lift at 1. unfold bind at 1. unfold Array_filter.
  cbn [array_method bindR]. rewrite (filter_all_filter _ Hn). cbn [bindR].
  rewrite (bind_ok _ (@writeFile_never_throws w _)).
  unfold lift, bind, ret. now destruct (to_primitive id) as [[] | ].
Qed.

(** ** C5: deleting an unknown id *)

(** C5. When the stored collection is an array of records none of
    which carries the id of the request, both delete handlers answer
    404 and leave the world as it was: no call to Cloudinary is
    recorded and the backing file is untouched. *)
Theorem delete_unknown_id (w : world) (l : list json) (id : string) :
  stored w = JArr l -> no_null l -> absent (Some (JStr id)) l ->
  DevServer.delete id w
  = (Ok {| status := 404;
           payload := JObj [ ("error", JStr "File not found") ] |}, w)
  /\ Server.delete id w
     = (Ok {| status := 404;
              payload := JObj [ ("error", JStr "Note not found") ] |}, w).
Proof.
  intros Hs Hn Ha. split.
  - unfold DevServer.delete, try_catch.
    rewrite (bind_ok _ (dev_getNotes_view w)), Hs.
    unfold lift at 1. unfold bind at 1. unfold Array_find.
    cbn [array_method bindR].
    rewrite (find_first_find _ Hn), (find_absent Ha). reflexivity.
  - unfold Server.delete, try_catch.
    rewrite (bind_ok _ (@findNote_find w l _ Hs Hn)), (find_absent Ha).
    reflexivity.
Qed.

Lemma delete_unknown_id_witness :
  DevServer.delete "42" (Sample.account true Sample.two_notes true)
  = (Ok {| status := 404;
           payload := JObj [ ("error", JStr "File not found") ] |},
     Sample.account true Sample.two_notes true)
  /\ Server.delete "42" (Sample.account true Sample.two_notes true)
     = (Ok {| status := 404;
              payload := JObj [ ("error", JStr "Note not found") ] |},
        Sample.account true Sample.two_notes true).
Proof.
  apply (@delete_unknown_id (Sample.account true Sample.two_notes true)
           [Sample.older; Sample.newer] "42").
  - reflexivity.
  - repeat constructor; discriminate.
  - repeat constructor.
Defined.

(** ** C4: when Cloudinary refuses the deletion *)

(** C4. Let the stored collection be an array of records in which
    [note] is the one the id of the request finds, and let Cloudinary
    fail the destroy call for it.  The development server (which makes
    the call when the record has a [publicId], and writes a writable
    file) still answers 200 and the collection left is the old one
    without the records of that id.  The server on the store answers
    500 and leaves the backing file as it was. *)
Theorem delete_when_destroy_fails
  (w : world) (l : list json) (id : string) (note : json) (e : exn) :
  stored w = JArr l -> no_null l ->
  List.find (has_id (Some (JStr id))) l = Some note ->
  destroy_reply w (field "publicId" note)
    (destroy_resourceType (field "type" note)) = Throw e ->
  (truthy (field "publicId" note) = true -> disk_writable w = true ->
   exists w1,
     DevServer.delete id w
     = (Ok {| status := 200;
              payload := JObj [ ("message", JStr "✅ File deleted successfully!") ] |},
        w1)
     /\ stored w1
        = JArr (List.filter (fun n => negb (has_id (Some (JStr id)) n)) l)
     /\ cloud_log w1
        = (cloud_log w ++ [DestroyCall (field "publicId" note)
                             (destroy_resourceType (field "type" note))])%list)
  /\ (exists w1,
         Server.delete id w
         = (Ok {| status := 500;
                  payload := JObj [ ("error", JStr "Delete failed") ] |}, w1)
         /\ disk w1 = disk w
         /\ cloud_log w1
            = (cloud_log w ++ [DestroyCall (field "publicId" note)
                                 (destroy_resourceType (field "type" note))])%list).
Proof.
  intros Hs Hn Hf Hd.
  destruct (find_some_object _ _ Hf) as [props [-> Hid]].
  unfold field in *. cbn [prop] in *.
  split.
  - intros Hp Hw.
    eexists. split; [ | split].
    + unfold DevServer.delete, try_catch, bind, lift.
      rewrite dev_getNotes_view, Hs.
      unfold Array_find. cbn [array_method bindR].
      rewrite (find_first_find _ Hn), Hf.
      cbn [truthy negb prop]. rewrite Hp.
      unfold cloudinary_destroy. rewrite Hd.
      unfold Array_filter. cbn [array_method bindR].
      rewrite (filter_all_filter _ Hn). cbn [bindR ret].
      unfold DevServer.saveNotes, try_catch, fs_writeFileSync.
      cbn [record_call disk_writable]. rewrite Hw.
      reflexivity.
    + reflexivity.
    + reflexivity.
  - eexists. split; [ | split].
    + unfold Server.delete, try_catch, bind, lift.
      rewrite (@findNote_find w l _ Hs Hn), Hf.
      cbn [truthy negb prop].
      unfold cloudinary_destroy. rewrite Hd. reflexivity.
    + reflexivity.
    + reflexivity.
Qed.

Lemma delete_when_destroy_fails_witness :
  (exists w1,
     DevServer.delete "1704164645678" (Sample.account false Sample.two_notes true)
     = (Ok {| status := 200;
              payload := JObj [ ("message", JStr "✅ File deleted successfully!") ] |},
        w1)
     /\ stored w1
        = JArr (List.filter
                  (fun n => negb (has_id (Some (JStr "1704164645678")) n))
                  [Sample.older; Sample.newer])
     /\ cloud_log w1
        = (cloud_log (Sample.account false Sample.two_notes true)
           ++ [DestroyCall (field "publicId" Sample.older)
                 (destroy_resourceType (field "type" Sample.older))])%list)
  /\ (exists w1,
         Server.delete "1704164645678" (Sample.account false Sample.two_notes true)
         = (Ok {| status := 500;
                  payload := JObj [ ("error", JStr "Delete failed") ] |}, w1)
         /\ disk w1 = disk (Sample.account false Sample.two_notes true)
         /\ cloud_log w1
            = (cloud_log (Sample.account false Sample.two_notes true)
               ++ [DestroyCall (field "publicId" Sample.older)
                     (destroy_resourceType (field "type" Sample.older))])%list).
Proof.
  destruct (@delete_when_destroy_fails
              (Sample.account false Sample.two_notes true)
              [Sample.older; Sample.newer] "1704164645678" Sample.older
              (CloudError "Request Timeout"))
    as [Permissive Strict].
  - reflexivity.
  - repeat constructor; discriminate.
  - reflexivity.
  - reflexivity.
  - split; [apply Permissive; reflexivity | exact Strict].
Defined.

(** ** C3: what the upload handlers turn away *)

(** C3, as the code has it.  A request without the file part, or whose
    title is missing or is the empty string, is answered 400 by both
    upload handlers, and the world is left as it was: no record is
    added and no call to Cloudinary is recorded. *)
Theorem upload_rejects_missing_parts
  (engine : Engine) (w : world) (req : upload_request) :
  file req = None \/ given (title (body req)) = None ->
  DevServer.upload req w
  = (Ok {| status := 400;
           payload := JObj [ ("error", JStr "File and title are required") ] |}, w)
  /\ Server.upload req w
     = (Ok {| status := 400;
              payload := JObj [ ("error", JStr "File and title are required") ] |}, w).
Proof.
  intros H. unfold DevServer.upload, Server.upload, try_catch.
  destruct H as [H | H]; rewrite H.
  - split; reflexivity.
  - destruct (file req); split; reflexivity.
Qed.

Lemma upload_rejects_missing_parts_witness :
  DevServer.upload {| file := Some Sample.pdf; body := Sample.form (Some "") None |}
    (Sample.account true Sample.two_notes true)
  = (Ok {| status := 400;
           payload := JObj [ ("error", JStr "File and title are required") ] |},
     Sample.account true Sample.two_notes true)
  /\ Server.upload {| file := Some Sample.pdf; body := Sample.form (Some "") None |}
       (Sample.account true Sample.two_notes true)
     = (Ok {| status := 400;
              payload := JObj [ ("error", JStr "File and title are required") ] |},
        Sample.account true Sample.two_notes true).
Proof.
  apply (@upload_rejects_missing_parts iso_engine
           (Sample.account true Sample.two_notes true)
           {| file := Some Sample.pdf; body := Sample.form (Some "") None |}).
  right. reflexivity.
Defined.

(** C3, as stated, fails on a title of blanks: it trims to the empty
    string, yet both handlers answer 201, make the upload call and
    store a record whose title is empty. *)
Lemma upload_blank_title_accepted :
  option_map trim (title (body Sample.blank_title)) = Some ""
  /\ status_of (fst (DevServer.upload Sample.blank_title
                       (Sample.account true Sample.empty_store true)))
     = Some 201
  /\ List.length
       (cloud_log (snd (DevServer.upload Sample.blank_title
                          (Sample.account true Sample.empty_store true))))
     = 1%nat
  /\ (exists n,
         stored (snd (DevServer.upload Sample.blank_title
                        (Sample.account true Sample.empty_store true)))
         = JArr [n]
         /\ field "title" n = Some (JStr ""))
  /\ status_of (fst (Server.upload Sample.blank_title
                       (Sample.account true Sample.empty_store true)))
     = Some 201
  /\ List.length
       (cloud_log (snd (Server.upload Sample.blank_title
                          (Sample.account true Sample.empty_store true))))
     = 1%nat
  /\ (exists n,
         stored (snd (Server.upload Sample.blank_title
                        (Sample.account true Sample.empty_store true)))
         = JArr [n]
         /\ field "title" n = Some (JStr "")).
Proof.
  repeat split; try (vm_compute; reflexivity);
    (eexists; split; [vm_compute; reflexivity | reflexivity]).
Qed.

(** ** C10: one resource type from upload to delete *)

Lemma resourceType_agrees (type : option string) :
  destroy_resourceType (Some (JStr (or_else type "note")))
  = upload_resourceType type.
Proof.
  unfold destroy_resourceType, upload_resourceType, or_else, given.
  destruct type as [s | ]; [ | reflexivity].
  cbn [truthy option_map strict_eq].
  destruct (s =? "")%string eqn:E; [ | reflexivity].
  apply String.eqb_eq in E. now subst.
Qed.

Lemma dev_delete_log (w : world) (l : list json) (id : string) (note : json) :
  stored w = JArr l -> no_null l ->
  List.find (has_id (Some (JStr id))) l = Some note ->
  cloud_log (snd (DevServer.delete id w))
  = (cloud_log w
     ++ (if truthy (field "publicId" note)
         then [DestroyCall (field "publicId" note)
                 (destroy_resourceType (field "type" note))]
         else []))%list.
Proof.
  intros Hs Hn Hf.
  destruct (find_some_object _ _ Hf) as [props [-> Hid]].
  unfold field. cbn [prop].
  unfold DevServer.delete, try_catch, bind, lift.
  rewrite dev_getNotes_view, Hs.
  unfold Array_find. cbn [array_method bindR].
  rewrite (find_first_find _ Hn), Hf.
  cbn [truthy negb prop].
  unfold Array_filter. cbn [array_method bindR].
  rewrite (filter_all_filter _ Hn). cbn [bindR ret].
  unfold DevServer.saveNotes, try_catch, fs_writeFileSync, cloudinary_destroy.
  destruct (truthy (lookup "publicId" props)).
  - destruct (destroy_reply w _ _); unfold ret, respond;
      cbn [record_call disk_writable];
      destruct (disk_writable w); reflexivity.
  - unfold ret, respond. destruct (disk_writable w); cbn; now rewrite app_nil_r.
Qed.

Lemma server_delete_log (w : world) (l : list json) (id : string) (note : json) :
  stored w = JArr l -> no_null l ->
  List.find (has_id (Some (JStr id))) l = Some note ->
  cloud_log (snd (Server.delete id w))
  = (cloud_log w
     ++ [DestroyCall (field "publicId" note)
           (destroy_resourceType (field "type" note))])%list.
Proof.
  intros Hs Hn Hf.
  destruct (find_some_object _ _ Hf) as [props [-> Hid]].
  unfold field. cbn [prop].
  unfold Server.delete, try_catch, bind, lift.
  rewrite (@findNote_find w l _ Hs Hn), Hf.
  cbn [truthy negb prop].
  unfold cloudinary_destroy.
  destruct (destroy_reply w _ _); [ | reflexivity].
  rewrite (@deleteNote_filter (record_call _ w) l (Some (JStr id)) Hs Hn).
  cbn [record_call disk_writable].
  destruct (disk_writable w); reflexivity.
Qed.

(** C10. Whenever an upload handler answers 201, it has made exactly
    one call to Cloudinary, an upload, and the record [note] it
    returns in its response (and appends to the collection when the
    file can be written) has this property: in every world whose
    collection is an array of records in which the id of a delete
    request finds [note], the destroy call of the delete handler of
    the same server carries the resource type of that upload call.
    The development server makes the destroy call when the record has
    a [publicId]; the server on the store makes it always. *)
Theorem resource_type_kept (engine : Engine) :
  (forall req w r w1,
      DevServer.upload req w = (Ok r, w1) -> status r = 201 ->
      exists options bytes note l,
        cloud_log w1 = (cloud_log w ++ [UploadCall options bytes])%list
        /\ field "file" (payload r) = Some note
        /\ stored w = JArr l
        /\ (disk_writable w = true -> stored w1 = JArr (l ++ [note]))
        /\ destroy_resourceType (field "type" note) = resource_type options
        /\ forall w2 l2 id,
             stored w2 = JArr l2 -> no_null l2 ->
             List.find (has_id (Some (JStr id))) l2 = Some note ->
             cloud_log (snd (DevServer.delete id w2))
             = (cloud_log w2
                ++ (if truthy (field "publicId" note)
                    then [DestroyCall (field "publicId" note)
                            (resource_type options)]
                    else []))%list)
  /\ (forall req w r w1,
         Server.upload req w = (Ok r, w1) -> status r = 201 ->
         exists options bytes note l,
           cloud_log w1 = (cloud_log w ++ [UploadCall options bytes])%list
           /\ field "note" (payload r) = Some note
           /\ stored w = JArr l
           /\ (disk_writable w = true -> stored w1 = JArr (l ++ [note]))
           /\ destroy_resourceType (field "type" note) = resource_type options
           /\ forall w2 l2 id,
                stored w2 = JArr l2 -> no_null l2 ->
                List.find (has_id (Some (JStr id))) l2 = Some note ->
                cloud_log (snd (Server.delete id w2))
                = (cloud_log w2
                   ++ [DestroyCall (field "publicId" note)
                         (resource_type options)])%list).
Proof.
  split; intros req w r w1 U S.
  - unfold DevServer.upload, try_catch in U.
    destruct (file req) as [f | ];
      [ | injection U as <- <-; discriminate].
    destruct (given (title (body req))) as [t | ];
      [ | injection U as <- <-; discriminate].
    unfold bind, Date_now, cloudinary_upload in U.
    cbn [tick upload_reply record_call clock clock_reads] in U.
    destruct (upload_reply w _) as [res | e];
      [ | injection U as <- <-; discriminate].
    rewrite dev_getNotes_view in U.
    unfold stored in U. cbn [tick record_call disk] in U. fold (stored w) in U.
    unfold lift, Array_push in U.
    destruct (stored w) as [ | b | z | s | l | props] eqn:Hs;
      cbn [array_method bindR] in U;
      try (injection U as <- <-; discriminate).
    unfold DevServer.saveNotes, try_catch, fs_writeFileSync, JSON_stringify,
      respond, ret in U.
    cbn [tick record_call disk_writable] in U.
    do 3 eexists. exists l.
    destruct (disk_writable w); injection U as <- <-;
      (split; [reflexivity | ]); (split; [reflexivity | ]);
      (split; [reflexivity | ]); (split; [ try discriminate; reflexivity | ]);
      (split; [exact (resourceType_agrees _) | ]);
      intros w2 l2 id Hs2 Hn2 Hf2;
      rewrite (@dev_delete_log w2 l2 id _ Hs2 Hn2 Hf2);
      cbn [resource_type]; rewrite <- resourceType_agrees; reflexivity.
  - unfold Server.upload, try_catch in U.
    destruct (file req) as [f | ];
      [ | injection U as <- <-; discriminate].
    destruct (given (title (body req))) as [t | ];
      [ | injection U as <- <-; discriminate].
    unfold bind, Date_now, cloudinary_upload in U.
    cbn [tick upload_reply record_call clock clock_reads] in U.
    destruct (upload_reply w _) as [res | e];
      [ | injection U as <- <-; discriminate].
    unfold Store.addNote, bind in U.
    rewrite readFile_view in U.
    unfold stored in U. cbn [tick record_call disk] in U. fold (stored w) in U.
    unfold lift, Array_push in U.
    destruct (stored w) as [ | b | z | s | l | props] eqn:Hs;
      cbn [array_method bindR] in U;
      try (injection U as <- <-; discriminate).
    rewrite writeFile_never_throws in U.
    cbn [tick record_call disk_writable prop] in U.
    unfold respond, ret in U.
    do 3 eexists. exists l.
    destruct (disk_writable w); injection U as <- <-;
      (split; [reflexivity | ]); (split; [reflexivity | ]);
      (split; [reflexivity | ]); (split; [ try discriminate; reflexivity | ]);
      (split; [exact (resourceType_agrees _) | ]);
      intros w2 l2 id Hs2 Hn2 Hf2;
      rewrite (@server_delete_log w2 l2 id _ Hs2 Hn2 Hf2);
      cbn [resource_type]; rewrite <- resourceType_agrees; reflexivity.
Qed.

Lemma resource_type_kept_witness :
  (exists r w1,
      DevServer.upload Sample.picture
        (Sample.account true Sample.empty_store true) = (Ok r, w1)
      /\ status r = 201
      /\ exists options bytes note l,
           cloud_log w1
           = (cloud_log (Sample.account true Sample.empty_store true)
              ++ [UploadCall options bytes])%list
           /\ field "file" (payload r) = Some note
           /\ stored (Sample.account true Sample.empty_store true) = JArr l
           /\ (disk_writable (Sample.account true Sample.empty_store true) = true ->
               stored w1 = JArr (l ++ [note]))
           /\ destroy_resourceType (field "type" note) = resource_type options
           /\ forall w2 l2 id,
                stored w2 = JArr l2 -> no_null l2 ->
                List.find (has_id (Some (JStr id))) l2 = Some note ->
                cloud_log (snd (DevServer.delete id w2))
                = (cloud_log w2
                   ++ (if truthy (field "publicId" note)
                       then [DestroyCall (field "publicId" note)
                               (resource_type options)]
                       else []))%list)
  /\ (exists r w1,
         Server.upload Sample.picture
           (Sample.account true Sample.empty_store true) = (Ok r, w1)
         /\ status r = 201
         /\ exists options bytes note l,
              cloud_log w1
              = (cloud_log (Sample.account true Sample.empty_store true)
                 ++ [UploadCall options bytes])%list
              /\ field "note" (payload r) = Some note
              /\ stored (Sample.account true Sample.empty_store true) = JArr l
              /\ (disk_writable (Sample.account true Sample.empty_store true) = true ->
                  stored w1 = JArr (l ++ [note]))
              /\ destroy_resourceType (field "type" note) = resource_type options
              /\ forall w2 l2 id,
                   stored w2 = JArr l2 -> no_null l2 ->
                   List.find (has_id (Some (JStr id))) l2 = Some note ->
                   cloud_log (snd (Server.delete id w2))
                   = (cloud_log w2
                      ++ [DestroyCall (field "publicId" note)
                            (resource_type options)])%list).
Proof.
  split.
  - exists (match fst (DevServer.upload Sample.picture
                         (Sample.account true Sample.empty_store true)) with
            | Ok r => r
            | Throw _ => {| status := 0; payload := JNull |}
            end),
           (snd (DevServer.upload Sample.picture
                   (Sample.account true Sample.empty_store true))).
    split; [vm_compute; reflexivity | ].
    split; [vm_compute; reflexivity | ].
    apply (proj1 (resource_type_kept iso_engine) Sample.picture
             (Sample.account true Sample.empty_store true));
      vm_compute; reflexivity.
  - exists (match fst (Server.upload Sample.picture
                         (Sample.account true Sample.empty_store true)) with
            | Ok r => r
            | Throw _ => {| status := 0; payload := JNull |}
            end),
           (snd (Server.upload Sample.picture
                   (Sample.account true Sample.empty_store true))).
    split; [vm_compute; reflexivity | ].
    split; [vm_compute; reflexivity | ].
    apply (proj2 (resource_type_kept iso_engine) Sample.picture
             (Sample.account true Sample.empty_store true));
      vm_compute; reflexivity.
Defined.

(** * Further properties of the stores *)

Lemma find_app_some (p : json -> bool) (l rest : list json) (x : json) :
  List.find p l = Some x -> List.find p (l ++ rest) = Some x.
Proof.
  induction l as [ | n l IH]; simpl; [discriminate | ].
  destruct (p n); [trivial | exact IH].
Qed.

Lemma strict_eq_both (i a b : value) :
  strict_eq i a = true -> strict_eq i b = true -> strict_eq a b = true.
Proof.
  destruct i as [[ | x | x | x | x | x] | ], a as [[ | y | y | y | y | y] | ],
    b as [[ | z | z | z | z | z] | ]; simpl; try discriminate; trivial.
  - intros A B. apply Bool.eqb_prop in A, B. subst. apply Bool.eqb_reflx.
  - intros A B. apply Z.eqb_eq in A, B. subst. apply Z.eqb_refl.
  - intros A B. apply String.eqb_eq in A, B. subst. apply String.eqb_refl.
Qed.

Lemma has_id_other (id id' : value) (n : json) :
  strict_eq id' id = false -> has_id id' n = true -> has_id id n = false.
Proof.
  unfold has_id. intros D H.
  destruct (prop (Some n) "id") as [i | e]; [ | discriminate].
  destruct (strict_eq i id) eqn:E; [ | reflexivity].
  now rewrite (strict_eq_both i id' id H E) in D.
Qed.

Lemma find_filter_other (id id' : value) (l : list json) :
  strict_eq id' id = false ->
  List.find (has_id id') (List.filter (fun n => negb (has_id id n)) l)
  = List.find (has_id id') l.
Proof.
  intros D. induction l as [ | n l IH]; simpl; [reflexivity | ].
  destruct (has_id id' n) eqn:H.
  - rewrite (has_id_other id id' n D H). simpl. now rewrite H.
  - destruct (has_id id n); simpl; [exact IH | now rewrite H].
Qed.

Lemma find_app_other (id' : value) (l : list json) (x : json) :
  has_id id' x = false ->
  List.find (has_id id') (l ++ [x]) = List.find (has_id id') l.
Proof.
  intros H. induction l as [ | n l IH]; simpl; [now rewrite H | ].
  destruct (has_id id' n); [reflexivity | exact IH].
Qed.

Lemma filter_no_null (p : json -> bool) (l : list json) :
  no_null l -> no_null (List.filter p l).
Proof.
  unfold no_null. rewrite !Forall_forall. intros H n I.
  apply filter_In in I. now apply H.
Qed.

Lemma stored_no_document (w : world) :
  no_document w -> stored w = JArr [].
Proof.
  unfold no_document, stored, view. intros H.
  destruct (disk w) as [ | | [ | | v]]; try reflexivity.
  now destruct (H v).
Qed.

Lemma array_method_not_array (recv name : string) (v : json) :
  is_array v = false -> type_error (array_method recv name v).
Proof.
  destruct v; simpl; try discriminate; intros _; eexists; reflexivity.
Qed.

Section StoreProperties.
Context {engine : Engine}.

Lemma addNote_appends (w : world) (l : list json) (r : object) :
  stored w = JArr l ->
  Store.addNote r w
  = (_ <~ template_text (get "title" r) ;; Ok r,
     if disk_writable w
     then set_disk (Holding (Document (JArr (l ++ [toJSON r])))) w
     else w).
Proof.
  intros Hs. unfold Store.addNote.
  rewrite (bind_ok _ (readFile_view w)), Hs.
  unfold lift at 1. unfold bind at 1. cbn [Array_push array_method bindR].
  rewrite (bind_ok _ (@writeFile_never_throws w _)).
  unfold lift, bind, ret. now destruct (template_text (get "title" r)) as [[] | ].
Qed.

Lemma plain_addNote_appends (w : world) (l : list json) (r : object) :
  stored w = JArr l ->
  PlainStore.addNote r w
  = if disk_writable w
    then (Ok tt, set_disk (Holding (Document (JArr (l ++ [toJSON r])))) w)
    else (Throw (SystemError "EACCES: permission denied"), w).
Proof.
  intros Hs. unfold PlainStore.addNote.
  rewrite (bind_ok _ (plain_getNotes_view w)), Hs.
  unfold lift at 1. unfold bind at 1. cbn [Array_push array_method bindR].
  unfold fs_writeFileSync, JSON_stringify. reflexivity.
Qed.

Lemma plain_deleteNote_filter (w : world) (l : list json) (id : value) :
  stored w = JArr l -> no_null l ->
  PlainStore.deleteNote id w
  = if disk_writable w
    then (Ok tt,
          set_disk
            (Holding (Document (JArr (List.filter (fun n => negb (has_id id n)) l))))
            w)
    else (Throw (SystemError "EACCES: permission denied"), w).
Proof.
  intros Hs Hn. unfold PlainStore.deleteNote.
  rewrite (bind_ok _ (plain_getNotes_view w)), Hs.
  unfold lift at 1. unfold bind at 1. unfold Array_filter.
  cbn [array_method bindR]. rewrite (filter_all_filter _ Hn). cbn [bindR].
  unfold fs_writeFileSync, JSON_stringify. reflexivity.
Qed.

Lemma plain_findNote_find (w : world) (l : list json) (id : value) :
  stored w = JArr l -> no_null l ->
  PlainStore.findNote id w = (Ok (List.find (has_id id) l), w).
Proof.
  intros Hs Hn. unfold PlainStore.findNote.
  rewrite (bind_ok _ (plain_getNotes_view w)), Hs.
  unfold lift, Array_find. cbn [array_method bindR].
  now rewrite (find_first_find _ Hn).
Qed.

End StoreProperties.

(** ** What the three readers return *)

(** X1. In every state of the backing file the three readers,
    [readFile] of the primary store, [getNotes] of the plain store and
    [getNotes] of the development server, return the same value
    without throwing and without touching the world: the parsed
    document when the file holds one, the empty array when the file is
    missing, unreadable, empty or unparseable.  The extra guards of the
    development server ([existsSync], [data || '[]']) change nothing. *)
Theorem readers_agree (w : world) :
  Store.readFile w = PlainStore.getNotes w
  /\ PlainStore.getNotes w = DevServer.getNotes w
  /\ (forall v, disk w = Holding (Document v) ->
      DevServer.getNotes w = (Ok v, w))
  /\ (no_document w -> DevServer.getNotes w = (Ok (JArr []), w)).
Proof.
  rewrite readFile_view, plain_getNotes_view, dev_getNotes_view.
  repeat split.
  - intros v Hd. unfold stored. now rewrite Hd.
  - intros Hn. now rewrite (stored_no_document Hn).
Qed.

(** ** Writing over a file that does not parse *)

(** X2. When the backing file is missing, unreadable, empty or
    unparseable and can be written, [addNote] and [deleteNote] do not
    fail: they overwrite the file, with the array of the one record
    added, respectively with the empty array.  Whatever the file held
    is lost.  Both stores; in the primary store for a note whose
    [title], respectively an id, that has a text for the log line. *)
Theorem write_over_unparsed_file
  (engine : Engine) (w : world) (r : object) (id : value) :
  no_document w -> disk_writable w = true ->
  (template_text (get "title" r) = Ok tt ->
   Store.addNote r w
   = (Ok r, set_disk (Holding (Document (JArr [toJSON r]))) w))
  /\ PlainStore.addNote r w
     = (Ok tt, set_disk (Holding (Document (JArr [toJSON r]))) w)
  /\ (to_primitive id = Ok tt ->
      Store.deleteNote id w
      = (Ok tt, set_disk (Holding (Document (JArr []))) w))
  /\ PlainStore.deleteNote id w
     = (Ok tt, set_disk (Holding (Document (JArr []))) w).
Proof.
  intros Hn Hw. pose proof (stored_no_document Hn) as Hs.
  assert (N : no_null []) by constructor.
  rewrite (@addNote_appends engine w [] r Hs),
    (@plain_addNote_appends engine w [] r Hs),
    (@deleteNote_filter w [] id Hs N),
    (@plain_deleteNote_filter w [] id Hs N), Hw.
  repeat split; intros ->; reflexivity.
Qed.

Lemma write_over_unparsed_file_witness :
  Store.addNote Sample.fresh (Sample.account true (Holding Malformed) true)
  = (Ok Sample.fresh,
     set_disk (Holding (Document (JArr [toJSON Sample.fresh])))
       (Sample.account true (Holding Malformed) true))
  /\ PlainStore.addNote Sample.fresh (Sample.account true (Holding Malformed) true)
     = (Ok tt,
        set_disk (Holding (Document (JArr [toJSON Sample.fresh])))
          (Sample.account true (Holding Malformed) true))
  /\ Store.deleteNote (Some (JStr "42")) (Sample.account true (Holding Malformed) true)
     = (Ok tt,
        set_disk (Holding (Document (JArr [])))
          (Sample.account true (Holding Malformed) true))
  /\ PlainStore.deleteNote (Some (JStr "42"))
       (Sample.account true (Holding Malformed) true)
     = (Ok tt,
        set_disk (Holding (Document (JArr [])))
          (Sample.account true (Holding Malformed) true)).
Proof.
  destruct (@write_over_unparsed_file iso_engine
              (Sample.account true (Holding Malformed) true)
              Sample.fresh (Some (JStr "42")))
    as (Add & PlainAdd & Delete & PlainDelete).
  - intros v. discriminate.
  - reflexivity.
  - split; [apply Add; reflexivity | ].
    split; [exact PlainAdd | ].
    split; [apply Delete; reflexivity | exact PlainDelete].
Defined.

(** ** A file that holds JSON other than an array *)

(** X3. When the backing file holds a JSON document that is not an
    array, [addNote], [deleteNote] and [findNote] of both stores throw
    a [TypeError] (from [push], [filter], [find]) and write nothing:
    the world is left as it was. *)
Theorem store_on_non_array
  (engine : Engine) (w : world) (v : json) (r : object) (id : value) :
  disk w = Holding (Document v) -> is_array v = false ->
  fails_untouched (Store.addNote r) w
  /\ fails_untouched (Store.deleteNote id) w
  /\ fails_untouched (Store.findNote id) w
  /\ fails_untouched (PlainStore.addNote r) w
  /\ fails_untouched (PlainStore.deleteNote id) w
  /\ fails_untouched (PlainStore.findNote id) w.
Proof.
  intros Hd Hv.
  assert (Hs : stored w = v) by (unfold stored; now rewrite Hd).
  unfold fails_untouched.
  repeat split;
    unfold Store.addNote, Store.deleteNote, Store.findNote,
      PlainStore.addNote, PlainStore.deleteNote, PlainStore.findNote;
    first [ rewrite (bind_ok _ (readFile_view w))
          | rewrite (bind_ok _ (plain_getNotes_view w)) ];
    rewrite Hs; unfold lift, bind, Array_push, Array_filter, Array_find;
    match goal with
    | |- context [array_method ?a ?b v] =>
        destruct (array_method_not_array a b v Hv) as [m ->]
    end;
    first [ reflexivity | eexists; reflexivity ].
Qed.

Lemma store_on_non_array_witness :
  fails_untouched (Store.addNote Sample.fresh)
    (Sample.account true Sample.object_file true)
  /\ fails_untouched (Store.deleteNote (Some (JStr "42")))
       (Sample.account true Sample.object_file true)
  /\ fails_untouched (Store.findNote (Some (JStr "42")))
       (Sample.account true Sample.object_file true)
  /\ fails_untouched (PlainStore.addNote Sample.fresh)
       (Sample.account true Sample.object_file true)
  /\ fails_untouched (PlainStore.deleteNote (Some (JStr "42")))
       (Sample.account true Sample.object_file true)
  /\ fails_untouched (PlainStore.findNote (Some (JStr "42")))
       (Sample.account true Sample.object_file true).
Proof.
  apply (@store_on_non_array iso_engine
           (Sample.account true Sample.object_file true) (JObj [])
           Sample.fresh (Some (JStr "42"))); reflexivity.
Defined.

(** ** An id that is already there *)

(** X4. [addNote] does not check the id.  When the stored collection
    is an array of records in which the id of [r] already finds a
    record [old], and the file is writable, [addNote r] appends [r] all
    the same, and [findNote] of that id goes on returning [old]: the
    record added is in the file but is not the one found.  Both
    stores; the primary [addNote] returns [r] when the [title] of [r]
    has a text for the log line. *)
Theorem add_existing_id
  (engine : Engine) (w : world) (l : list json) (r : object) (old : json) :
  stored w = JArr l -> no_null l ->
  List.find (has_id (note_id r)) l = Some old ->
  disk_writable w = true ->
  exists w1,
    (template_text (get "title" r) = Ok tt -> Store.addNote r w = (Ok r, w1))
    /\ PlainStore.addNote r w = (Ok tt, w1)
    /\ stored w1 = JArr (l ++ [toJSON r])
    /\ Store.findNote (note_id r) w1 = (Ok (Some old), w1)
    /\ PlainStore.findNote (note_id r) w1 = (Ok (Some old), w1).
Proof.
  intros Hs Hn Hf Hw.
  exists (set_disk (Holding (Document (JArr (l ++ [toJSON r])))) w).
  assert (Hn' : no_null (l ++ [toJSON r])).
  { apply Forall_app. split; [exact Hn | ].
    constructor; [discriminate | constructor]. }
  assert (Hs' : stored (set_disk (Holding (Document (JArr (l ++ [toJSON r])))) w)
                = JArr (l ++ [toJSON r])) by reflexivity.
  rewrite (@addNote_appends engine w l r Hs),
    (@plain_addNote_appends engine w l r Hs), Hw.
  rewrite (@findNote_find _ _ (note_id r) Hs' Hn'),
    (@plain_findNote_find _ _ (note_id r) Hs' Hn'),
    (@find_app_some _ l [toJSON r] old Hf).
  repeat split. now intros ->.
Qed.

Lemma add_existing_id_witness :
  exists w1,
    Store.addNote Sample.second_edition
      (Sample.account true Sample.two_notes true)
    = (Ok Sample.second_edition, w1)
    /\ PlainStore.addNote Sample.second_edition
         (Sample.account true Sample.two_notes true)
       = (Ok tt, w1)
    /\ stored w1
       = JArr ([Sample.older; Sample.newer] ++ [toJSON Sample.second_edition])
    /\ Store.findNote (note_id Sample.second_edition) w1
       = (Ok (Some Sample.older), w1)
    /\ PlainStore.findNote (note_id Sample.second_edition) w1
       = (Ok (Some Sample.older), w1)
    /\ field "title" Sample.older = Some (JStr "Syllabus")
    /\ field "title" (toJSON Sample.second_edition)
       = Some (JStr "Syllabus, second edition").
Proof.
  destruct (@add_existing_id iso_engine
              (Sample.account true Sample.two_notes true)
              [Sample.older; Sample.newer]
              Sample.second_edition Sample.older)
    as (w1 & Add & PlainAdd & Stored & Found & PlainFound).
  - reflexivity.
  - repeat constructor; discriminate.
  - reflexivity.
  - reflexivity.
  - exists w1.
    split; [apply Add; reflexivity | ].
    split; [exact PlainAdd | ].
    split; [exact Stored | ].
    split; [exact Found | ].
    split; [exact PlainFound | ].
    split; reflexivity.
Defined.

(** ** Other ids are left alone *)

(** X5. Adding or deleting under one id does not change what
    [findNote] returns for another.  With the stored collection an
    array of records and the file writable: after [deleteNote id],
    [findNote id'] returns what it returned before for every [id'] that
    is not [===] to [id], and [findNote id] returns [undefined]; after
    [addNote r], [findNote id'] returns what it returned before for
    every [id'] that is not the id of [r].  Primary store, for an [id]
    and a note [title] that have a text for the log line. *)
Theorem other_ids_kept
  (engine : Engine) (w : world) (l : list json) (r : object) (id id' : value) :
  stored w = JArr l -> no_null l -> disk_writable w = true ->
  strict_eq id' id = false ->
  has_id id' (toJSON r) = false ->
  to_primitive id = Ok tt ->
  template_text (get "title" r) = Ok tt ->
  (exists w1,
      Store.deleteNote id w = (Ok tt, w1)
      /\ Store.findNote id' w1 = (Ok (List.find (has_id id') l), w1)
      /\ Store.findNote id w1 = (Ok None, w1))
  /\ (exists w1,
         Store.addNote r w = (Ok r, w1)
         /\ Store.findNote id' w1 = (Ok (List.find (has_id id') l), w1))
  /\ Store.findNote id' w = (Ok (List.find (has_id id') l), w).
Proof.
  intros Hs Hn Hw D R Hid Ht. split; [ | split].
  - exists (set_disk
              (Holding (Document
                 (JArr (List.filter (fun n => negb (has_id id n)) l)))) w).
    rewrite (@deleteNote_filter w l id Hs Hn), Hw, Hid.
    split; [reflexivity | ].
    set (kept := List.filter (fun n => negb (has_id id n)) l).
    set (w1 := set_disk (Holding (Document (JArr kept))) w).
    assert (Hs1 : stored w1 = JArr kept) by reflexivity.
    assert (Hn1 : no_null kept) by (apply filter_no_null; exact Hn).
    rewrite (@findNote_find w1 kept id' Hs1 Hn1),
      (@findNote_find w1 kept id Hs1 Hn1).
    unfold kept. rewrite (@find_filter_other id id' l D). split; [reflexivity | ].
    f_equal. f_equal.
    clear. induction l as [ | n l IH]; simpl; [reflexivity | ].
    destruct (has_id id n) eqn:H; simpl; [exact IH | now rewrite H].
  - exists (set_disk (Holding (Document (JArr (l ++ [toJSON r])))) w).
    rewrite (@addNote_appends engine w l r Hs), Hw, Ht.
    split; [reflexivity | ].
    assert (Hn' : no_null (l ++ [toJSON r])).
    { apply Forall_app. split; [exact Hn | ].
      constructor; [discriminate | constructor]. }
    set (w1 := set_disk (Holding (Document (JArr (l ++ [toJSON r])))) w).
    assert (Hs1 : stored w1 = JArr (l ++ [toJSON r])) by reflexivity.
    rewrite (@findNote_find w1 (l ++ [toJSON r]) id' Hs1 Hn').
    now rewrite (@find_app_other id' l (toJSON r) R).
  - apply (@findNote_find w l id' Hs Hn).
Qed.

Lemma other_ids_kept_witness :
  (exists w1,
      Store.deleteNote (Some (JStr "1704164645678"))
        (Sample.account true Sample.two_notes true) = (Ok tt, w1)
      /\ Store.findNote (Some (JStr "1704251045678")) w1
         = (Ok (List.find (has_id (Some (JStr "1704251045678")))
                  [Sample.older; Sample.newer]), w1)
      /\ Store.findNote (Some (JStr "1704164645678")) w1 = (Ok None, w1))
  /\ (exists w1,
         Store.addNote Sample.fresh (Sample.account true Sample.two_notes true)
         = (Ok Sample.fresh, w1)
         /\ Store.findNote (Some (JStr "1704251045678")) w1
            = (Ok (List.find (has_id (Some (JStr "1704251045678")))
                     [Sample.older; Sample.newer]), w1))
  /\ Store.findNote (Some (JStr "1704251045678"))
       (Sample.account true Sample.two_notes true)
     = (Ok (List.find (has_id (Some (JStr "1704251045678")))
              [Sample.older; Sample.newer]),
        Sample.account true Sample.two_notes true).
Proof.
  apply (@other_ids_kept iso_engine (Sample.account true Sample.two_notes true)
           [Sample.older; Sample.newer] Sample.fresh
           (Some (JStr "1704164645678")) (Some (JStr "1704251045678")));
    try reflexivity.
  repeat constructor; discriminate.
Defined.

(** ** When the file cannot be written *)

(** X6. The two stores differ on a failed write.  With the stored
    collection an array of records and the file not writable,
    [addNote] and [deleteNote] of the primary store return normally
    ([addNote] returns the note) although nothing was written, for a
    note [title] and an id that have a text for the log line; those
    of the plain store throw the error of [writeFileSync].  In both
    the world is left as it was. *)
Theorem failed_write
  (engine : Engine) (w : world) (l : list json) (r : object) (id : value) :
  stored w = JArr l -> no_null l -> disk_writable w = false ->
  (template_text (get "title" r) = Ok tt -> Store.addNote r w = (Ok r, w))
  /\ (to_primitive id = Ok tt -> Store.deleteNote id w = (Ok tt, w))
  /\ PlainStore.addNote r w
     = (Throw (SystemError "EACCES: permission denied"), w)
  /\ PlainStore.deleteNote id w
     = (Throw (SystemError "EACCES: permission denied"), w).
Proof.
  intros Hs Hn Hw.
  rewrite (@addNote_appends engine w l r Hs),
    (@plain_addNote_appends engine w l r Hs),
    (@deleteNote_filter w l id Hs Hn),
    (@plain_deleteNote_filter w l id Hs Hn), Hw.
  repeat split; intros ->; reflexivity.
Qed.

Lemma failed_write_witness :
  Store.addNote Sample.fresh (Sample.account true Sample.two_notes false)
  = (Ok Sample.fresh, Sample.account true Sample.two_notes false)
  /\ Store.deleteNote (Some (JStr "1704164645678"))
       (Sample.account true Sample.two_notes false)
     = (Ok tt, Sample.account true Sample.two_notes false)
  /\ PlainStore.addNote Sample.fresh (Sample.account true Sample.two_notes false)
     = (Throw (SystemError "EACCES: permission denied"),
        Sample.account true Sample.two_notes false)
  /\ PlainStore.deleteNote (Some (JStr "1704164645678"))
       (Sample.account true Sample.two_notes false)
     = (Throw (SystemError "EACCES: permission denied"),
        Sample.account true Sample.two_notes false).
Proof.
  destruct (@failed_write iso_engine (Sample.account true Sample.two_notes false)
              [Sample.older; Sample.newer] Sample.fresh
              (Some (JStr "1704164645678")))
    as (Add & Delete & PlainAdd & PlainDelete).
  - reflexivity.
  - repeat constructor; discriminate.
  - reflexivity.
  - split; [apply Add; reflexivity | ].
    split; [apply Delete; reflexivity | ].
    split; [exact PlainAdd | exact PlainDelete].
Defined.

(** * Further properties of the listing *)

Section ListingProperties.
Context {engine : Engine}.




Lemma sort_list_sorted_input (l : list json) :
  timed engine l -> StronglySorted (not_older engine) l ->
  sort_list Store.newest_first l = Ok l.
Proof.
  intros Hl Sl. induction Sl as [ | x l Sl IH Hx]; [reflexivity | ].
  inversion Hl as [ | ? ? Tx Tl]; subst.
  cbn [sort_list]. rewrite (IH Tl). cbn [bindR].
  destruct l as [ | y l]; [reflexivity | ].
  inversion Tl as [ | ? ? Ty _]; subst.
  inversion Hx as [ | ? ? Hxy _]; subst.
  destruct (created engine x) as [tx | ] eqn:Ex; [ | congruence].
  destruct (created engine y) as [ty | ] eqn:Ey; [ | congruence].
  cbn [sort_insert]. rewrite (newest_first_timed _ _ Ex Ey).
  cbn [bindR sort_order].
  specialize (Hxy tx ty Ex Ey).
  assert (C : (ty - tx <=? 0) = true) by (apply Z.leb_le; lia).
  now rewrite C.
Qed.

End ListingProperties.



(** X8. A file that is already newest first is listed as it is.  When
    every stored record has a valid [createdAt] and no record of the
    file is older than one that follows it, [getNotes] of the primary
    store returns the array of the file unchanged. *)
Theorem getNotes_sorted_file (engine : Engine) (w : world) (l : list json) :
  stored w = JArr l -> timed engine l ->
  StronglySorted (not_older engine) l ->
  Store.getNotes w = (Ok (JArr l), w).
Proof.
  intros Hw Hl Sl. unfold Store.getNotes.
  rewrite (bind_ok _ (readFile_view w)), Hw.
  unfold lift, Array_sort. cbn [array_method bindR].
  now rewrite (@sort_list_sorted_input engine l Hl Sl).
Qed.

Lemma getNotes_sorted_file_witness :
  Store.getNotes (Sample.account true Sample.two_notes_listed true)
  = (Ok (JArr [Sample.newer; Sample.older]),
     Sample.account true Sample.two_notes_listed true).
Proof.
  apply (@getNotes_sorted_file iso_engine
           (Sample.account true Sample.two_notes_listed true)
           [Sample.newer; Sample.older]).
  - reflexivity.
  - repeat constructor; vm_compute; discriminate.
  - constructor; [constructor; constructor | ].
    constructor; [ | constructor].
    intros ta tb Ea Eb. vm_compute in Ea, Eb.
    injection Ea as <-. injection Eb as <-. lia.
Defined.

(** * Further properties of the handlers *)

Lemma or_else_given (s : option string) (t fallback : string) :
  given s = Some t -> or_else s fallback = t.
Proof. unfold or_else. now intros ->. Qed.

Section HandlerProperties.
Context {engine : Engine}.

(** The upload handler of the development server, when the request
    passes the guard and Cloudinary answers. *)
Lemma dev_upload_accepts
  (w : world) (req : upload_request) (f : multer_file) (t : string)
  (reply : upload_options -> upload_result) (l : list json) :
  file req = Some f -> given (title (body req)) = Some t ->
  stored w = JArr l ->
  (forall o, upload_reply w o = Ok (reply o)) ->
  exists o note,
    DevServer.upload req w
    = (Ok {| status := 201;
             payload := JObj [ ("message", JStr "✅ File uploaded successfully!");
                               ("file", note) ] |},
       if disk_writable w
       then set_disk (Holding (Document (JArr (l ++ [note]))))
              (tick (tick (record_call (UploadCall o (buffer f)) (tick w))))
       else tick (tick (record_call (UploadCall o (buffer f)) (tick w))))
    /\ o = {| resource_type := upload_resourceType (type (body req));
              folder := "campusnotes/" ++ or_else (type (body req)) "notes";
              public_id := Some (Number_toString (clock w (clock_reads w))
                                 ++ "_" ++ before_dot (originalname f)) |}
    /\ stored_fields req f (reply o) (clock w (S (clock_reads w))) note
    /\ field "createdAt" note
       = Some (JStr (Date_toISOString (clock w (S (S (clock_reads w)))))).
Proof.
  intros Hf Ht Hs Hr.
  do 2 eexists. split; [ | split; [reflexivity | ]].
  - unfold DevServer.upload, try_catch. rewrite Hf, Ht.
    unfold bind, Date_now, cloudinary_upload.
    cbn [tick upload_reply record_call clock clock_reads].
    rewrite Hr, dev_getNotes_view.
    unfold stored. cbn [tick record_call disk]. fold (stored w). rewrite Hs.
    unfold lift, Array_push. cbn [array_method bindR].
    unfold DevServer.saveNotes, try_catch, fs_writeFileSync, JSON_stringify,
      respond, ret.
    cbn [tick record_call disk_writable].
    destruct (disk_writable w); reflexivity.
  - unfold stored_fields. rewrite (or_else_given _ "" Ht).
    repeat split; reflexivity.
Qed.

(** The same for the server on the store. *)
Lemma server_upload_accepts
  (w : world) (req : upload_request) (f : multer_file) (t : string)
  (reply : upload_options -> upload_result) (l : list json) :
  file req = Some f -> given (title (body req)) = Some t ->
  stored w = JArr l ->
  (forall o, upload_reply w o = Ok (reply o)) ->
  exists o note,
    Server.upload req w
    = (Ok {| status := 201;
             payload := JObj [ ("message", JStr "âœ… File uploaded successfully!");
                               ("note", note) ] |},
       if disk_writable w
       then set_disk (Holding (Document (JArr (l ++ [note]))))
              (tick (tick (record_call (UploadCall o (buffer f)) w)))
       else tick (tick (record_call (UploadCall o (buffer f)) w)))
    /\ o = {| resource_type := upload_resourceType (type (body req));
              folder := "campusnotes/" ++ or_else (type (body req)) "files";
              public_id := None |}
    /\ stored_fields req f (reply o) (clock w (clock_reads w)) note
    /\ field "createdAt" note
       = Some (JStr (Date_toISOString (clock w (S (clock_reads w))))).
Proof.
  intros Hf Ht Hs Hr.
  do 2 eexists. split; [ | split; [reflexivity | ]].
  - unfold Server.upload, try_catch. rewrite Hf, Ht.
    unfold bind, Date_now, cloudinary_upload.
    cbn [tick upload_reply record_call clock clock_reads].
    rewrite Hr.
    unfold Store.addNote, bind. rewrite readFile_view.
    unfold stored. cbn [tick record_call disk]. fold (stored w). rewrite Hs.
    unfold lift, Array_push. cbn [array_method bindR].
    rewrite writeFile_never_throws.
    cbn [tick record_call disk_writable]. unfold respond, ret.
    destruct (disk_writable w); reflexivity.
  - unfold stored_fields. rewrite (or_else_given _ "" Ht).
    repeat split; reflexivity.
Qed.

(** The delete handlers, when the id finds a record. *)
Lemma dev_delete_found
  (w : world) (l : list json) (id : string) (note : json) :
  stored w = JArr l -> no_null l ->
  List.find (has_id (Some (JStr id))) l = Some note ->
  DevServer.delete id w
  = (Ok {| status := 200;
           payload := JObj [ ("message", JStr "✅ File deleted successfully!") ] |},
     let called :=
       if truthy (field "publicId" note)
       then record_call (DestroyCall (field "publicId" note)
                           (destroy_resourceType (field "type" note))) w
       else w in
     if disk_writable w
     then set_disk
            (Holding (Document
               (JArr (List.filter (fun n => negb (has_id (Some (JStr id)) n)) l))))
            called
     else called).
Proof.
  intros Hs Hn Hf.
  destruct (find_some_object _ _ Hf) as [props [-> Hid]].
  unfold field. cbn [prop].
  unfold DevServer.delete, try_catch, bind, lift.
  rewrite dev_getNotes_view, Hs.
  unfold Array_find. cbn [array_method bindR].
  rewrite (find_first_find _ Hn), Hf.
  cbn [truthy negb prop].
  unfold Array_filter. cbn [array_method bindR].
  rewrite (filter_all_filter _ Hn). cbn [bindR ret].
  unfold DevServer.saveNotes, try_catch, fs_writeFileSync, cloudinary_destroy,
    JSON_stringify, respond, ret.
  destruct (truthy (lookup "publicId" props)).
  - destruct (destroy_reply w _ _); cbn [record_call disk_writable];
      destruct (disk_writable w); reflexivity.
  - destruct (disk_writable w); reflexivity.
Qed.

Lemma server_delete_found
  (w : world) (l : list json) (id : string) (note : json) :
  stored w = JArr l -> no_null l ->
  List.find (has_id (Some (JStr id))) l = Some note ->
  destroy_reply w (field "publicId" note)
    (destroy_resourceType (field "type" note)) = Ok tt ->
  Server.delete id w
  = (Ok {| status := 200;
           payload := JObj [ ("message", JStr "Deleted successfully") ] |},
     let called :=
       record_call (DestroyCall (field "publicId" note)
                      (destroy_resourceType (field "type" note))) w in
     if disk_writable w
     then set_disk
            (Holding (Document
               (JArr (List.filter (fun n => negb (has_id (Some (JStr id)) n)) l))))
            called
     else called).
Proof.
  intros Hs Hn Hf Hd.
  destruct (find_some_object _ _ Hf) as [props [-> Hid]].
  unfold field in *. cbn [prop] in *.
  unfold Server.delete, try_catch, bind, lift.
  rewrite (@findNote_find w l _ Hs Hn), Hf.
  cbn [truthy negb prop].
  unfold cloudinary_destroy. rewrite Hd.
  rewrite (@deleteNote_filter (record_call _ w) l (Some (JStr id)) Hs Hn).
  cbn [record_call disk_writable]. unfold respond, ret.
  destruct (disk_writable w); reflexivity.
Qed.

End HandlerProperties.

Lemma absent_filter (id : value) (l : list json) :
  absent id (List.filter (fun n => negb (has_id id n)) l).
Proof.
  unfold absent. rewrite Forall_forall. intros n I.
  apply filter_In in I. destruct I as [_ I].
  now destruct (has_id id n).
Qed.

Lemma dev_delete_absent (w : world) (l : list json) (id : string) :
  stored w = JArr l -> no_null l -> absent (Some (JStr id)) l ->
  DevServer.delete id w
  = (Ok {| status := 404;
           payload := JObj [ ("error", JStr "File not found") ] |}, w).
Proof.
  intros Hs Hn Ha. unfold DevServer.delete, try_catch.
  rewrite (bind_ok _ (dev_getNotes_view w)), Hs.
  unfold lift at 1. unfold bind at 1. unfold Array_find.
  cbn [array_method bindR].
  rewrite (find_first_find _ Hn), (find_absent Ha). reflexivity.
Qed.

Lemma server_delete_absent (w : world) (l : list json) (id : string) :
  stored w = JArr l -> no_null l -> absent (Some (JStr id)) l ->
  Server.delete id w
  = (Ok {| status := 404;
           payload := JObj [ ("error", JStr "Note not found") ] |}, w).
Proof.
  intros Hs Hn Ha. unfold Server.delete, try_catch.
  rewrite (bind_ok _ (@findNote_find w l _ Hs Hn)), (find_absent Ha).
  reflexivity.
Qed.

(** ** Uploads *)

(** X9. When the request carries a file and a title but Cloudinary
    refuses the upload, both upload handlers answer 500 with the
    message of the error after ["Upload failed: "]; the upload call
    was made, and the backing file is left as it was: no record is
    stored. *)
Theorem upload_refused
  (engine : Engine) (w : world) (req : upload_request)
  (f : multer_file) (t : string) (e : exn) :
  file req = Some f -> given (title (body req)) = Some t ->
  (forall o, upload_reply w o = Throw e) ->
  (exists w1 o,
      DevServer.upload req w
      = (Ok {| status := 500;
               payload := JObj [ ("error",
                                  JStr ("Upload failed: " ++ exn_message e)) ] |},
         w1)
      /\ disk w1 = disk w
      /\ cloud_log w1 = (cloud_log w ++ [UploadCall o (buffer f)])%list)
  /\ (exists w1 o,
         Server.upload req w
         = (Ok {| status := 500;
                  payload := JObj [ ("error",
                                     JStr ("Upload failed: " ++ exn_message e)) ] |},
            w1)
         /\ disk w1 = disk w
         /\ cloud_log w1 = (cloud_log w ++ [UploadCall o (buffer f)])%list).
Proof.
  intros Hf Ht Hr. split; do 2 eexists.
  - unfold DevServer.upload, try_catch. rewrite Hf, Ht.
    unfold bind, Date_now, cloudinary_upload.
    cbn [tick upload_reply record_call clock clock_reads].
    rewrite Hr. unfold respond, ret. repeat split.
  - unfold Server.upload, try_catch. rewrite Hf, Ht.
    unfold bind, Date_now, cloudinary_upload.
    cbn [tick upload_reply record_call clock clock_reads].
    rewrite Hr. unfold respond, ret. repeat split.
Qed.

Lemma upload_refused_witness :
  (exists w1 o,
      DevServer.upload Sample.syllabus (Sample.closed_account Sample.two_notes)
      = (Ok {| status := 500;
               payload := JObj [ ("error",
                                  JStr ("Upload failed: "
                                        ++ exn_message (CloudError "Invalid Signature"))) ] |},
         w1)
      /\ disk w1 = disk (Sample.closed_account Sample.two_notes)
      /\ cloud_log w1
         = (cloud_log (Sample.closed_account Sample.two_notes)
            ++ [UploadCall o (buffer Sample.pdf)])%list)
  /\ (exists w1 o,
         Server.upload Sample.syllabus (Sample.closed_account Sample.two_notes)
         = (Ok {| status := 500;
                  payload := JObj [ ("error",
                                     JStr ("Upload failed: "
                                           ++ exn_message (CloudError "Invalid Signature"))) ] |},
            w1)
         /\ disk w1 = disk (Sample.closed_account Sample.two_notes)
         /\ cloud_log w1
            = (cloud_log (Sample.closed_account Sample.two_notes)
               ++ [UploadCall o (buffer Sample.pdf)])%list).
Proof.
  apply (@upload_refused iso_engine (Sample.closed_account Sample.two_notes)
           Sample.syllabus Sample.pdf " Syllabus " (CloudError "Invalid Signature"));
    reflexivity.
Defined.

(** X10. When the request carries a file and a title, Cloudinary takes
    the upload, the stored collection is an array and the file is
    writable, both upload handlers answer 201 with the new record,
    make exactly the one upload call, and leave the collection with
    the record appended at its end.  The record has the trimmed title,
    [''] for a missing or blank subject or description, ['note'] for a
    missing type, the name, MIME type and size of the file, the URL and
    public id Cloudinary returned, the clock reading as its id and the
    ISO string of the next clock reading as [createdAt].  The upload
    is sent under the folder [campusnotes/<type>] (default [notes] in
    the development server, [files] in the other), with the public id
    [<clock>_<file name up to its first dot>] in the development server
    and none in the other. *)
Theorem upload_stores_note
  (engine : Engine) (w : world) (req : upload_request) (f : multer_file)
  (t : string) (reply : upload_options -> upload_result) (l : list json) :
  file req = Some f -> given (title (body req)) = Some t ->
  stored w = JArr l ->
  (forall o, upload_reply w o = Ok (reply o)) ->
  disk_writable w = true ->
  (exists w1 o note,
      DevServer.upload req w
      = (Ok {| status := 201;
               payload := JObj [ ("message", JStr "✅ File uploaded successfully!");
                                 ("file", note) ] |}, w1)
      /\ stored w1 = JArr (l ++ [note])
      /\ cloud_log w1 = (cloud_log w ++ [UploadCall o (buffer f)])%list
      /\ o = {| resource_type := upload_resourceType (type (body req));
                folder := "campusnotes/" ++ or_else (type (body req)) "notes";
                public_id := Some (Number_toString (clock w (clock_reads w))
                                   ++ "_" ++ before_dot (originalname f)) |}
      /\ stored_fields req f (reply o) (clock w (S (clock_reads w))) note
      /\ field "createdAt" note
         = Some (JStr (Date_toISOString (clock w (S (S (clock_reads w)))))))
  /\ (exists w1 o note,
         Server.upload req w
         = (Ok {| status := 201;
                  payload := JObj [ ("message", JStr "âœ… File uploaded successfully!");
                                    ("note", note) ] |}, w1)
         /\ stored w1 = JArr (l ++ [note])
         /\ cloud_log w1 = (cloud_log w ++ [UploadCall o (buffer f)])%list
         /\ o = {| resource_type := upload_resourceType (type (body req));
                   folder := "campusnotes/" ++ or_else (type (body req)) "files";
                   public_id := None |}
         /\ stored_fields req f (reply o) (clock w (clock_reads w)) note
         /\ field "createdAt" note
            = Some (JStr (Date_toISOString (clock w (S (clock_reads w)))))).
Proof.
  intros Hf Ht Hs Hr Hw. split.
  - destruct (@dev_upload_accepts engine w req f t reply l Hf Ht Hs Hr)
      as (o & note & U & O & F & C).
    rewrite Hw in U. eexists. exists o, note.
    split; [exact U | ]. split; [reflexivity | ]. split; [reflexivity | ].
    split; [exact O | ]. split; [exact F | exact C].
  - destruct (@server_upload_accepts engine w req f t reply l Hf Ht Hs Hr)
      as (o & note & U & O & F & C).
    rewrite Hw in U. eexists. exists o, note.
    split; [exact U | ]. split; [reflexivity | ]. split; [reflexivity | ].
    split; [exact O | ]. split; [exact F | exact C].
Qed.

Lemma upload_stores_note_witness :
  (exists w1 o note,
      DevServer.upload Sample.syllabus (Sample.account true Sample.two_notes true)
      = (Ok {| status := 201;
               payload := JObj [ ("message", JStr "✅ File uploaded successfully!");
                                 ("file", note) ] |}, w1)
      /\ stored w1 = JArr ([Sample.older; Sample.newer] ++ [note])
      /\ cloud_log w1
         = (cloud_log (Sample.account true Sample.two_notes true)
            ++ [UploadCall o (buffer Sample.pdf)])%list
      /\ o = {| resource_type := upload_resourceType (type (body Sample.syllabus));
                folder := "campusnotes/" ++ or_else (type (body Sample.syllabus)) "notes";
                public_id :=
                  Some (Number_toString
                          (clock (Sample.account true Sample.two_notes true)
                             (clock_reads (Sample.account true Sample.two_notes true)))
                        ++ "_" ++ before_dot (originalname Sample.pdf)) |}
      /\ stored_fields Sample.syllabus Sample.pdf (Sample.reply o)
           (clock (Sample.account true Sample.two_notes true)
              (S (clock_reads (Sample.account true Sample.two_notes true))))
           note
      /\ field "createdAt" note
         = Some (JStr (Date_toISOString
                         (clock (Sample.account true Sample.two_notes true)
                            (S (S (clock_reads
                                     (Sample.account true Sample.two_notes true))))))))
  /\ (exists w1 o note,
         Server.upload Sample.syllabus (Sample.account true Sample.two_notes true)
         = (Ok {| status := 201;
                  payload := JObj [ ("message", JStr "âœ… File uploaded successfully!");
                                    ("note", note) ] |}, w1)
         /\ stored w1 = JArr ([Sample.older; Sample.newer] ++ [note])
         /\ cloud_log w1
            = (cloud_log (Sample.account true Sample.two_notes true)
               ++ [UploadCall o (buffer Sample.pdf)])%list
         /\ o = {| resource_type := upload_resourceType (type (body Sample.syllabus));
                   folder := "campusnotes/"
                             ++ or_else (type (body Sample.syllabus)) "files";
                   public_id := None |}
         /\ stored_fields Sample.syllabus Sample.pdf (Sample.reply o)
              (clock (Sample.account true Sample.two_notes true)
                 (clock_reads (Sample.account true Sample.two_notes true)))
              note
         /\ field "createdAt" note
            = Some (JStr (Date_toISOString
                            (clock (Sample.account true Sample.two_notes true)
                               (S (clock_reads
                                     (Sample.account true Sample.two_notes true))))))).
Proof.
  apply (@upload_stores_note iso_engine (Sample.account true Sample.two_notes true)
           Sample.syllabus Sample.pdf " Syllabus " Sample.reply
           [Sample.older; Sample.newer]); reflexivity.
Defined.

(** X11. A failed write does not show in the answer to an upload.
    When the request carries a file and a title, Cloudinary takes the
    upload and the stored collection is an array, but the backing file
    cannot be written, both upload handlers still answer 201 with the
    record, the upload call was made, and the backing file is as it
    was: the record is not stored. *)
Theorem upload_not_stored
  (engine : Engine) (w : world) (req : upload_request) (f : multer_file)
  (t : string) (reply : upload_options -> upload_result) (l : list json) :
  file req = Some f -> given (title (body req)) = Some t ->
  stored w = JArr l ->
  (forall o, upload_reply w o = Ok (reply o)) ->
  disk_writable w = false ->
  (exists w1 o note,
      DevServer.upload req w
      = (Ok {| status := 201;
               payload := JObj [ ("message", JStr "✅ File uploaded successfully!");
                                 ("file", note) ] |}, w1)
      /\ disk w1 = disk w
      /\ cloud_log w1 = (cloud_log w ++ [UploadCall o (buffer f)])%list)
  /\ (exists w1 o note,
         Server.upload req w
         = (Ok {| status := 201;
                  payload := JObj [ ("message", JStr "âœ… File uploaded successfully!");
                                    ("note", note) ] |}, w1)
         /\ disk w1 = disk w
         /\ cloud_log w1 = (cloud_log w ++ [UploadCall o (buffer f)])%list).
Proof.
  intros Hf Ht Hs Hr Hw. split.
  - destruct (@dev_upload_accepts engine w req f t reply l Hf Ht Hs Hr)
      as (o & note & U & _).
    rewrite Hw in U. eexists. exists o, note.
    split; [exact U | ]. split; reflexivity.
  - destruct (@server_upload_accepts engine w req f t reply l Hf Ht Hs Hr)
      as (o & note & U & _).
    rewrite Hw in U. eexists. exists o, note.
    split; [exact U | ]. split; reflexivity.
Qed.

Lemma upload_not_stored_witness :
  (exists w1 o note,
      DevServer.upload Sample.syllabus (Sample.account true Sample.two_notes false)
      = (Ok {| status := 201;
               payload := JObj [ ("message", JStr "✅ File uploaded successfully!");
                                 ("file", note) ] |}, w1)
      /\ disk w1 = disk (Sample.account true Sample.two_notes false)
      /\ cloud_log w1
         = (cloud_log (Sample.account true Sample.two_notes false)
            ++ [UploadCall o (buffer Sample.pdf)])%list)
  /\ (exists w1 o note,
         Server.upload Sample.syllabus (Sample.account true Sample.two_notes false)
         = (Ok {| status := 201;
                  payload := JObj [ ("message", JStr "âœ… File uploaded successfully!");
                                    ("note", note) ] |}, w1)
         /\ disk w1 = disk (Sample.account true Sample.two_notes false)
         /\ cloud_log w1
            = (cloud_log (Sample.account true Sample.two_notes false)
               ++ [UploadCall o (buffer Sample.pdf)])%list).
Proof.
  apply (@upload_not_stored iso_engine (Sample.account true Sample.two_notes false)
           Sample.syllabus Sample.pdf " Syllabus " Sample.reply
           [Sample.older; Sample.newer]); reflexivity.
Defined.

(** ** Deletions *)

(** X12. When the stored collection is an array of records in which
    the id of the request finds [note], Cloudinary carries out the
    deletion and the file is writable, both delete handlers answer 200;
    the collection left is the old one without the records of that id,
    all of them when several share it; the destroy call is made once,
    for [note], the first of them (in the development server only when
    [note] has a [publicId]); and the same request again is answered
    404 and changes nothing. *)
Theorem delete_removes_record
  (w : world) (l : list json) (id : string) (note : json) :
  stored w = JArr l -> no_null l ->
  List.find (has_id (Some (JStr id))) l = Some note ->
  destroy_reply w (field "publicId" note)
    (destroy_resourceType (field "type" note)) = Ok tt ->
  disk_writable w = true ->
  absent (Some (JStr id))
    (List.filter (fun n => negb (has_id (Some (JStr id)) n)) l)
  /\ (exists w1,
         DevServer.delete id w
         = (Ok {| status := 200;
                  payload := JObj [ ("message",
                                     JStr "✅ File deleted successfully!") ] |}, w1)
         /\ stored w1
            = JArr (List.filter (fun n => negb (has_id (Some (JStr id)) n)) l)
         /\ cloud_log w1
            = (cloud_log w
               ++ (if truthy (field "publicId" note)
                   then [DestroyCall (field "publicId" note)
                           (destroy_resourceType (field "type" note))]
                   else []))%list
         /\ DevServer.delete id w1
            = (Ok {| status := 404;
                     payload := JObj [ ("error", JStr "File not found") ] |}, w1))
  /\ (exists w1,
         Server.delete id w
         = (Ok {| status := 200;
                  payload := JObj [ ("message", JStr "Deleted successfully") ] |}, w1)
         /\ stored w1
            = JArr (List.filter (fun n => negb (has_id (Some (JStr id)) n)) l)
         /\ cloud_log w1
            = (cloud_log w
               ++ [DestroyCall (field "publicId" note)
                     (destroy_resourceType (field "type" note))])%list
         /\ Server.delete id w1
            = (Ok {| status := 404;
                     payload := JObj [ ("error", JStr "Note not found") ] |}, w1)).
Proof.
  intros Hs Hn Hf Hd Hw.
  pose proof (absent_filter (Some (JStr id)) l) as A.
  pose proof (filter_no_null (fun n => negb (has_id (Some (JStr id)) n)) Hn) as N.
  split; [exact A | ].
  set (kept := List.filter (fun n => negb (has_id (Some (JStr id)) n)) l) in *.
  split.
  - rewrite (@dev_delete_found w l id note Hs Hn Hf), Hw. cbv zeta.
    fold kept.
    set (w1 := set_disk (Holding (Document (JArr kept))) _).
    assert (S1 : stored w1 = JArr kept) by reflexivity.
    exists w1. split; [reflexivity | ]. split; [exact S1 | ].
    split.
    + unfold w1. destruct (truthy (field "publicId" note)); cbn;
        [reflexivity | now rewrite app_nil_r].
    + apply (@dev_delete_absent w1 kept id S1 N A).
  - rewrite (@server_delete_found w l id note Hs Hn Hf Hd), Hw. cbv zeta.
    fold kept.
    set (w1 := set_disk (Holding (Document (JArr kept))) _).
    assert (S1 : stored w1 = JArr kept) by reflexivity.
    exists w1. split; [reflexivity | ]. split; [exact S1 | ].
    split; [reflexivity | ].
    apply (@server_delete_absent w1 kept id S1 N A).
Qed.

Lemma delete_removes_record_witness :
  absent (Some (JStr "1704164645678"))
    (List.filter (fun n => negb (has_id (Some (JStr "1704164645678")) n))
       [Sample.older; Sample.newer; Sample.older_again])
  /\ (exists w1,
         DevServer.delete "1704164645678"
           (Sample.account true Sample.same_id_twice true)
         = (Ok {| status := 200;
                  payload := JObj [ ("message",
                                     JStr "✅ File deleted successfully!") ] |}, w1)
         /\ stored w1
            = JArr (List.filter
                      (fun n => negb (has_id (Some (JStr "1704164645678")) n))
                      [Sample.older; Sample.newer; Sample.older_again])
         /\ cloud_log w1
            = (cloud_log (Sample.account true Sample.same_id_twice true)
               ++ (if truthy (field "publicId" Sample.older)
                   then [DestroyCall (field "publicId" Sample.older)
                           (destroy_resourceType (field "type" Sample.older))]
                   else []))%list
         /\ DevServer.delete "1704164645678" w1
            = (Ok {| status := 404;
                     payload := JObj [ ("error", JStr "File not found") ] |}, w1))
  /\ (exists w1,
         Server.delete "1704164645678"
           (Sample.account true Sample.same_id_twice true)
         = (Ok {| status := 200;
                  payload := JObj [ ("message", JStr "Deleted successfully") ] |}, w1)
         /\ stored w1
            = JArr (List.filter
                      (fun n => negb (has_id (Some (JStr "1704164645678")) n))
                      [Sample.older; Sample.newer; Sample.older_again])
         /\ cloud_log w1
            = (cloud_log (Sample.account true Sample.same_id_twice true)
               ++ [DestroyCall (field "publicId" Sample.older)
                     (destroy_resourceType (field "type" Sample.older))])%list
         /\ Server.delete "1704164645678" w1
            = (Ok {| status := 404;
                     payload := JObj [ ("error", JStr "Note not found") ] |}, w1)).
Proof.
  apply (@delete_removes_record (Sample.account true Sample.same_id_twice true)
           [Sample.older; Sample.newer; Sample.older_again]
           "1704164645678" Sample.older); try reflexivity.
  repeat constructor; discriminate.
Defined.

(** X13. A failed write does not show in the answer to a delete.  When
    the id finds [note], Cloudinary carries out the deletion, but the
    backing file cannot be written, both delete handlers answer 200
    although the record is still in the file; the blob has been
    destroyed. *)
Theorem delete_not_stored
  (w : world) (l : list json) (id : string) (note : json) :
  stored w = JArr l -> no_null l ->
  List.find (has_id (Some (JStr id))) l = Some note ->
  destroy_reply w (field "publicId" note)
    (destroy_resourceType (field "type" note)) = Ok tt ->
  disk_writable w = false ->
  (exists w1,
      DevServer.delete id w
      = (Ok {| status := 200;
               payload := JObj [ ("message",
                                  JStr "✅ File deleted successfully!") ] |}, w1)
      /\ disk w1 = disk w
      /\ cloud_log w1
         = (cloud_log w
            ++ (if truthy (field "publicId" note)
                then [DestroyCall (field "publicId" note)
                        (destroy_resourceType (field "type" note))]
                else []))%list)
  /\ (exists w1,
         Server.delete id w
         = (Ok {| status := 200;
                  payload := JObj [ ("message", JStr "Deleted successfully") ] |}, w1)
         /\ disk w1 = disk w
         /\ cloud_log w1
            = (cloud_log w
               ++ [DestroyCall (field "publicId" note)
                     (destroy_resourceType (field "type" note))])%list).
Proof.
  intros Hs Hn Hf Hd Hw. split.
  - rewrite (@dev_delete_found w l id note Hs Hn Hf), Hw. cbv zeta.
    eexists. split; [reflexivity | ].
    destruct (truthy (field "publicId" note)); cbn;
      (split; [reflexivity | ]); [reflexivity | now rewrite app_nil_r].
  - rewrite (@server_delete_found w l id note Hs Hn Hf Hd), Hw. cbv zeta.
    eexists. repeat split.
Qed.

Lemma delete_not_stored_witness :
  (exists w1,
      DevServer.delete "1704164645678" (Sample.account true Sample.two_notes false)
      = (Ok {| status := 200;
               payload := JObj [ ("message",
                                  JStr "✅ File deleted successfully!") ] |}, w1)
      /\ disk w1 = disk (Sample.account true Sample.two_notes false)
      /\ cloud_log w1
         = (cloud_log (Sample.account true Sample.two_notes false)
            ++ (if truthy (field "publicId" Sample.older)
                then [DestroyCall (field "publicId" Sample.older)
                        (destroy_resourceType (field "type" Sample.older))]
                else []))%list)
  /\ (exists w1,
         Server.delete "1704164645678" (Sample.account true Sample.two_notes false)
         = (Ok {| status := 200;
                  payload := JObj [ ("message", JStr "Deleted successfully") ] |}, w1)
         /\ disk w1 = disk (Sample.account true Sample.two_notes false)
         /\ cloud_log w1
            = (cloud_log (Sample.account true Sample.two_notes false)
               ++ [DestroyCall (field "publicId" Sample.older)
                     (destroy_resourceType (field "type" Sample.older))])%list).
Proof.
  apply (@delete_not_stored (Sample.account true Sample.two_notes false)
           [Sample.older; Sample.newer] "1704164645678" Sample.older);
    try reflexivity.
  repeat constructor; discriminate.
Defined.

(** ** The handlers over a file that holds JSON other than an array *)

(** X14. When the backing file holds a JSON document that is not an
    array, both delete handlers answer 500 for every id without
    calling Cloudinary or writing; the listing of the server on the
    store answers 500 ["Failed to load notes"]; the listing of the
    development server answers 200 with that document as it is. *)
Theorem handlers_on_non_array
  (engine : Engine) (w : world) (v : json) (id : string) :
  disk w = Holding (Document v) -> is_array v = false ->
  (exists m,
      DevServer.delete id w
      = (Ok {| status := 500;
               payload := JObj [ ("error", JStr ("Delete failed: " ++ m)) ] |}, w))
  /\ Server.delete id w
     = (Ok {| status := 500;
              payload := JObj [ ("error", JStr "Delete failed") ] |}, w)
  /\ Server.list_notes w
     = (Ok {| status := 500;
              payload := JObj [ ("error", JStr "Failed to load notes") ] |}, w)
  /\ DevServer.list_notes w = (Ok {| status := 200; payload := v |}, w).
Proof.
  intros Hd Hv.
  assert (Hs : stored w = v) by (unfold stored; now rewrite Hd).
  split; [ | split; [ | split]].
  - unfold DevServer.delete, try_catch.
    rewrite (bind_ok _ (dev_getNotes_view w)), Hs.
    unfold lift at 1. unfold bind at 1. unfold Array_find.
    destruct (array_method_not_array "notes" "find" v Hv) as [m ->].
    exists m. reflexivity.
  - unfold Server.delete, try_catch, Store.findNote.
    unfold bind at 1. rewrite (bind_ok _ (readFile_view w)), Hs.
    unfold lift, Array_find.
    destruct (array_method_not_array "notes" "find" v Hv) as [m ->].
    reflexivity.
  - unfold Server.list_notes, try_catch, Store.getNotes.
    unfold bind at 1. rewrite (bind_ok _ (readFile_view w)), Hs.
    unfold lift, Array_sort.
    destruct (array_method_not_array "notes" "sort" v Hv) as [m ->].
    reflexivity.
  - unfold DevServer.list_notes.
    now rewrite (bind_ok _ (dev_getNotes_view w)), Hs.
Qed.

Lemma handlers_on_non_array_witness :
  (exists m,
      DevServer.delete "42" (Sample.account true Sample.object_file true)
      = (Ok {| status := 500;
               payload := JObj [ ("error", JStr ("Delete failed: " ++ m)) ] |},
         Sample.account true Sample.object_file true))
  /\ Server.delete "42" (Sample.account true Sample.object_file true)
     = (Ok {| status := 500;
              payload := JObj [ ("error", JStr "Delete failed") ] |},
        Sample.account true Sample.object_file true)
  /\ Server.list_notes (Sample.account true Sample.object_file true)
     = (Ok {| status := 500;
              payload := JObj [ ("error", JStr "Failed to load notes") ] |},
        Sample.account true Sample.object_file true)
  /\ DevServer.list_notes (Sample.account true Sample.object_file true)
     = (Ok {| status := 200; payload := JObj [] |},
        Sample.account true Sample.object_file true).
Proof.
  apply (@handlers_on_non_array iso_engine
           (Sample.account true Sample.object_file true) (JObj []) "42");
    reflexivity.
Defined.

(** X15. When the backing file holds a JSON document that is not an
    array, an upload that passes the guard and that Cloudinary takes
    still ends in 500: the blob has been uploaded, the push on the
    parsed value throws, and nothing is written. *)
Theorem upload_on_non_array
  (engine : Engine) (w : world) (v : json) (req : upload_request)
  (f : multer_file) (t : string) (reply : upload_options -> upload_result) :
  disk w = Holding (Document v) -> is_array v = false ->
  file req = Some f -> given (title (body req)) = Some t ->
  (forall o, upload_reply w o = Ok (reply o)) ->
  (exists w1 o m,
      DevServer.upload req w
      = (Ok {| status := 500;
               payload := JObj [ ("error", JStr ("Upload failed: " ++ m)) ] |}, w1)
      /\ disk w1 = disk w
      /\ cloud_log w1 = (cloud_log w ++ [UploadCall o (buffer f)])%list)
  /\ (exists w1 o m,
         Server.upload req w
         = (Ok {| status := 500;
                  payload := JObj [ ("error", JStr ("Upload failed: " ++ m)) ] |}, w1)
         /\ disk w1 = disk w
         /\ cloud_log w1 = (cloud_log w ++ [UploadCall o (buffer f)])%list).
Proof.
  intros Hd Hv Hf Ht Hr.
  assert (Hs : stored w = v) by (unfold stored; now rewrite Hd).
  destruct (array_method_not_array "notes" "push" v Hv) as [m Hm].
  split; eexists; eexists; exists m.
  - unfold DevServer.upload, try_catch. rewrite Hf, Ht.
    unfold bind, Date_now, cloudinary_upload.
    cbn [tick upload_reply record_call clock clock_reads].
    rewrite Hr, dev_getNotes_view.
    unfold stored. cbn [tick record_call disk]. fold (stored w). rewrite Hs.
    unfold lift, Array_push. rewrite Hm. cbn [bindR].
    unfold respond, ret. repeat split.
  - unfold Server.upload, try_catch. rewrite Hf, Ht.
    unfold bind, Date_now, cloudinary_upload.
    cbn [tick upload_reply record_call clock clock_reads].
    rewrite Hr.
    unfold Store.addNote, bind. rewrite readFile_view.
    unfold stored. cbn [tick record_call disk]. fold (stored w). rewrite Hs.
    unfold lift, Array_push. rewrite Hm. cbn [bindR].
    unfold respond, ret. repeat split.
Qed.

Lemma upload_on_non_array_witness :
  (exists w1 o m,
      DevServer.upload Sample.syllabus (Sample.account true Sample.object_file true)
      = (Ok {| status := 500;
               payload := JObj [ ("error", JStr ("Upload failed: " ++ m)) ] |}, w1)
      /\ disk w1 = disk (Sample.account true Sample.object_file true)
      /\ cloud_log w1
         = (cloud_log (Sample.account true Sample.object_file true)
            ++ [UploadCall o (buffer Sample.pdf)])%list)
  /\ (exists w1 o m,
         Server.upload Sample.syllabus (Sample.account true Sample.object_file true)
         = (Ok {| status := 500;
                  payload := JObj [ ("error", JStr ("Upload failed: " ++ m)) ] |}, w1)
         /\ disk w1 = disk (Sample.account true Sample.object_file true)
         /\ cloud_log w1
            = (cloud_log (Sample.account true Sample.object_file true)
               ++ [UploadCall o (buffer Sample.pdf)])%list).
Proof.
  apply (@upload_on_non_array iso_engine
           (Sample.account true Sample.object_file true) (JObj [])
           Sample.syllabus Sample.pdf " Syllabus " Sample.reply); reflexivity.
Defined.

(** ** The listings *)

(** X16. The listing handlers never write and never let an exception
    out.  In every world the listing of the development server answers
    200 with the stored collection as the file has it, and the listing
    of the server on the store answers either 200 or 500 ["Failed to
    load notes"]; both leave the world as it was.  When the collection
    is an array without [null] entries in which every [createdAt] is
    one that [new Date] accepts, the server on the store answers 200
    with a permutation of it. *)
Theorem list_handlers (engine : Engine) (w : world) :
  DevServer.list_notes w = (Ok {| status := 200; payload := stored w |}, w)
  /\ snd (Server.list_notes w) = w
  /\ ((exists notes,
          fst (Server.list_notes w) = Ok {| status := 200; payload := notes |})
      \/ fst (Server.list_notes w)
         = Ok {| status := 500;
                 payload := JObj [ ("error", JStr "Failed to load notes") ] |})
  /\ (forall l, stored w = JArr l -> dated l ->
      exists s,
        Server.list_notes w
        = (Ok {| status := 200; payload := JArr s |}, w)
        /\ Permutation l s).
Proof.
  assert (G : Store.getNotes w
              = (Array_sort "notes" Store.newest_first (stored w), w)).
  { unfold Store.getNotes. now rewrite (bind_ok _ (readFile_view w)). }
  split; [ | split; [ | split]].
  - unfold DevServer.list_notes.
    now rewrite (bind_ok _ (dev_getNotes_view w)).
  - unfold Server.list_notes, try_catch, bind. rewrite G.
    now destruct (Array_sort "notes" Store.newest_first (stored w)).
  - unfold Server.list_notes, try_catch, bind. rewrite G.
    destruct (Array_sort "notes" Store.newest_first (stored w)) as [notes | e].
    + left. exists notes. reflexivity.
    + right. reflexivity.
  - intros l Hs Hn. destruct (sort_list_perm Hn) as [s [S P]].
    exists s. split; [ | exact P].
    unfold Server.list_notes, try_catch, bind. rewrite G, Hs.
    unfold Array_sort. cbn [array_method bindR]. now rewrite S.
Qed.

Lemma list_handlers_witness :
  exists s,
    Server.list_notes (Sample.account true Sample.two_notes true)
    = (Ok {| status := 200; payload := JArr s |},
       Sample.account true Sample.two_notes true)
    /\ Permutation [Sample.older; Sample.newer] s.
Proof.
  apply (proj2 (proj2 (proj2
           (list_handlers iso_engine (Sample.account true Sample.two_notes true))))).
  - reflexivity.
  - repeat constructor; discriminate.
Defined.

(** ** No exception leaves a handler *)

Lemma bind_inv {A B} (m : M A) (k : A -> M B) (w w' : world) (b : B) :
  bind m k w = (Ok b, w') ->
  exists a w1, m w = (Ok a, w1) /\ k a w1 = (Ok b, w').
Proof.
  unfold bind. destruct (m w) as [[a | e] w1]; [eauto | discriminate].
Qed.

Lemma respond_inv (code : Z) (j : json) (w w' : world) (r : response) :
  respond code j w = (Ok r, w') -> status r = code.
Proof. unfold respond, ret. now intros [= <- _]. Qed.

(** Every outcome of [body] that is a response has its status in
    [codes]; so has the answer of the handler that wraps it. *)
Lemma wrapped_answers
  (body : M response) (message : exn -> json) (codes : list Z) (w : world) :
  (forall r w', body w = (Ok r, w') -> In (status r) codes) ->
  exists r w',
    try_catch body (fun e => respond 500 (message e)) w = (Ok r, w')
    /\ In (status r) (500 :: codes).
Proof.
  intros H. unfold try_catch.
  destruct (body w) as [[r | e] w'] eqn:E.
  - exists r, w'. split; [reflexivity | right; now apply (H r w')].
  - eexists. eexists. split; [reflexivity | now left].
Qed.

Ltac answered H :=
  repeat
    (cbv beta zeta in H;
     match type of H with
     | bind _ _ _ = (Ok _, _) =>
         apply bind_inv in H; destruct H as (? & ? & _ & H)
     | respond _ _ _ = (Ok _, _) =>
         apply respond_inv in H; rewrite H; simpl; tauto
     | (if ?c then _ else _) _ = (Ok _, _) => destruct c
     | (match ?x with Some _ => _ | None => _ end) _ = (Ok _, _) => destruct x
     end).

(** X17. No exception leaves a handler: for every request and every
    world, each upload handler returns a response whose status is 201,
    400 or 500, and each delete handler one whose status is 200, 404 or
    500. *)
Theorem handlers_answer
  (engine : Engine) (w : world) (req : upload_request) (id : string) :
  (exists r w', DevServer.upload req w = (Ok r, w')
                /\ In (status r) [500; 201; 400])
  /\ (exists r w', Server.upload req w = (Ok r, w')
                   /\ In (status r) [500; 201; 400])
  /\ (exists r w', DevServer.delete id w = (Ok r, w')
                   /\ In (status r) [500; 200; 404])
  /\ (exists r w', Server.delete id w = (Ok r, w')
                   /\ In (status r) [500; 200; 404]).
Proof.
  split; [ | split; [ | split]].
  - apply wrapped_answers. intros r w' H. answered H.
  - apply wrapped_answers. intros r w' H. answered H.
  - apply wrapped_answers. intros r w' H. answered H.
  - apply wrapped_answers. intros r w' H. answered H.
Qed.

(** ** From upload to delete *)

Lemma field_has_id (n : json) (s : string) :
  field "id" n = Some (JStr s) ->
  has_id (Some (JStr s)) n = true /\ n <> JNull.
Proof.
  unfold field, has_id.
  destruct n as [ | b | z | x | items | props]; simpl; try discriminate.
  intros ->. simpl. split; [apply String.eqb_refl | discriminate].
Qed.

Lemma filter_app_fresh (id : value) (l : list json) (note : json) :
  absent id l -> has_id id note = true ->
  List.filter (fun n => negb (has_id id n)) (l ++ [note]) = l.
Proof.
  intros A H. rewrite filter_app, (filter_absent A). simpl.
  rewrite H. simpl. apply app_nil_r.
Qed.

Lemma find_app_fresh (id : value) (l : list json) (note : json) :
  absent id l -> has_id id note = true ->
  List.find (has_id id) (l ++ [note]) = Some note.
Proof.
  intros A H. rewrite (find_app_absent _ A). simpl. now rewrite H.
Qed.

Lemma dev_list_notes_stored (w : world) :
  DevServer.list_notes w = (Ok {| status := 200; payload := stored w |}, w).
Proof.
  unfold DevServer.list_notes. now rewrite (bind_ok _ (dev_getNotes_view w)).
Qed.

Lemma server_list_notes_sorted (engine : Engine) (w : world) (l : list json) :
  stored w = JArr l -> dated l ->
  exists s,
    Server.list_notes w = (Ok {| status := 200; payload := JArr s |}, w)
    /\ Permutation l s.
Proof.
  intros Hs Hn. destruct (sort_list_perm Hn) as [s [S P]].
  exists s. split; [ | exact P].
  unfold Server.list_notes, try_catch, bind, Store.getNotes.
  rewrite (bind_ok _ (readFile_view w)), Hs.
  unfold lift, Array_sort. cbn [array_method bindR]. now rewrite S.
Qed.

(** X18. Upload, list, delete, list.  Let the stored collection be an
    array of records none of which carries the id the upload is about
    to draw from the clock, the file be writable, and Cloudinary take
    the upload and carry out deletions.  Then the upload answers 201
    with a record; the listing that follows contains that record (in
    the development server at the end of the collection); the delete
    of the record's id answers 200; and the collection is then the one
    before the upload, which the listing returns.  The listing of the
    server on the store sorts, so there every stored [createdAt] is to
    be one that [new Date] accepts. *)
Theorem upload_list_delete
  (engine : Engine) (w : world) (req : upload_request) (f : multer_file)
  (t : string) (reply : upload_options -> upload_result) (l : list json) :
  file req = Some f -> given (title (body req)) = Some t ->
  stored w = JArr l -> no_null l ->
  (forall o, upload_reply w o = Ok (reply o)) ->
  (forall p rt, destroy_reply w p rt = Ok tt) ->
  disk_writable w = true ->
  absent (Some (JStr (Number_toString (clock w (S (clock_reads w)))))) l ->
  absent (Some (JStr (Number_toString (clock w (clock_reads w))))) l ->
  (exists w1 w2 note id,
      DevServer.upload req w
      = (Ok {| status := 201;
               payload := JObj [ ("message", JStr "✅ File uploaded successfully!");
                                 ("file", note) ] |}, w1)
      /\ field "id" note = Some (JStr id)
      /\ DevServer.list_notes w1
         = (Ok {| status := 200; payload := JArr (l ++ [note]) |}, w1)
      /\ DevServer.delete id w1
         = (Ok {| status := 200;
                  payload := JObj [ ("message",
                                     JStr "✅ File deleted successfully!") ] |}, w2)
      /\ DevServer.list_notes w2
         = (Ok {| status := 200; payload := JArr l |}, w2))
  /\ (dated l ->
      exists w1 w2 note id s s',
        Server.upload req w
        = (Ok {| status := 201;
                 payload := JObj [ ("message", JStr "âœ… File uploaded successfully!");
                                   ("note", note) ] |}, w1)
        /\ field "id" note = Some (JStr id)
        /\ Server.list_notes w1
           = (Ok {| status := 200; payload := JArr s |}, w1)
        /\ Permutation (l ++ [note]) s
        /\ Server.delete id w1
           = (Ok {| status := 200;
                    payload := JObj [ ("message", JStr "Deleted successfully") ] |},
              w2)
        /\ stored w2 = JArr l
        /\ Server.list_notes w2
           = (Ok {| status := 200; payload := JArr s' |}, w2)
        /\ Permutation l s').
Proof.
  intros Hf Ht Hs Hn Hr Hd Hw Adev Asrv. split.
  - destruct (@dev_upload_accepts engine w req f t reply l Hf Ht Hs Hr)
      as (o & note & U & _ & F & _).
    rewrite Hw in U.
    destruct F as [Fid _]. destruct (@field_has_id _ _ Fid) as [Hid Nn].
    set (w1 := set_disk (Holding (Document (JArr (l ++ [note])))) _) in U.
    assert (S1 : stored w1 = JArr (l ++ [note])) by reflexivity.
    assert (N1 : no_null (l ++ [note])).
    { apply Forall_app. split; [exact Hn | now repeat constructor]. }
    pose proof (@dev_delete_found w1 (l ++ [note]) _ note S1 N1
                  (@find_app_fresh _ _ _ Adev Hid)) as D.
    cbv zeta in D. rewrite (@filter_app_fresh _ _ _ Adev Hid) in D.
    change (disk_writable w1) with (disk_writable w) in D. rewrite Hw in D.
    eexists w1, _, note, _.
    split; [exact U | ]. split; [exact Fid | ].
    split; [now rewrite dev_list_notes_stored, S1 | ].
    split; [exact D | ].
    now rewrite dev_list_notes_stored.
  - intros Hl.
    destruct (@server_upload_accepts engine w req f t reply l Hf Ht Hs Hr)
      as (o & note & U & _ & F & C).
    rewrite Hw in U.
    destruct F as [Fid _]. destruct (@field_has_id _ _ Fid) as [Hid Nn].
    set (w1 := set_disk (Holding (Document (JArr (l ++ [note])))) _) in U.
    assert (S1 : stored w1 = JArr (l ++ [note])) by reflexivity.
    assert (N1 : no_null (l ++ [note])).
    { apply Forall_app. split; [exact Hn | now repeat constructor]. }
    assert (L1 : dated (l ++ [note])).
    { apply Forall_app. split; [exact Hl | ].
      constructor; [ | constructor]. split; [exact Nn | now rewrite C]. }
    assert (D1 : destroy_reply w1 (field "publicId" note)
                   (destroy_resourceType (field "type" note)) = Ok tt)
      by apply Hd.
    pose proof (@server_delete_found w1 (l ++ [note]) _ note S1 N1
                  (@find_app_fresh _ _ _ Asrv Hid) D1) as D.
    cbv zeta in D. rewrite (@filter_app_fresh _ _ _ Asrv Hid) in D.
    change (disk_writable w1) with (disk_writable w) in D. rewrite Hw in D.
    destruct (@server_list_notes_sorted engine w1 _ S1 L1) as [s [G1 P1]].
    set (w2 := set_disk (Holding (Document (JArr l))) _) in D.
    assert (S2 : stored w2 = JArr l) by reflexivity.
    destruct (@server_list_notes_sorted engine w2 _ S2 Hl) as [s' [G2 P2]].
    eexists w1, w2, note, _, s, s'.
    split; [exact U | ]. split; [exact Fid | ].
    split; [exact G1 | ]. split; [exact P1 | ].
    split; [exact D | ]. split; [exact S2 | ]. split; [exact G2 | exact P2].
Qed.

Lemma upload_list_delete_witness :
  (exists w1 w2 note id,
      DevServer.upload Sample.syllabus (Sample.account true Sample.two_notes true)
      = (Ok {| status := 201;
               payload := JObj [ ("message", JStr "✅ File uploaded successfully!");
                                 ("file", note) ] |}, w1)
      /\ field "id" note = Some (JStr id)
      /\ DevServer.list_notes w1
         = (Ok {| status := 200;
                  payload := JArr ([Sample.older; Sample.newer] ++ [note]) |}, w1)
      /\ DevServer.delete id w1
         = (Ok {| status := 200;
                  payload := JObj [ ("message",
                                     JStr "✅ File deleted successfully!") ] |}, w2)
      /\ DevServer.list_notes w2
         = (Ok {| status := 200;
                  payload := JArr [Sample.older; Sample.newer] |}, w2))
  /\ (exists w1 w2 note id s s',
         Server.upload Sample.syllabus (Sample.account true Sample.two_notes true)
         = (Ok {| status := 201;
                  payload := JObj [ ("message", JStr "âœ… File uploaded successfully!");
                                    ("note", note) ] |}, w1)
         /\ field "id" note = Some (JStr id)
         /\ Server.list_notes w1
            = (Ok {| status := 200; payload := JArr s |}, w1)
         /\ Permutation ([Sample.older; Sample.newer] ++ [note]) s
         /\ Server.delete id w1
            = (Ok {| status := 200;
                     payload := JObj [ ("message", JStr "Deleted successfully") ] |},
               w2)
         /\ stored w2 = JArr [Sample.older; Sample.newer]
         /\ Server.list_notes w2
            = (Ok {| status := 200; payload := JArr s' |}, w2)
         /\ Permutation [Sample.older; Sample.newer] s').
Proof.
  destruct (@upload_list_delete iso_engine
              (Sample.account true Sample.two_notes true)
              Sample.syllabus Sample.pdf " Syllabus " Sample.reply
              [Sample.older; Sample.newer])
    as [Dev Srv]; try reflexivity.
  - repeat constructor; discriminate.
  - repeat constructor.
  - repeat constructor.
  - split; [exact Dev | ].
    apply Srv. repeat constructor; discriminate.
Defined.

(** * Further properties: bootstrap, repeated calls, sequences *)

(** X19. The bootstrap only looks whether the file exists.  A file
    that exists is left as it is, whatever it holds, also when it
    cannot be read or parsed; a missing file that cannot be created
    makes the bootstrap throw the error of [writeFileSync], and the
    file stays missing.  Both stores. *)
Theorem bootstrap_other_files (w : world) :
  (disk w <> Missing ->
   Store.bootstrap w = (Ok tt, w) /\ PlainStore.bootstrap w = (Ok tt, w))
  /\ (disk w = Missing -> disk_writable w = false ->
      Store.bootstrap w
      = (Throw (SystemError "EACCES: permission denied"), w)
      /\ PlainStore.bootstrap w
         = (Throw (SystemError "EACCES: permission denied"), w)).
Proof.
  unfold Store.bootstrap, PlainStore.bootstrap, bind, fs_existsSync,
    fs_writeFileSync, ret.
  split.
  - intros Hd. destruct (disk w) as [ | | t]; [congruence | | ]; now split.
  - intros Hd Hw. rewrite Hd. cbn. rewrite Hw. now split.
Qed.

Lemma bootstrap_other_files_witness :
  (Store.bootstrap (Sample.account true (Holding Malformed) true)
   = (Ok tt, Sample.account true (Holding Malformed) true)
   /\ PlainStore.bootstrap (Sample.account true (Holding Malformed) true)
      = (Ok tt, Sample.account true (Holding Malformed) true))
  /\ (Store.bootstrap (Sample.account true Missing false)
      = (Throw (SystemError "EACCES: permission denied"),
         Sample.account true Missing false)
      /\ PlainStore.bootstrap (Sample.account true Missing false)
         = (Throw (SystemError "EACCES: permission denied"),
            Sample.account true Missing false)).
Proof.
  split.
  - apply (proj1 (bootstrap_other_files
                    (Sample.account true (Holding Malformed) true))).
    discriminate.
  - apply (proj2 (bootstrap_other_files (Sample.account true Missing false)));
      reflexivity.
Defined.

(** X20. Deleting twice is deleting once.  With the stored collection
    an array of records and the file writable, a second [deleteNote]
    of the same id returns normally and leaves the world exactly as
    the first left it.  Both stores; in the primary store for an id
    that has a text for the log line. *)
Theorem deleteNote_twice (w : world) (l : list json) (id : value) :
  stored w = JArr l -> no_null l -> disk_writable w = true ->
  exists w1,
    (to_primitive id = Ok tt ->
     Store.deleteNote id w = (Ok tt, w1)
     /\ Store.deleteNote id w1 = (Ok tt, w1))
    /\ PlainStore.deleteNote id w = (Ok tt, w1)
    /\ PlainStore.deleteNote id w1 = (Ok tt, w1).
Proof.
  intros Hs Hn Hw.
  set (kept := List.filter (fun n => negb (has_id id n)) l).
  set (w1 := set_disk (Holding (Document (JArr kept))) w).
  assert (S1 : stored w1 = JArr kept) by reflexivity.
  assert (N1 : no_null kept) by (apply filter_no_null; exact Hn).
  assert (W1 : disk_writable w1 = true) by exact Hw.
  exists w1.
  rewrite (@deleteNote_filter w l id Hs Hn),
    (@plain_deleteNote_filter w l id Hs Hn), Hw.
  rewrite (@deleteNote_filter w1 kept id S1 N1),
    (@plain_deleteNote_filter w1 kept id S1 N1), W1.
  assert (K : List.filter (fun n => negb (has_id id n)) kept = kept)
    by apply filter_absent, absent_filter.
  rewrite K. split; [intros ->; split; reflexivity | split; reflexivity].
Qed.

Lemma deleteNote_twice_witness :
  exists w1,
    Store.deleteNote (Some (JStr "1704164645678"))
      (Sample.account true Sample.same_id_twice true) = (Ok tt, w1)
    /\ Store.deleteNote (Some (JStr "1704164645678")) w1 = (Ok tt, w1)
    /\ PlainStore.deleteNote (Some (JStr "1704164645678"))
         (Sample.account true Sample.same_id_twice true) = (Ok tt, w1)
    /\ PlainStore.deleteNote (Some (JStr "1704164645678")) w1 = (Ok tt, w1).
Proof.
  destruct (@deleteNote_twice (Sample.account true Sample.same_id_twice true)
              [Sample.older; Sample.newer; Sample.older_again]
              (Some (JStr "1704164645678")))
    as (w1 & Primary & Plain); try reflexivity.
  - repeat constructor; discriminate.
  - exists w1. destruct (Primary eq_refl) as [First Second].
    split; [exact First | split; [exact Second | exact Plain]].
Defined.

(** X21. What is added is listed, nothing else.  With the stored
    collection an array and the file writable, after [addNote r1] and
    [addNote r2] the plain [getNotes] returns the old records followed
    by the two added, in that order.  The primary [addNote] leaves the
    same file, and returns the note when its [title] has a text for
    the log line; the primary [getNotes] then returns a permutation of
    the old records and the two added, when none of them is [null] and
    every [createdAt] is one that [new Date] accepts.  Both records
    are there, whether or not their ids differ, and no record is
    dropped or doubled. *)
Theorem list_after_adds
  (engine : Engine) (w : world) (l : list json) (r1 r2 : object) :
  stored w = JArr l -> disk_writable w = true ->
  exists w1 w2,
    PlainStore.addNote r1 w = (Ok tt, w1)
    /\ PlainStore.addNote r2 w1 = (Ok tt, w2)
    /\ PlainStore.getNotes w2
       = (Ok (JArr (l ++ [toJSON r1; toJSON r2])), w2)
    /\ snd (Store.addNote r1 w) = w1
    /\ snd (Store.addNote r2 w1) = w2
    /\ (template_text (get "title" r1) = Ok tt ->
        template_text (get "title" r2) = Ok tt ->
        Store.addNote r1 w = (Ok r1, w1)
        /\ Store.addNote r2 w1 = (Ok r2, w2))
    /\ (dated (l ++ [toJSON r1; toJSON r2]) ->
        exists s,
          Store.getNotes w2 = (Ok (JArr s), w2)
          /\ Permutation (l ++ [toJSON r1; toJSON r2]) s).
Proof.
  intros Hs Hw.
  set (w1 := set_disk (Holding (Document (JArr (l ++ [toJSON r1])))) w).
  set (w2 := set_disk
               (Holding (Document (JArr ((l ++ [toJSON r1]) ++ [toJSON r2])))) w1).
  assert (S1 : stored w1 = JArr (l ++ [toJSON r1])) by reflexivity.
  assert (W1 : disk_writable w1 = true) by exact Hw.
  assert (S2 : stored w2 = JArr (l ++ [toJSON r1; toJSON r2])).
  { unfold w2, stored. cbn [set_disk disk view]. now rewrite <- app_assoc. }
  exists w1, w2.
  rewrite (@addNote_appends engine w l r1 Hs),
    (@plain_addNote_appends engine w l r1 Hs), Hw.
  rewrite (@addNote_appends engine w1 _ r2 S1),
    (@plain_addNote_appends engine w1 _ r2 S1), W1.
  rewrite plain_getNotes_view, S2.
  do 5 (split; [reflexivity | ]). split.
  - intros T1 T2. rewrite T1, T2. now split.
  - intros Hl. destruct (sort_list_perm Hl) as [s [S P]].
    exists s. split; [ | exact P].
    unfold Store.getNotes. rewrite (bind_ok _ (readFile_view w2)), S2.
    unfold lift, Array_sort. cbn [array_method bindR]. now rewrite S.
Qed.

Lemma list_after_adds_witness :
  exists w1 w2 s,
    PlainStore.addNote Sample.second_edition
      (Sample.account true Sample.two_notes true) = (Ok tt, w1)
    /\ PlainStore.addNote Sample.fresh_dated w1 = (Ok tt, w2)
    /\ PlainStore.getNotes w2
       = (Ok (JArr ([Sample.older; Sample.newer]
                    ++ [toJSON Sample.second_edition; toJSON Sample.fresh_dated])),
          w2)
    /\ Store.addNote Sample.second_edition
         (Sample.account true Sample.two_notes true)
       = (Ok Sample.second_edition, w1)
    /\ Store.addNote Sample.fresh_dated w1 = (Ok Sample.fresh_dated, w2)
    /\ Store.getNotes w2 = (Ok (JArr s), w2)
    /\ Permutation
         ([Sample.older; Sample.newer]
          ++ [toJSON Sample.second_edition; toJSON Sample.fresh_dated]) s.
Proof.
  destruct (@list_after_adds iso_engine
              (Sample.account true Sample.two_notes true)
              [Sample.older; Sample.newer]
              Sample.second_edition Sample.fresh_dated eq_refl eq_refl)
    as (w1 & w2 & PlainFirst & PlainSecond & PlainList & _ & _ & Adds & List).
  destruct (Adds eq_refl eq_refl) as [First Second].
  destruct List as (s & Listed & Same).
  - repeat constructor; discriminate.
  - exists w1, w2, s.
    split; [exact PlainFirst | ]. split; [exact PlainSecond | ].
    split; [exact PlainList | ]. split; [exact First | ].
    split; [exact Second | ]. split; [exact Listed | exact Same].
Defined.

(** ** Ids drawn from the clock *)

Lemma Number_toString_inj (n m : Z) :
  Number_toString n = Number_toString m -> n = m.
Proof.
  unfold Number_toString. intros E.
  apply DecimalZ.to_int_inj.
  assert (P : forall z, NilZero.int_of_string (NilZero.string_of_int (Z.to_int z))
                        = Some (Z.to_int z)).
  { intros z. apply NilZero.isi; destruct z as [ | p | p]; simpl; try discriminate;
      intros [= H]; now apply DecimalPos.Unsigned.to_uint_nonnil in H. }
  pose proof (P n) as Pn. rewrite E, P in Pn. congruence.
Qed.

Lemma find_app_two (id : value) (l : list json) (n1 n2 : json) :
  absent id l -> has_id id n1 = true ->
  List.find (has_id id) ((l ++ [n1]) ++ [n2]) = Some n1.
Proof.
  intros A H. rewrite <- app_assoc, (find_app_absent _ A). simpl. now rewrite H.
Qed.

Lemma filter_app_two (id : value) (l : list json) (n1 n2 : json) :
  absent id l -> has_id id n1 = true -> has_id id n2 = true ->
  List.filter (fun n => negb (has_id id n)) ((l ++ [n1]) ++ [n2]) = l.
Proof.
  intros A H1 H2. rewrite !filter_app, (filter_absent A). simpl.
  rewrite H1, H2. simpl. now rewrite !app_nil_r.
Qed.

(** X22. The id of an uploaded record is the clock reading and nothing
    else.  Of two uploads accepted one after the other (file writable,
    Cloudinary taking them), both records are stored, and they carry
    the same id exactly when [Date.now()] gave the same number at the
    two readings.  When it did, and no older record has that id, one
    delete of the id answers 200 and removes both records; the server
    on [api/store.js] asks Cloudinary to destroy the file of the first
    record only. *)
Theorem uploads_in_one_millisecond
  (engine : Engine) (w : world) (req1 req2 : upload_request)
  (f1 f2 : multer_file) (t1 t2 : string)
  (reply : upload_options -> upload_result) (l : list json) :
  file req1 = Some f1 -> given (title (body req1)) = Some t1 ->
  file req2 = Some f2 -> given (title (body req2)) = Some t2 ->
  stored w = JArr l -> no_null l ->
  (forall o, upload_reply w o = Ok (reply o)) ->
  (forall p rt, destroy_reply w p rt = Ok tt) ->
  disk_writable w = true ->
  (exists w1 w2 n1 n2,
      DevServer.upload req1 w
      = (Ok {| status := 201;
               payload := JObj [ ("message", JStr "✅ File uploaded successfully!");
                                 ("file", n1) ] |}, w1)
      /\ DevServer.upload req2 w1
         = (Ok {| status := 201;
                  payload := JObj [ ("message", JStr "✅ File uploaded successfully!");
                                    ("file", n2) ] |}, w2)
      /\ stored w2 = JArr (l ++ [n1; n2])
      /\ (field "id" n1 = field "id" n2
          <-> clock w (1 + clock_reads w) = clock w (4 + clock_reads w))
      /\ (clock w (1 + clock_reads w) = clock w (4 + clock_reads w) ->
          absent (Some (JStr (Number_toString (clock w (1 + clock_reads w))))) l ->
          exists w3,
            DevServer.delete (Number_toString (clock w (1 + clock_reads w))) w2
            = (Ok {| status := 200;
                     payload := JObj [ ("message",
                                        JStr "✅ File deleted successfully!") ] |}, w3)
            /\ stored w3 = JArr l))
  /\ (exists w1 w2 n1 n2,
         Server.upload req1 w
         = (Ok {| status := 201;
                  payload := JObj [ ("message", JStr "âœ… File uploaded successfully!");
                                    ("note", n1) ] |}, w1)
         /\ Server.upload req2 w1
            = (Ok {| status := 201;
                     payload := JObj [ ("message", JStr "âœ… File uploaded successfully!");
                                       ("note", n2) ] |}, w2)
         /\ stored w2 = JArr (l ++ [n1; n2])
         /\ (field "id" n1 = field "id" n2
             <-> clock w (clock_reads w) = clock w (2 + clock_reads w))
         /\ (clock w (clock_reads w) = clock w (2 + clock_reads w) ->
             absent (Some (JStr (Number_toString (clock w (clock_reads w))))) l ->
             exists w3,
               Server.delete (Number_toString (clock w (clock_reads w))) w2
               = (Ok {| status := 200;
                        payload := JObj [ ("message", JStr "Deleted successfully") ] |},
                  w3)
               /\ stored w3 = JArr l
               /\ cloud_log w3
                  = (cloud_log w2
                     ++ [DestroyCall (field "publicId" n1)
                           (destroy_resourceType (field "type" n1))])%list)).
Proof.
  intros Hf1 Ht1 Hf2 Ht2 Hs Hn Hr Hd Hw. split.
  - destruct (@dev_upload_accepts engine w req1 f1 t1 reply l Hf1 Ht1 Hs Hr)
      as (o1 & n1 & U1 & _ & [I1 _] & _).
    rewrite Hw in U1.
    set (w1 := set_disk (Holding (Document (JArr (l ++ [n1])))) _) in U1.
    assert (S1 : stored w1 = JArr (l ++ [n1])) by reflexivity.
    assert (R1 : forall o, upload_reply w1 o = Ok (reply o)) by exact Hr.
    destruct (@dev_upload_accepts engine w1 req2 f2 t2 reply _ Hf2 Ht2 S1 R1)
      as (o2 & n2 & U2 & _ & [I2 _] & _).
    change (disk_writable w1) with (disk_writable w) in U2. rewrite Hw in U2.
    change (clock w1 (S (clock_reads w1)))
      with (clock w (4 + clock_reads w)) in I2.
    change (clock w (S (clock_reads w)))
      with (clock w (1 + clock_reads w)) in I1.
    set (w2 := set_disk (Holding (Document (JArr ((l ++ [n1]) ++ [n2])))) _) in U2.
    assert (S2 : stored w2 = JArr ((l ++ [n1]) ++ [n2])) by reflexivity.
    exists w1, w2, n1, n2.
    split; [exact U1 | ]. split; [exact U2 | ].
    split; [now rewrite S2, <- app_assoc | ].
    split.
    + rewrite I1, I2. split.
      * intros [= E]. now apply Number_toString_inj.
      * now intros ->.
    + intros E A. rewrite <- E in I2.
      destruct (@field_has_id _ _ I1) as [H1 N1].
      destruct (@field_has_id _ _ I2) as [H2 N2].
      assert (NN : no_null ((l ++ [n1]) ++ [n2])).
      { repeat (apply Forall_app; split); [exact Hn | | ]; now repeat constructor. }
      pose proof (@dev_delete_found w2 _ _ n1 S2 NN
                    (@find_app_two _ _ _ n2 A H1)) as D.
      cbv zeta in D. rewrite (@filter_app_two _ _ _ _ A H1 H2) in D.
      change (disk_writable w2) with (disk_writable w) in D. rewrite Hw in D.
      eexists. split; [exact D | reflexivity].
  - destruct (@server_upload_accepts engine w req1 f1 t1 reply l Hf1 Ht1 Hs Hr)
      as (o1 & n1 & U1 & _ & [I1 _] & _).
    rewrite Hw in U1.
    set (w1 := set_disk (Holding (Document (JArr (l ++ [n1])))) _) in U1.
    assert (S1 : stored w1 = JArr (l ++ [n1])) by reflexivity.
    assert (R1 : forall o, upload_reply w1 o = Ok (reply o)) by exact Hr.
    destruct (@server_upload_accepts engine w1 req2 f2 t2 reply _ Hf2 Ht2 S1 R1)
      as (o2 & n2 & U2 & _ & [I2 _] & _).
    change (disk_writable w1) with (disk_writable w) in U2. rewrite Hw in U2.
    change (clock w1 (clock_reads w1))
      with (clock w (2 + clock_reads w)) in I2.
    set (w2 := set_disk (Holding (Document (JArr ((l ++ [n1]) ++ [n2])))) _) in U2.
    assert (S2 : stored w2 = JArr ((l ++ [n1]) ++ [n2])) by reflexivity.
    exists w1, w2, n1, n2.
    split; [exact U1 | ]. split; [exact U2 | ].
    split; [now rewrite S2, <- app_assoc | ].
    split.
    + rewrite I1, I2. split.
      * intros [= E]. now apply Number_toString_inj.
      * now intros ->.
    + intros E A. rewrite <- E in I2.
      destruct (@field_has_id _ _ I1) as [H1 N1].
      destruct (@field_has_id _ _ I2) as [H2 N2].
      assert (NN : no_null ((l ++ [n1]) ++ [n2])).
      { repeat (apply Forall_app; split); [exact Hn | | ]; now repeat constructor. }
      assert (D2 : destroy_reply w2 (field "publicId" n1)
                     (destroy_resourceType (field "type" n1)) = Ok tt)
        by apply Hd.
      pose proof (@server_delete_found w2 _ _ n1 S2 NN
                    (@find_app_two _ _ _ n2 A H1) D2) as D.
      cbv zeta in D. rewrite (@filter_app_two _ _ _ _ A H1 H2) in D.
      change (disk_writable w2) with (disk_writable w) in D. rewrite Hw in D.
      eexists. split; [exact D | split; reflexivity].
Qed.

Lemma uploads_in_one_millisecond_witness :
  (exists w1 w2 n1 n2,
      DevServer.upload Sample.syllabus Sample.same_millisecond
      = (Ok {| status := 201;
               payload := JObj [ ("message", JStr "✅ File uploaded successfully!");
                                 ("file", n1) ] |}, w1)
      /\ DevServer.upload Sample.blank_title w1
         = (Ok {| status := 201;
                  payload := JObj [ ("message", JStr "✅ File uploaded successfully!");
                                    ("file", n2) ] |}, w2)
      /\ stored w2 = JArr ([Sample.older; Sample.newer] ++ [n1; n2])
      /\ (field "id" n1 = field "id" n2
          <-> clock Sample.same_millisecond
                (1 + clock_reads Sample.same_millisecond)
              = clock Sample.same_millisecond
                  (4 + clock_reads Sample.same_millisecond))
      /\ (clock Sample.same_millisecond (1 + clock_reads Sample.same_millisecond)
          = clock Sample.same_millisecond (4 + clock_reads Sample.same_millisecond) ->
          absent (Some (JStr (Number_toString
                                (clock Sample.same_millisecond
                                   (1 + clock_reads Sample.same_millisecond)))))
            [Sample.older; Sample.newer] ->
          exists w3,
            DevServer.delete
              (Number_toString
                 (clock Sample.same_millisecond
                    (1 + clock_reads Sample.same_millisecond))) w2
            = (Ok {| status := 200;
                     payload := JObj [ ("message",
                                        JStr "✅ File deleted successfully!") ] |}, w3)
            /\ stored w3 = JArr [Sample.older; Sample.newer]))
  /\ (exists w1 w2 n1 n2,
         Server.upload Sample.syllabus Sample.same_millisecond
         = (Ok {| status := 201;
                  payload := JObj [ ("message", JStr "âœ… File uploaded successfully!");
                                    ("note", n1) ] |}, w1)
         /\ Server.upload Sample.blank_title w1
            = (Ok {| status := 201;
                     payload := JObj [ ("message", JStr "âœ… File uploaded successfully!");
                                       ("note", n2) ] |}, w2)
         /\ stored w2 = JArr ([Sample.older; Sample.newer] ++ [n1; n2])
         /\ (field "id" n1 = field "id" n2
             <-> clock Sample.same_millisecond (clock_reads Sample.same_millisecond)
                 = clock Sample.same_millisecond
                     (2 + clock_reads Sample.same_millisecond))
         /\ (clock Sample.same_millisecond (clock_reads Sample.same_millisecond)
             = clock Sample.same_millisecond
                 (2 + clock_reads Sample.same_millisecond) ->
             absent (Some (JStr (Number_toString
                                   (clock Sample.same_millisecond
                                      (clock_reads Sample.same_millisecond)))))
               [Sample.older; Sample.newer] ->
             exists w3,
               Server.delete
                 (Number_toString
                    (clock Sample.same_millisecond
                       (clock_reads Sample.same_millisecond))) w2
               = (Ok {| status := 200;
                        payload := JObj [ ("message", JStr "Deleted successfully") ] |},
                  w3)
               /\ stored w3 = JArr [Sample.older; Sample.newer]
               /\ cloud_log w3
                  = (cloud_log w2
                     ++ [DestroyCall (field "publicId" n1)
                           (destroy_resourceType (field "type" n1))])%list)).
Proof.
  apply (@uploads_in_one_millisecond iso_engine Sample.same_millisecond
           Sample.syllabus Sample.blank_title Sample.pdf Sample.pdf
           " Syllabus " "  " Sample.reply [Sample.older; Sample.newer]);
    try reflexivity.
  repeat constructor; discriminate.
Defined.

(** * The log lines and the comparator, when a value has no text *)

Lemma to_primitive_outcome (v : value) :
  to_primitive v = Ok tt \/ type_error (to_primitive v).
Proof.
  unfold to_primitive, type_error. destruct v as [j | ]; [ | now left].
  destruct (converts j); [now left | right; eexists; reflexivity].
Qed.

Lemma template_text_outcome (p : option property) :
  template_text p = Ok tt \/ type_error (template_text p).
Proof.
  destruct p as [[v | t] | ]; [ | now left | now left].
  exact (to_primitive_outcome (Some v)).
Qed.

(** X23. The log line comes after the write.  Let the stored collection
    be an array of records and the file writable.  When the [title] of
    the note has no text (it is an object with a [toString] of its own,
    which is no function), [addNote] of the primary store throws a
    [TypeError], and the record is in the file all the same.  When the
    id has no text, [deleteNote] of the primary store throws a
    [TypeError], and the file has been rewritten all the same.  The
    plain store, which logs nothing, returns normally and leaves the
    same file. *)
Theorem log_after_write
  (engine : Engine) (w : world) (l : list json) (r : object) (id : value) :
  stored w = JArr l -> no_null l -> disk_writable w = true ->
  (template_text (get "title" r) <> Ok tt ->
   type_error (fst (Store.addNote r w))
   /\ stored (snd (Store.addNote r w)) = JArr (l ++ [toJSON r])
   /\ PlainStore.addNote r w = (Ok tt, snd (Store.addNote r w)))
  /\ (to_primitive id <> Ok tt ->
      type_error (fst (Store.deleteNote id w))
      /\ stored (snd (Store.deleteNote id w))
         = JArr (List.filter (fun n => negb (has_id id n)) l)
      /\ PlainStore.deleteNote id w = (Ok tt, snd (Store.deleteNote id w))).
Proof.
  intros Hs Hn Hw.
  rewrite (@addNote_appends engine w l r Hs),
    (@plain_addNote_appends engine w l r Hs),
    (@deleteNote_filter w l id Hs Hn),
    (@plain_deleteNote_filter w l id Hs Hn), Hw.
  cbn [fst snd]. split.
  - intros T. destruct (template_text_outcome (get "title" r)) as [E | [m E]];
      [contradiction | ].
    rewrite E. repeat split. now exists m.
  - intros T. destruct (to_primitive_outcome id) as [E | E];
      [contradiction | ].
    repeat split. exact E.
Qed.

Lemma log_after_write_witness :
  (type_error (fst (Store.addNote Sample.untitled
                      (Sample.account true Sample.two_notes true)))
   /\ stored (snd (Store.addNote Sample.untitled
                     (Sample.account true Sample.two_notes true)))
      = JArr ([Sample.older; Sample.newer] ++ [toJSON Sample.untitled])
   /\ PlainStore.addNote Sample.untitled (Sample.account true Sample.two_notes true)
      = (Ok tt,
         snd (Store.addNote Sample.untitled
                (Sample.account true Sample.two_notes true))))
  /\ (type_error (fst (Store.deleteNote Sample.odd_id
                         (Sample.account true Sample.two_notes true)))
      /\ stored (snd (Store.deleteNote Sample.odd_id
                        (Sample.account true Sample.two_notes true)))
         = JArr (List.filter (fun n => negb (has_id Sample.odd_id n))
                   [Sample.older; Sample.newer])
      /\ PlainStore.deleteNote Sample.odd_id
           (Sample.account true Sample.two_notes true)
         = (Ok tt,
            snd (Store.deleteNote Sample.odd_id
                   (Sample.account true Sample.two_notes true)))).
Proof.
  destruct (@log_after_write iso_engine
              (Sample.account true Sample.two_notes true)
              [Sample.older; Sample.newer] Sample.untitled Sample.odd_id)
    as [Add Delete].
  - reflexivity.
  - repeat constructor; discriminate.
  - reflexivity.
  - split; [apply Add | apply Delete]; discriminate.
Defined.

(** ** A [createdAt] the comparator cannot read *)

Section Undatable.
Context {engine : Engine}.

Lemma newest_first_type_error (a b : json) (e : exn) :
  Store.newest_first a b = Throw e -> exists m, e = TypeError m.
Proof.
  unfold Store.newest_first, new_Date, to_primitive.
  destruct b as [ | ? | ? | ? | ? | pb]; cbn [prop bindR];
    try (intros [= <-]; eexists; reflexivity);
    try (destruct a as [ | ? | ? | ? | ? | pa]; cbn [prop bindR];
         try (intros [= <-]; eexists; reflexivity);
         try discriminate;
         destruct (lookup "createdAt" pa) as [ja | ]; cbn [bindR];
         try discriminate;
         destruct (converts ja); cbn [bindR];
         try discriminate; intros [= <-]; eexists; reflexivity).
  destruct (lookup "createdAt" pb) as [jb | ]; cbn [bindR].
  - destruct (converts jb); cbn [bindR];
      [ | intros [= <-]; eexists; reflexivity].
    destruct a as [ | ? | ? | ? | ? | pa]; cbn [prop bindR];
      try (intros [= <-]; eexists; reflexivity); try discriminate.
    destruct (lookup "createdAt" pa) as [ja | ]; cbn [bindR];
      try discriminate.
    destruct (converts ja); cbn [bindR];
      try discriminate; intros [= <-]; eexists; reflexivity.
  - destruct a as [ | ? | ? | ? | ? | pa]; cbn [prop bindR];
      try (intros [= <-]; eexists; reflexivity); try discriminate.
    destruct (lookup "createdAt" pa) as [ja | ]; cbn [bindR];
      try discriminate.
    destruct (converts ja); cbn [bindR];
      try discriminate; intros [= <-]; eexists; reflexivity.
Qed.

Lemma dated_or_not (n : json) :
  dated [n] \/ ~ dated [n].
Proof.
  destruct n as [ | ? | ? | ? | ? | props];
    try (left; repeat constructor; discriminate);
    try (right; intros H; apply Forall_inv in H; now destruct H).
  unfold dated, field. cbn [prop].
  destruct (to_primitive_outcome (lookup "createdAt" props)) as [E | [m E]].
  - left. repeat constructor; [discriminate | exact E].
  - right. intros H. apply Forall_inv in H. destruct H as [_ H]. congruence.
Qed.

Lemma newest_first_undated (a b : json) :
  ~ dated [a] \/ ~ dated [b] -> type_error (Store.newest_first a b).
Proof.
  intros H. destruct (Store.newest_first a b) as [c | e] eqn:E.
  - exfalso.
    unfold Store.newest_first in E.
    destruct (prop (Some b) "createdAt") as [cb | ] eqn:Pb; [ | discriminate].
    cbn [bindR] in E.
    destruct (new_Date cb) as [db | ] eqn:Db; [ | discriminate].
    cbn [bindR] in E.
    destruct (prop (Some a) "createdAt") as [ca | ] eqn:Pa; [ | discriminate].
    cbn [bindR] in E.
    destruct (new_Date ca) as [da | ] eqn:Da; [ | discriminate].
    assert (Ok_of : forall n v d,
               prop (Some n) "createdAt" = Ok v -> new_Date v = Ok d ->
               dated [n]).
    { intros n v d P D. constructor; [ | constructor]. split.
      - intros ->. discriminate.
      - unfold field. rewrite P. unfold new_Date in D.
        now destruct (to_primitive v) as [[] | ]. }
    destruct H as [H | H]; apply H; eauto.
  - destruct (newest_first_type_error _ _ E) as [m ->]. now exists m.
Qed.

Lemma sort_insert_permutes (x : json) (s r : list json) :
  sort_insert Store.newest_first x s = Ok r -> Permutation (x :: s) r.
Proof.
  revert r. induction s as [ | y s IH]; simpl; intros r H.
  - now injection H as <-.
  - destruct (Store.newest_first x y) as [c | ]; [ | discriminate].
    cbn [bindR] in H. destruct (sort_order c <=? 0).
    + now injection H as <-.
    + destruct (sort_insert Store.newest_first x s) as [r' | ]; [ | discriminate].
      cbn [bindR] in H. injection H as <-.
      eapply perm_trans; [apply perm_swap | apply perm_skip, IH; reflexivity].
Qed.

Lemma sort_list_permutes (l s : list json) :
  sort_list Store.newest_first l = Ok s -> Permutation l s.
Proof.
  revert s. induction l as [ | x l IH]; simpl; intros s H.
  - now injection H as <-.
  - destruct (sort_list Store.newest_first l) as [s' | ]; [ | discriminate].
    cbn [bindR] in H. apply sort_insert_permutes in H.
    eapply perm_trans; [apply perm_skip, IH; reflexivity | exact H].
Qed.

Lemma sort_insert_type_error (x : json) (s : list json) (e : exn) :
  sort_insert Store.newest_first x s = Throw e -> exists m, e = TypeError m.
Proof.
  induction s as [ | y s IH]; simpl; [discriminate | ].
  destruct (Store.newest_first x y) as [c | e'] eqn:C; cbn [bindR].
  - destruct (sort_order c <=? 0); [discriminate | ].
    destruct (sort_insert Store.newest_first x s) as [r | e'']; cbn [bindR];
      [discriminate | ].
    intros [= <-]. now apply IH.
  - intros [= <-]. exact (newest_first_type_error _ _ C).
Qed.

Lemma sort_list_type_error (l : list json) (e : exn) :
  sort_list Store.newest_first l = Throw e -> exists m, e = TypeError m.
Proof.
  induction l as [ | x l IH]; simpl; [discriminate | ].
  destruct (sort_list Store.newest_first l) as [s | e']; cbn [bindR].
  - apply sort_insert_type_error.
  - intros [= <-]. now apply IH.
Qed.

Lemma dated_cons (x : json) (l : list json) :
  dated [x] -> dated l -> dated (x :: l).
Proof. intros Hx Hl. constructor; [exact (Forall_inv Hx) | exact Hl]. Qed.

Lemma sort_list_undated (l : list json) :
  (2 <= List.length l)%nat -> ~ dated l ->
  type_error (sort_list Store.newest_first l).
Proof.
  induction l as [ | x rest IH]; simpl; [lia | ].
  intros Len Bad.
  destruct (sort_list Store.newest_first rest) as [s | e] eqn:S; cbn [bindR].
  - pose proof (sort_list_permutes _ S) as P.
    destruct s as [ | y s'].
    { apply Permutation_sym, Permutation_nil in P. subst rest. simpl in Len. lia. }
    cbn [sort_insert].
    destruct (dated_or_not x) as [Hx | Hx];
      [ | destruct (newest_first_undated (or_introl Hx : _ \/ ~ dated [y]))
            as [m ->]; now exists m ].
    destruct (dated_or_not y) as [Hy | Hy];
      [ | destruct (newest_first_undated (or_intror Hy : ~ dated [x] \/ _))
            as [m ->]; now exists m ].
    exfalso.
    assert (Bad' : ~ dated rest).
    { intros Hr. apply Bad. now apply dated_cons. }
    destruct rest as [ | y0 [ | y1 rest']].
    + simpl in Len. lia.
    + apply Permutation_length_1_inv in P. injection P as <- _.
      now apply Bad'.
    + assert (L : (2 <= List.length (y0 :: y1 :: rest'))%nat) by (simpl; lia).
      destruct (IH L Bad') as [m E]. discriminate.
  - destruct (sort_list_type_error _ S) as [m ->]. now exists m.
Qed.

End Undatable.

(** X24. Where the listing of the primary store fails.  When the file
    holds an array of two entries or more, one of which is [null] or
    has a [createdAt] that is an object without a conversion to a
    primitive, the comparator throws: [getNotes] of the primary store
    throws a [TypeError], the world untouched, and [GET /api/notes] of
    the server on the store answers 500; the plain [getNotes] and the
    listing of the development server return the array as it is. *)
Theorem getNotes_undated (engine : Engine) (w : world) (l : list json) :
  stored w = JArr l -> (2 <= List.length l)%nat -> ~ dated l ->
  fails_untouched Store.getNotes w
  /\ Server.list_notes w
     = (Ok {| status := 500;
              payload := JObj [ ("error", JStr "Failed to load notes") ] |}, w)
  /\ PlainStore.getNotes w = (Ok (JArr l), w)
  /\ DevServer.list_notes w
     = (Ok {| status := 200; payload := JArr l |}, w).
Proof.
  intros Hs Len Bad.
  destruct (sort_list_undated Len Bad) as [m E].
  assert (G : Store.getNotes w = (Throw (TypeError m), w)).
  { unfold Store.getNotes. rewrite (bind_ok _ (readFile_view w)), Hs.
    unfold lift, Array_sort. cbn [array_method bindR]. now rewrite E. }
  split; [ | split; [ | split]].
  - unfold fails_untouched. rewrite G. split; [now exists m | reflexivity].
  - unfold Server.list_notes, try_catch, bind. now rewrite G.
  - now rewrite plain_getNotes_view, Hs.
  - unfold DevServer.list_notes.
    now rewrite (bind_ok _ (dev_getNotes_view w)), Hs.
Qed.

Lemma getNotes_undated_witness :
  fails_untouched Store.getNotes (Sample.account true Sample.undatable true)
  /\ Server.list_notes (Sample.account true Sample.undatable true)
     = (Ok {| status := 500;
              payload := JObj [ ("error", JStr "Failed to load notes") ] |},
        Sample.account true Sample.undatable true)
  /\ PlainStore.getNotes (Sample.account true Sample.undatable true)
     = (Ok (JArr [ JObj [ ("createdAt", JObj [ ("toString", JNum 1) ]) ];
                   JObj [] ]),
        Sample.account true Sample.undatable true)
  /\ DevServer.list_notes (Sample.account true Sample.undatable true)
     = (Ok {| status := 200;
              payload := JArr [ JObj [ ("createdAt", JObj [ ("toString", JNum 1) ]) ];
                                JObj [] ] |},
        Sample.account true Sample.undatable true).
Proof.
  apply (@getNotes_undated iso_engine (Sample.account true Sample.undatable true)
           [ JObj [ ("createdAt", JObj [ ("toString", JNum 1) ]) ]; JObj [] ]).
  - reflexivity.
  - simpl. lia.
  - intros H. apply Forall_inv in H. destruct H as [_ H]. discriminate H.
Defined.
